(** * Chess openings tier list: a shallow embedding and its properties

    The development follows the Python sources of [chess-openings-tierlist]:

    - [data_collection/collect_openings.py]: the discovery engine and the
      primary scoring formula ([Collector]);
    - [database/models.py]: the four mapped classes ([Models]);
    - the SQLAlchemy session the code talks to ([Orm]): a committed store, an
      open transaction, the unit of work with its pending and loaded objects,
      and a plan of injected failures;
    - [data_collection/data_processor.py]: [save_to_database] ([Processor]);
    - [api/main.py]: the query and tier-list endpoints ([Api]).

    Python [int] is [Z].  Python [float] is an interface [PyFloat] with two
    instances: IEEE 754 binary64 (what CPython computes) and the exact
    rationals the doubles denote.  [None] is [option]'s [None].

    The embedding comes first; the properties follow from "Properties" on,
    each claim's theorem under a comment that starts with its number. *)

From Stdlib Require Import ZArith QArith Qabs List String Ascii Bool Lia.
From Stdlib Require Import Permutation Sorted Floats Uint63 Lqa Qpower DecimalString.
Import ListNotations.

Set Implicit Arguments.
Set Warnings "-inexact-float".

Open Scope string_scope.
Open Scope list_scope.
Open Scope Z_scope.

(* ===================================================================== *)
(** ** Python built-ins used by the sources *)
(* ===================================================================== *)

Module Py.

(** [l[:n]].  A negative [n] counts from the end of the list. *)
Definition slice_to {A} (n : Z) (l : list A) : list A :=
  if n <? 0
  then firstn (Z.to_nat (Z.of_nat (List.length l) + n)) l
  else firstn (Z.to_nat n) l.

(** [len(l)] as a Python [int]. *)
Definition len {A} (l : list A) : Z := Z.of_nat (List.length l).

(** Truth value of an [Optional[str]]: [None] and [""] are false. *)
Definition truthy (s : option string) : bool :=
  match s with
  | None => false
  | Some "" => false
  | Some _ => true
  end.

(** [str.lower()] on ASCII text. *)
Definition lower_ascii (c : ascii) : ascii :=
  let n := nat_of_ascii c in
  if andb (Nat.leb 65 n) (Nat.leb n 90) then ascii_of_nat (n + 32) else c.

Fixpoint lower (s : string) : string :=
  match s with
  | EmptyString => EmptyString
  | String c r => String (lower_ascii c) (lower r)
  end.

(** A stable sort: [list.sort(key=..., reverse=True)] keeps the original
    order of elements whose keys are equal, and so does SQL's [ORDER BY]
    as modelled here.  [before y x] says that [y] has to come ahead of an
    [x] that stood in front of it; otherwise [x] keeps its place. *)
Section StableSort.
Variable A : Type.
Variable before : A -> A -> bool.   (* [before y x]: y must precede x *)

Fixpoint insert (x : A) (l : list A) : list A :=
  match l with
  | [] => [x]
  | y :: r => if before y x then y :: insert x r else x :: y :: r
  end.

Fixpoint sort (l : list A) : list A :=
  match l with
  | [] => []
  | x :: r => insert x (sort r)
  end.
End StableSort.

End Py.

(* ===================================================================== *)
(** ** Python floats *)
(* ===================================================================== *)

(** The operations the sources apply to floats.  [of_int] is the implicit
    conversion of an [int] operand; [lit_0_4], [lit_0_2] and [lit_0_5] are
    the literals [0.4], [0.2] and [0.5]. *)
Class PyFloat (F : Type) := {
  of_int : Z -> F;
  fadd : F -> F -> F;
  fsub : F -> F -> F;
  fmul : F -> F -> F;
  fdiv : F -> F -> F;
  lit_0_4 : F;
  lit_0_2 : F;
  lit_0_5 : F;
  feqb : F -> F -> bool;
  fltb : F -> F -> bool
}.

(** binary64, as CPython computes.  Counts are below 2^53 in magnitude, where
    [int / int] is the correctly rounded quotient of the two conversions. *)
Module Binary64.

Definition of_Z (z : Z) : float :=
  match z with
  | Z0 => 0%float
  | Zpos _ => PrimFloat.of_uint63 (Uint63.of_Z z)
  | Zneg _ => PrimFloat.opp (PrimFloat.of_uint63 (Uint63.of_Z (- z)))
  end.

#[export] Instance binary64 : PyFloat float := {
  of_int := of_Z;
  fadd := PrimFloat.add;
  fsub := PrimFloat.sub;
  fmul := PrimFloat.mul;
  fdiv := PrimFloat.div;
  lit_0_4 := 0.4%float;
  lit_0_2 := 0.2%float;
  lit_0_5 := 0.5%float;
  feqb := PrimFloat.eqb;
  fltb := PrimFloat.ltb
}.

End Binary64.

(** The exact rationals: every finite double is one, and the instance
    computes without rounding. *)
Module Exact.

#[export] Instance exact : PyFloat Q := {
  of_int := inject_Z;
  fadd := Qplus;
  fsub := Qminus;
  fmul := Qmult;
  fdiv := Qdiv;
  lit_0_4 := 4 # 10;
  lit_0_2 := 2 # 10;
  lit_0_5 := 1 # 2;
  feqb := Qeq_bool;
  fltb := fun a b => negb (Qle_bool b a)
}.

End Exact.

(* ===================================================================== *)
(** ** data_collection/collect_openings.py *)
(* ===================================================================== *)

Module Collector.

(** One entry of the provider's ["moves"] array. *)
Record MoveStat := {
  san : string;
  uci : string;
  white : Z;
  black : Z;
  draws : Z;
  averageRating : option Z
}.

Record OpeningInfo := { eco : string; name : string }.

(** The provider's answer to one explorer request.  A key the code reads
    with [stats.get(key, 0)] or [stats.get('moves', [])] and that is
    missing holds that default. *)
Record ExplorerStats := {
  moves : list MoveStat;
  stats_white : Z;
  stats_black : Z;
  stats_draws : Z;
  opening : option OpeningInfo
}.

(** [get_lichess_games(play=..., moves=...)]; the rating and speed sets are
    the collector's constants. *)
Record Request := { play : list string; breadth : Z }.

(** The external provider and the clock.  [respond n rq] is the answer to
    the [n]-th request of the run, [None] when the call raises. *)
Record Provider := {
  respond : nat -> Request -> option ExplorerStats;
  utcnow : nat -> Z
}.

(** Code that calls the provider threads the number of calls made. *)
Definition Run (A : Type) : Type := nat -> A * nat.

Definition ret {A} (a : A) : Run A := fun n => (a, n).

Definition bind {A B} (m : Run A) (k : A -> Run B) : Run B :=
  fun n => let (a, n') := m n in k a n'.

Notation "x <- m ;; k" := (bind m (fun x => k))
  (at level 61, m at next level, right associativity).

Section WithFloat.
Context {F : Type} `{PyFloat F}.
Variable P : Provider.

(** [count / total if total > 0 else 0] *)
Definition rate (count total : Z) : F :=
  if total >? 0 then fdiv (of_int count) (of_int total) else of_int 0.

(** [(win_rate_white * 0.4 + (1 - win_rate_black) * 0.4
      + draw_rate * 0.2) * 100] *)
Definition performance_score (win_rate_white win_rate_black draw_rate : F) : F :=
  fmul (fadd (fadd (fmul win_rate_white lit_0_4)
                   (fmul (fsub (of_int 1) win_rate_black) lit_0_4))
             (fmul draw_rate lit_0_2))
       (of_int 100).

Record FirstMove := {
  move : string;
  fm_uci : string;
  fm_white_wins : Z;
  fm_black_wins : Z;
  fm_draws : Z;
  fm_total_games : Z;
  average_rating : Z;
  fm_win_rate_white : F;
  fm_collected_at : Z
}.

Definition first_move_of (now : Z) (m : MoveStat) : FirstMove :=
  let total := white m + black m + draws m in
  {| move := san m;
     fm_uci := uci m;
     fm_white_wins := white m;
     fm_black_wins := black m;
     fm_draws := draws m;
     fm_total_games := total;
     average_rating := match averageRating m with Some r => r | None => 0 end;
     fm_win_rate_white := rate (white m) total;
     fm_collected_at := now |}.

(** [datetime.utcnow()], read after the calls made so far. *)
Definition clock : Run Z := fun n => (utcnow P n, n).

(** [get_popular_openings]: one request from the starting position; an
    exception is logged and the list stays empty. *)
Definition get_popular_openings (max_moves : Z) : Run (list FirstMove) :=
  fun n =>
    match respond P n {| play := []; breadth := max_moves |} with
    | Some stats => (map (first_move_of (utcnow P n)) (moves stats), S n)
    | None => ([], S n)
    end.

(** The dict [get_opening_continuations] returns; [{}] is [None]. *)
Record Continuation := {
  c_moves : list string;
  c_opening : option OpeningInfo;
  c_white_wins : Z;
  c_black_wins : Z;
  c_draws : Z;
  c_total_games : Z;
  continuations : list MoveStat;
  c_collected_at : Z
}.

Definition get_opening_continuations (mvs : list string) : Run (option Continuation) :=
  fun n =>
    match respond P n {| play := mvs; breadth := 5 |} with
    | Some stats =>
        (Some {| c_moves := mvs;
                 c_opening := opening stats;
                 c_white_wins := stats_white stats;
                 c_black_wins := stats_black stats;
                 c_draws := stats_draws stats;
                 c_total_games := stats_white stats + stats_black stats + stats_draws stats;
                 continuations := moves stats;
                 c_collected_at := utcnow P n |}, S n)
    | None => (None, S n)
    end.

(** One discovered line, the dict appended to [discovered_openings]. *)
Record OpeningData := {
  moves_sequence : list string;
  eco_code : string;
  opening_name : string;
  white_wins : Z;
  black_wins : Z;
  od_draws : Z;
  total_games : Z;
  win_rate_white : F;
  win_rate_black : F;
  draw_rate : F;
  od_performance_score : F;
  collected_at : Z
}.

(** Lines 188-212: the metrics of a line that passed the floor. *)
Definition opening_data_of (mvs : list string) (st : Continuation) (now : Z) : OpeningData :=
  let total := c_total_games st in
  let wr := rate (c_white_wins st) total in
  let br := rate (c_black_wins st) total in
  let dr := rate (c_draws st) total in
  {| moves_sequence := mvs;
     eco_code := match c_opening st with Some o => eco o | None => "" end;
     opening_name := match c_opening st with Some o => name o | None => "" end;
     white_wins := c_white_wins st;
     black_wins := c_black_wins st;
     od_draws := c_draws st;
     total_games := total;
     win_rate_white := wr;
     win_rate_black := br;
     draw_rate := dr;
     od_performance_score := performance_score wr br dr;
     collected_at := now |}.

Variable max_openings : Z.

(** The inner [for continuation in ...[:5]] loop, started with the lines
    discovered so far.  [continue] goes to the next continuation, [break]
    returns. *)
Fixpoint explore_continuations (first : string) (conts : list MoveStat)
         (discovered : list OpeningData) : Run (list OpeningData) :=
  match conts with
  | [] => ret discovered
  | continuation :: rest =>
      let mvs := [first; san continuation] in
      opening_stats <- get_opening_continuations mvs ;;
      match opening_stats with
      | None => explore_continuations first rest discovered
      | Some st =>
          if c_total_games st <? 100
          then explore_continuations first rest discovered
          else
            now <- clock ;;
            let discovered' := discovered ++ [opening_data_of mvs st now] in
            if Py.len discovered' >=? max_openings
            then ret discovered'
            else explore_continuations first rest discovered'
      end
  end.

(** The outer [for first_move in first_moves[:8]] loop. *)
Fixpoint explore_first_moves (firsts : list FirstMove)
         (discovered : list OpeningData) : Run (list OpeningData) :=
  match firsts with
  | [] => ret discovered
  | first_move :: rest =>
      second_move_stats <- get_opening_continuations [move first_move] ;;
      match second_move_stats with
      | None => explore_first_moves rest discovered
      | Some st =>
          discovered' <- explore_continuations (move first_move)
                           (Py.slice_to 5 (continuations st)) discovered ;;
          if Py.len discovered' >=? max_openings
          then ret discovered'
          else explore_first_moves rest discovered'
      end
  end.

(** [key=lambda x: (x['performance_score'], x['total_games'])], compared
    as Python compares tuples. *)
Definition key_lt (a b : OpeningData) : bool :=
  if feqb (od_performance_score a) (od_performance_score b)
  then total_games a <? total_games b
  else fltb (od_performance_score a) (od_performance_score b).

(** [sort(key=..., reverse=True)]: a later element overtakes an earlier
    one only when its key is strictly greater. *)
Definition sort_discovered (l : list OpeningData) : list OpeningData :=
  Py.sort (fun y x => key_lt x y) l.

Definition discover_openings_tree : Run (list OpeningData) :=
  first_moves <- get_popular_openings 8 ;;
  discovered <- explore_first_moves (Py.slice_to 8 first_moves) [] ;;
  ret (Py.slice_to max_openings (sort_discovered discovered)).

End WithFloat.

End Collector.

(* ===================================================================== *)
(** ** database/models.py *)
(* ===================================================================== *)

(** The mapped classes, with the columns the modelled functions read or
    write.  A primary key is [None] on an object that was never flushed.
    [Float] columns hold finite doubles, kept as the rationals they denote;
    [DateTime] columns are instants on an integer clock. *)
Module Models.

Record Opening := {
  id : option Z;
  eco_code : string;
  name : string;
  moves_sequence : list string;
  popularity_rank : Z;
  is_active : bool
}.

Record OpeningStatistic := {
  st_id : option Z;
  opening_id : option Z;
  white_wins : Z;
  black_wins : Z;
  draws : Z;
  total_games : Z;
  win_rate_white : Q;
  win_rate_black : Q;
  draw_rate : Q;
  performance_score : Q;
  rating_range : option string;
  time_control : option string;
  date_range_start : option Z;
  date_range_end : option Z;
  average_rating : option Z;
  average_game_length : option Z;
  frequency_rank : option Z;
  collected_at : Z;
  data_source : string
}.

(** The [win_rate_for_white] and [win_rate_for_black] properties. *)
Section Properties.
Context {F : Type} `{PyFloat F}.

Definition win_rate_for_white (s : OpeningStatistic) : F :=
  if total_games s =? 0 then of_int 0
  else fdiv (fadd (of_int (white_wins s)) (fmul (of_int (draws s)) lit_0_5))
            (of_int (total_games s)).

Definition win_rate_for_black (s : OpeningStatistic) : F :=
  if total_games s =? 0 then of_int 0
  else fdiv (fadd (of_int (black_wins s)) (fmul (of_int (draws s)) lit_0_5))
            (of_int (total_games s)).
End Properties.

Record DataUpdateLog := {
  log_id : option Z;
  operation_type : string;
  status : string;
  openings_processed : Z;
  statistics_updated : Z;
  started_at : Z;
  completed_at : option Z;
  duration_seconds : option Z;
  error_message : option string
}.

Record TierListEntry := {
  te_id : option Z;
  te_opening_id : option Z;
  tier_rank : string;
  tier_position : Z;
  te_rating_range : option string;
  te_time_control : option string;
  user_id : option string;
  created_at : option Z;
  updated_at : option Z
}.

(** What every mapped class has: an integer primary key, and column
    defaults ([default=datetime.utcnow]) filled in by an INSERT at time
    [now] where the object left the column unset. *)
Class Row (R : Type) := {
  pk : R -> option Z;
  with_pk : Z -> R -> R;
  defaults : Z -> R -> R
}.

#[export] Instance Row_Opening : Row Opening := {
  pk := id;
  with_pk k o :=
    {| id := Some k; eco_code := eco_code o; name := name o;
       moves_sequence := moves_sequence o;
       popularity_rank := popularity_rank o; is_active := is_active o |};
  defaults _ o := o
}.

Definition set_opening_id (k : option Z) (s : OpeningStatistic) : OpeningStatistic :=
  {| st_id := st_id s; opening_id := k;
     white_wins := white_wins s; black_wins := black_wins s; draws := draws s;
     total_games := total_games s; win_rate_white := win_rate_white s;
     win_rate_black := win_rate_black s; draw_rate := draw_rate s;
     performance_score := performance_score s;
     rating_range := rating_range s; time_control := time_control s;
     date_range_start := date_range_start s; date_range_end := date_range_end s;
     average_rating := average_rating s;
     average_game_length := average_game_length s;
     frequency_rank := frequency_rank s; collected_at := collected_at s;
     data_source := data_source s |}.

#[export] Instance Row_OpeningStatistic : Row OpeningStatistic := {
  pk := st_id;
  with_pk k s :=
    {| st_id := Some k; opening_id := opening_id s;
       white_wins := white_wins s; black_wins := black_wins s; draws := draws s;
       total_games := total_games s; win_rate_white := win_rate_white s;
       win_rate_black := win_rate_black s; draw_rate := draw_rate s;
       performance_score := performance_score s;
       rating_range := rating_range s; time_control := time_control s;
       date_range_start := date_range_start s; date_range_end := date_range_end s;
       average_rating := average_rating s;
       average_game_length := average_game_length s;
       frequency_rank := frequency_rank s; collected_at := collected_at s;
       data_source := data_source s |};
  defaults _ s := s
}.

#[export] Instance Row_DataUpdateLog : Row DataUpdateLog := {
  pk := log_id;
  with_pk k l :=
    {| log_id := Some k; operation_type := operation_type l; status := status l;
       openings_processed := openings_processed l;
       statistics_updated := statistics_updated l;
       started_at := started_at l; completed_at := completed_at l;
       duration_seconds := duration_seconds l;
       error_message := error_message l |};
  defaults _ l := l
}.

#[export] Instance Row_TierListEntry : Row TierListEntry := {
  pk := te_id;
  with_pk k e :=
    {| te_id := Some k; te_opening_id := te_opening_id e;
       tier_rank := tier_rank e; tier_position := tier_position e;
       te_rating_range := te_rating_range e;
       te_time_control := te_time_control e; user_id := user_id e;
       created_at := created_at e; updated_at := updated_at e |};
  defaults now e :=
    {| te_id := te_id e; te_opening_id := te_opening_id e;
       tier_rank := tier_rank e; tier_position := tier_position e;
       te_rating_range := te_rating_range e;
       te_time_control := te_time_control e; user_id := user_id e;
       created_at := match created_at e with Some t => Some t | None => Some now end;
       updated_at := match updated_at e with Some t => Some t | None => Some now end |}
}.

End Models.

(* ===================================================================== *)
(** ** The SQLAlchemy session *)
(* ===================================================================== *)

(** [get_session] builds sessions with [autocommit=False, autoflush=False]:
    nothing reaches the database before an explicit [flush] or [commit], and a
    query does not see objects that were only [add]ed.

    A table is the list of its rows in insertion order.  The database is the
    default SQLite file: an INSERT without a key takes one more than the
    largest key in the table, and a key that is already present is rejected.

    Failures are injected by a plan: [plan n = Some msg] makes the [n]-th
    round trip of the session raise [msg]. *)
Module Orm.
Import Models.

Record Db := {
  openings : list Opening;
  statistics : list OpeningStatistic;
  update_logs : list DataUpdateLog;
  tier_list_entries : list TierListEntry
}.

Definition empty_db : Db :=
  {| openings := []; statistics := []; update_logs := []; tier_list_entries := [] |}.

(** A mapped class names its table. *)
Record Table (R : Type) := {
  rows : Db -> list R;
  with_rows : list R -> Db -> Db
}.

Definition Openings : Table Opening :=
  {| rows := openings;
     with_rows l d := {| openings := l; statistics := statistics d;
                         update_logs := update_logs d;
                         tier_list_entries := tier_list_entries d |} |}.

Definition Statistics : Table OpeningStatistic :=
  {| rows := statistics;
     with_rows l d := {| openings := openings d; statistics := l;
                         update_logs := update_logs d;
                         tier_list_entries := tier_list_entries d |} |}.

Definition UpdateLogs : Table DataUpdateLog :=
  {| rows := update_logs;
     with_rows l d := {| openings := openings d; statistics := statistics d;
                         update_logs := l;
                         tier_list_entries := tier_list_entries d |} |}.

Definition TierListEntries : Table TierListEntry :=
  {| rows := tier_list_entries;
     with_rows l d := {| openings := openings d; statistics := statistics d;
                         update_logs := update_logs d;
                         tier_list_entries := l |} |}.

(** *** Statements on one table *)
Section Statements.
Context {R : Type} `{Row R}.

Definition has_pk (k : Z) (r : R) : bool :=
  match pk r with Some k' => k' =? k | None => false end.

(** The key SQLite gives the next row. *)
Definition next_pk (t : list R) : Z :=
  1 + fold_right (fun r m => match pk r with Some k => Z.max k m | None => m end) 0 t.

(** [UPDATE ... WHERE id = pk(o)] with the attributes of [o]. *)
Definition sql_update (o : R) (t : list R) : list R :=
  match pk o with
  | Some k => map (fun r => if has_pk k r then o else r) t
  | None => t
  end.

(** [INSERT]: [None] when the key is taken (IntegrityError); otherwise
    the table and the object as it now is, key included. *)
Definition sql_insert (now : Z) (o : R) (t : list R) : option (list R * R) :=
  match pk o with
  | Some k =>
      if existsb (has_pk k) t then None
      else let o' := defaults now o in Some (t ++ [o'], o')
  | None =>
      let o' := defaults now (with_pk (next_pk t) o) in Some (t ++ [o'], o')
  end.

Fixpoint sql_insert_all (now : Z) (news : list R) (t : list R)
  : option (list R * list R) :=
  match news with
  | [] => Some (t, [])
  | o :: rest =>
      match sql_insert now o t with
      | None => None
      | Some (t', o') =>
          match sql_insert_all now rest t' with
          | None => None
          | Some (t'', os) => Some (t'', o' :: os)
          end
      end
  end.

(** The object the identity map holds for a row, if it holds one. *)
Definition identity_of (loaded : list R) (r : R) : option R :=
  match pk r with
  | Some k => find (has_pk k) loaded
  | None => None
  end.

(** Assignment to attributes of a loaded object. *)
Definition replace_loaded (o : R) (loaded : list R) : list R :=
  sql_update o loaded.
End Statements.

(** *** The session *)

Record Session := {
  store : Db;        (* what is committed, and what other sessions read *)
  txn : Db;          (* the open transaction's view of the database *)
  pending : Db;      (* [session.new]: added, not yet inserted *)
  loaded : Db;       (* the identity map: persistent objects, as in memory *)
  inactive : bool;   (* a flush failed and [rollback] was not called yet *)
  trips : nat        (* round trips made, the index into the plan *)
}.

Definition open_session (d : Db) : Session :=
  {| store := d; txn := d; pending := empty_db; loaded := empty_db;
     inactive := false; trips := 0 |}.

(** A call on the session returns or raises, and leaves a session. *)
Inductive result (A : Type) : Type :=
| Ok (a : A) (s : Session)
| Raise (msg : string) (s : Session).
Arguments Ok {A} a s.
Arguments Raise {A} msg s.

Definition Sess (A : Type) : Type := Session -> result A.

Definition ret {A} (a : A) : Sess A := fun s => Ok a s.

Definition bind {A B} (m : Sess A) (k : A -> Sess B) : Sess B :=
  fun s => match m s with
           | Ok a s' => k a s'
           | Raise msg s' => Raise msg s'
           end.

Definition raise {A} (msg : string) : Sess A := fun s => Raise msg s.

(** [try: m except Exception as e: h e] *)
Definition try_except {A} (m : Sess A) (h : string -> Sess A) : Sess A :=
  fun s => match m s with
           | Ok a s' => Ok a s'
           | Raise msg s' => h msg s'
           end.

Notation "x <- m ;; k" := (bind m (fun x => k))
  (at level 61, m at next level, right associativity).
Notation "m ;;; k" := (bind m (fun _ => k))
  (at level 61, right associativity).

Definition pending_rollback : string :=
  "This Session's transaction has been rolled back due to a previous exception during flush. To begin a new transaction with this Session, first issue Session.rollback().".

Definition integrity_error : string := "IntegrityError: UNIQUE constraint failed".

Section WithPlan.
Variable plan : nat -> option string.
Variable utcnow : nat -> Z.

Definition set_txn (d : Db) (s : Session) : Session :=
  {| store := store s; txn := d; pending := pending s; loaded := loaded s;
     inactive := inactive s; trips := trips s |}.

Definition set_pending (d : Db) (s : Session) : Session :=
  {| store := store s; txn := txn s; pending := d; loaded := loaded s;
     inactive := inactive s; trips := trips s |}.

Definition set_loaded (d : Db) (s : Session) : Session :=
  {| store := store s; txn := txn s; pending := pending s; loaded := d;
     inactive := inactive s; trips := trips s |}.

Definition tick (s : Session) : Session :=
  {| store := store s; txn := txn s; pending := pending s; loaded := loaded s;
     inactive := inactive s; trips := S (trips s) |}.

(** The transaction is rolled back in the database; objects added in it
    are expunged and the others expired. *)
Definition rolled_back (dead : bool) (s : Session) : Session :=
  {| store := store s; txn := store s; pending := empty_db; loaded := empty_db;
     inactive := dead; trips := trips s |}.

(** [datetime.utcnow()] *)
Definition now : Sess Z := fun s => Ok (utcnow (trips s)) s.

(** [session.add(o)], [session.add_all(os)] *)
Definition add_all {R} (T : Table R) (os : list R) : Sess unit :=
  fun s => Ok tt (set_pending (with_rows T (rows T (pending s) ++ os) (pending s)) s).

Definition add {R} (T : Table R) (o : R) : Sess unit := add_all T [o].

(** One round trip: refused on a session that awaits its [rollback],
    failed when the plan says so. *)
Definition round_trip {A} (run : Session -> result A) : Sess A :=
  fun s =>
    if inactive s then Raise pending_rollback s
    else match plan (trips s) with
         | Some msg => Raise msg (tick s)
         | None => run (tick s)
         end.

(** The unit of work on one table: UPDATE the loaded objects, INSERT the
    pending ones, which then are loaded objects with their keys. *)
Definition flush_table {R} `{Row R} (T : Table R) (s : Session) : option Session :=
  let updated := fold_left (fun t o => sql_update o t) (rows T (loaded s)) (rows T (txn s)) in
  match sql_insert_all (utcnow (trips s)) (rows T (pending s)) updated with
  | None => None
  | Some (t, inserted) =>
      Some {| store := store s;
              txn := with_rows T t (txn s);
              pending := with_rows T [] (pending s);
              loaded := with_rows T (rows T (loaded s) ++ inserted) (loaded s);
              inactive := inactive s;
              trips := trips s |}
  end.

Definition flush_tables (s : Session) : option Session :=
  match flush_table UpdateLogs s with
  | None => None
  | Some s1 =>
      match flush_table Openings s1 with
      | None => None
      | Some s2 =>
          match flush_table Statistics s2 with
          | None => None
          | Some s3 => flush_table TierListEntries s3
          end
      end
  end.

(** [session.flush()].  A failed flush rolls the transaction back and
    leaves the session unusable until [rollback] is called.  Every flush
    counts as one round trip and asks the plan, also a flush with nothing
    to write; the indices of a plan count the flushes in this way. *)
Definition flush : Sess unit :=
  fun s =>
    if inactive s then Raise pending_rollback s
    else match plan (trips s) with
         | Some msg => Raise msg (rolled_back true (tick s))
         | None =>
             match flush_tables (tick s) with
             | Some s' => Ok tt s'
             | None => Raise integrity_error (rolled_back true (tick s))
             end
         end.

(** [session.commit()]: flush, then make the transaction durable. *)
Definition commit : Sess unit :=
  flush ;;;
  fun s => Ok tt {| store := txn s; txn := txn s; pending := pending s;
                    loaded := loaded s; inactive := inactive s; trips := trips s |}.

(** [session.rollback()] *)
Definition rollback : Sess unit := fun s => Ok tt (rolled_back false s).

(** [session.query(C).delete()]: one DELETE statement in the open
    transaction, no flush. *)
Definition query_delete {R} (T : Table R) : Sess unit :=
  round_trip (fun s => Ok tt (set_txn (with_rows T [] (txn s)) s)).

(** [session.query(C).filter(...).first()]: the first matching row of the
    transaction, as the object the identity map holds for it. *)
Definition query_first {R} `{Row R} (T : Table R) (p : R -> bool) : Sess (option R) :=
  round_trip (fun s =>
    match find p (rows T (txn s)) with
    | None => Ok None s
    | Some r =>
        match identity_of (rows T (loaded s)) r with
        | Some o => Ok (Some o) s
        | None => Ok (Some r) (set_loaded (with_rows T (rows T (loaded s) ++ [r]) (loaded s)) s)
        end
    end).

(** Assignment to attributes of a loaded object [o]: the identity map now
    holds [o'] for its key. *)
Definition assign {R} `{Row R} (T : Table R) (o' : R) : Sess unit :=
  fun s => Ok tt (set_loaded (with_rows T (replace_loaded o' (rows T (loaded s))) (loaded s)) s).

End WithPlan.

End Orm.

(* ===================================================================== *)
(** ** data_collection/data_processor.py *)
(* ===================================================================== *)

Module Processor.
Import Models Orm.

(** How a call ends: [return b], or an exception that leaves the function. *)
Inductive outcome : Type :=
| Returned (b : bool)
| Raised (msg : string).

Definition index_error : string := "list index out of range".

Section WithPlan.
Variable plan : nat -> option string.
Variable utcnow : nat -> Z.

(** [for i, statistic in enumerate(statistics):
       statistic.opening_id = openings[i].id]
    from index [i] on; [openings[i]] raises IndexError past the end. *)
Fixpoint link_statistics (i : nat) (statistics : list OpeningStatistic)
         (openings : list Opening) : Sess (list OpeningStatistic) :=
  match statistics with
  | [] => ret []
  | statistic :: rest =>
      match nth_error openings i with
      | None => raise index_error
      | Some o =>
          linked <- link_statistics (S i) rest openings ;;
          ret (set_opening_id (id o) statistic :: linked)
      end
  end.

(** Assignment to attributes of [update_log], the one log object of the
    session: pending before its INSERT, loaded after.  Once a rollback
    dropped it from the session the assignment touches no session
    state. *)
Definition assign_update_log (f : DataUpdateLog -> DataUpdateLog) : Sess unit :=
  fun s =>
    Ok tt {| store := store s; txn := txn s;
             pending := with_rows UpdateLogs (map f (update_logs (pending s))) (pending s);
             loaded := with_rows UpdateLogs (map f (update_logs (loaded s))) (loaded s);
             inactive := inactive s; trips := trips s |}.

(** Reading [update_log.started_at] after a commit expired it: a SELECT. *)
Definition refresh : Sess unit := round_trip plan (fun s => Ok tt s).

(** The [openings] list after [flush]: the same objects, now loaded and
    carrying their keys. *)
Definition flushed_openings : Sess (list Opening) :=
  fun s => Ok (openings (loaded s)) s.

Definition mark_success (t : Z) (l : DataUpdateLog) : DataUpdateLog :=
  {| log_id := log_id l; operation_type := operation_type l;
     status := "success";
     openings_processed := openings_processed l;
     statistics_updated := statistics_updated l;
     started_at := started_at l; completed_at := Some t;
     duration_seconds := duration_seconds l;
     error_message := error_message l |}.

Definition mark_counts (n_openings n_statistics : Z) (l : DataUpdateLog) : DataUpdateLog :=
  {| log_id := log_id l; operation_type := operation_type l;
     status := status l;
     openings_processed := n_openings;
     statistics_updated := n_statistics;
     started_at := started_at l; completed_at := completed_at l;
     duration_seconds :=
       match completed_at l with
       | Some t => Some (t - started_at l)
       | None => None
       end;
     error_message := error_message l |}.

Definition mark_error (e : string) (t : Z) (l : DataUpdateLog) : DataUpdateLog :=
  {| log_id := log_id l; operation_type := operation_type l;
     status := "error";
     openings_processed := openings_processed l;
     statistics_updated := statistics_updated l;
     started_at := started_at l; completed_at := Some t;
     duration_seconds := duration_seconds l;
     error_message := Some e |}.

(** [OpeningDataProcessor.save_to_database] on the database [db]: how the
    call ends and what the database holds afterwards. *)
Definition save_to_database (openings : list Opening)
           (statistics : list OpeningStatistic) (db : Db) : outcome * Db :=
  let session := open_session db in
  let update_log :=
    {| log_id := None; operation_type := "initial_load";
       status := "in_progress";
       openings_processed := 0; statistics_updated := 0;
       started_at := utcnow 0%nat; completed_at := None;
       duration_seconds := None; error_message := None |} in
  let body : Sess bool :=
    add UpdateLogs update_log ;;;
    commit plan utcnow ;;;
    (* Clear existing data (for fresh load) *)
    query_delete plan Statistics ;;;
    query_delete plan Openings ;;;
    commit plan utcnow ;;;
    (* Insert openings *)
    add_all Openings openings ;;;
    flush plan utcnow ;;;
    (* Link statistics to openings *)
    openings' <- flushed_openings ;;
    statistics' <- link_statistics 0 statistics openings' ;;
    (* Insert statistics *)
    add_all Statistics statistics' ;;;
    (* Update log *)
    t <- now utcnow ;;
    assign_update_log (mark_success t) ;;;
    refresh ;;;
    assign_update_log (mark_counts (Py.len openings) (Py.len statistics)) ;;;
    commit plan utcnow ;;;
    ret true in
  let handler (e : string) : Sess bool :=
    t <- now utcnow ;;
    assign_update_log (mark_error e t) ;;;
    commit plan utcnow ;;;
    rollback ;;;
    ret false in
  (* finally: session.close() *)
  match try_except body handler session with
  | Ok b s => (Returned b, store s)
  | Raise msg s => (Raised msg, store s)
  end.

End WithPlan.

End Processor.

(* ===================================================================== *)
(** ** api/main.py *)
(* ===================================================================== *)

Module Api.
Import Models Orm.

(** What an endpoint hands to the web layer: a body, an [HTTPException],
    or an exception nobody caught. *)
Inductive response (A : Type) : Type :=
| Body (a : A)
| HttpException (status_code : Z) (detail : string)
| Unhandled (exn : string).
Arguments Body {A} a.
Arguments HttpException {A} status_code detail.
Arguments Unhandled {A} exn.

(** *** SQL values and comparisons *)

(** [column == value] with a Python value: [None] is [IS NULL]. *)
Definition eq_param_Z (col param : option Z) : bool :=
  match col, param with
  | Some a, Some b => a =? b
  | None, None => true
  | _, _ => false
  end.

Definition eq_param_str (col param : option string) : bool :=
  match col, param with
  | Some a, Some b => String.eqb a b
  | None, None => true
  | _, _ => false
  end.

(** [column == column] in a join: NULL equals nothing. *)
Definition eq_join (a b : option Z) : bool :=
  match a, b with
  | Some x, Some y => x =? y
  | _, _ => false
  end.

(** A value of a column, ordered as SQLite orders: NULL first, then
    numbers, then text. *)
Inductive sqlval : Type :=
| VNull
| VInt (z : Z)
| VReal (q : Q)
| VText (s : string).

Definition Qltb (a b : Q) : bool := negb (Qle_bool b a).

Definition sql_ltb (a b : sqlval) : bool :=
  match a, b with
  | VNull, VNull => false
  | VNull, _ => true
  | _, VNull => false
  | VInt x, VInt y => x <? y
  | VInt x, VReal y => Qltb (inject_Z x) y
  | VReal x, VInt y => Qltb x (inject_Z y)
  | VReal x, VReal y => Qltb x y
  | (VInt _ | VReal _), VText _ => true
  | VText _, (VInt _ | VReal _) => false
  | VText x, VText y => String.ltb x y
  end.

Definition opt_int (o : option Z) : sqlval :=
  match o with Some z => VInt z | None => VNull end.

Definition opt_text (o : option string) : sqlval :=
  match o with Some s => VText s | None => VNull end.

(** [ORDER BY key] and [ORDER BY key DESC]; rows with equal keys keep the
    order the join produced them in.  SQL leaves the order among rows
    with equal keys to the engine: the stable order is one admissible
    choice, and what is stated about an order below is stated through
    [Sorted] and [Permutation] wherever rows may tie. *)
Definition order_by {A} (key : A -> sqlval) (l : list A) : list A :=
  Py.sort (fun y x => sql_ltb (key y) (key x)) l.

Definition order_by_desc {A} (key : A -> sqlval) (l : list A) : list A :=
  Py.sort (fun y x => sql_ltb (key x) (key y)) l.

(** [LIMIT n]; SQLite reads a negative [n] as no limit. *)
Definition limit {A} (n : Z) (l : list A) : list A :=
  if n <? 0 then l else firstn (Z.to_nat n) l.

(** [Opening JOIN OpeningStatistic ON Opening.id = opening_id]. *)
Definition join (db : Db) : list (Opening * OpeningStatistic) :=
  flat_map (fun o =>
              map (fun s => (o, s))
                  (filter (fun s => eq_join (id o) (opening_id s)) (statistics db)))
           (openings db).

(** *** GET /tier-list *)

Record TierListResponse := {
  tl_opening : Opening;
  tl_statistics : OpeningStatistic;
  tl_tier_rank : option string;
  tl_tier_position : option Z
}.

(** [if rating_range and rating_range != "all": filter(column == value)] *)
Definition context_filter (param : option string) (col : option string) : bool :=
  if andb (Py.truthy param) (negb (eq_param_str param (Some "all")))
  then eq_param_str col param
  else true.

(** The subquery: [max(collected_at)] of the group of [opening_id = k],
    over every statistic row, whatever its context. *)
Definition latest_collected_at (db : Db) (k : Z) : option Z :=
  fold_right (fun s m =>
                if eq_join (opening_id s) (Some k)
                then match m with
                     | Some t => Some (Z.max (collected_at s) t)
                     | None => Some (collected_at s)
                     end
                else m)
             None (statistics db).

Definition is_latest (db : Db) (s : OpeningStatistic) : bool :=
  match opening_id s with
  | Some k => eq_param_Z (latest_collected_at db k) (Some (collected_at s))
  | None => false
  end.

(** The rows of the query of [get_tier_list], ordered and limited. *)
Definition tier_list_rows (db : Db) (rating_range time_control : option string)
  : list (Opening * OpeningStatistic) :=
  firstn 50
    (order_by_desc (fun r => VReal (performance_score (snd r)))
       (filter (fun r => is_latest db (snd r))
          (filter (fun r => context_filter time_control (Models.time_control (snd r)))
             (filter (fun r => context_filter rating_range (Models.rating_range (snd r)))
                (filter (fun r => is_active (fst r)) (join db)))))).

(** The filter of the [TierListEntry] query, on both endpoints. *)
Definition tier_key (opening_id : option Z) (rating_range time_control user : option string)
           (e : TierListEntry) : bool :=
  eq_param_Z (te_opening_id e) opening_id
  && eq_param_str (te_rating_range e) rating_range
  && eq_param_str (te_time_control e) time_control
  && eq_param_str (user_id e) user.

Definition get_tier_list (db : Db) (rating_range time_control user : option string)
  : list TierListResponse :=
  map (fun r =>
         let tier_entry :=
           find (tier_key (id (fst r)) rating_range time_control user)
                (tier_list_entries db) in
         {| tl_opening := fst r;
            tl_statistics := snd r;
            tl_tier_rank := option_map tier_rank tier_entry;
            tl_tier_position := option_map tier_position tier_entry |})
      (tier_list_rows db rating_range time_control).

(** *** POST /tier-list *)

Record TierListUpdate := {
  u_opening_id : Z;
  u_tier_rank : string;
  u_tier_position : Z
}.

Definition retiered (u : TierListUpdate) (t : Z) (e : TierListEntry) : TierListEntry :=
  {| te_id := te_id e; te_opening_id := te_opening_id e;
     tier_rank := u_tier_rank u; tier_position := u_tier_position u;
     te_rating_range := te_rating_range e;
     te_time_control := te_time_control e; user_id := user_id e;
     created_at := created_at e; updated_at := Some t |}.

Definition new_entry (u : TierListUpdate) (rating_range time_control user : string)
  : TierListEntry :=
  {| te_id := None; te_opening_id := Some (u_opening_id u);
     tier_rank := u_tier_rank u; tier_position := u_tier_position u;
     te_rating_range := Some rating_range;
     te_time_control := Some time_control; user_id := Some user;
     created_at := None; updated_at := None |}.

Section WithPlan.
Variable plan : nat -> option string.
Variable utcnow : nat -> Z.

(** The body of [for update in updates]. *)
Definition apply_update (rating_range time_control user : string)
           (u : TierListUpdate) : Sess unit :=
  existing <- query_first plan TierListEntries
                (tier_key (Some (u_opening_id u)) (Some rating_range)
                          (Some time_control) (Some user)) ;;
  match existing with
  | Some e =>
      t <- now utcnow ;;
      assign TierListEntries (retiered u t e)
  | None => add TierListEntries (new_entry u rating_range time_control user)
  end.

Fixpoint apply_updates (rating_range time_control user : string)
         (updates : list TierListUpdate) : Sess unit :=
  match updates with
  | [] => ret tt
  | u :: rest =>
      apply_update rating_range time_control user u ;;;
      apply_updates rating_range time_control user rest
  end.

(** [update_tier_list]: the response and the database afterwards. *)
Definition update_tier_list (updates : list TierListUpdate)
           (rating_range time_control user : string) (db : Db)
  : response string * Db :=
  let body : Sess (response string) :=
    apply_updates rating_range time_control user updates ;;;
    commit plan utcnow ;;;
    ret (Body "Tier list updated successfully") in
  let handler (e : string) : Sess (response string) :=
    rollback ;;;
    ret (HttpException 500 ("Failed to update tier list: " ++ e)%string) in
  match try_except body handler (open_session db) with
  | Ok r s => (r, store s)
  | Raise msg s => (Unhandled msg, store s)
  end.
End WithPlan.

(** *** Attribute lookup on [OpeningStatistic] *)

Inductive column : Type :=
| Cid | Copening_id
| Cwhite_wins | Cblack_wins | Cdraws | Ctotal_games
| Cwin_rate_white | Cwin_rate_black | Cdraw_rate | Cperformance_score
| Crating_range | Ctime_control | Cdate_range_start | Cdate_range_end
| Caverage_rating | Caverage_game_length | Cfrequency_rank
| Ccollected_at | Cdata_source.

Definition columns : list (string * column) :=
  [ ("id", Cid); ("opening_id", Copening_id);
    ("white_wins", Cwhite_wins); ("black_wins", Cblack_wins);
    ("draws", Cdraws); ("total_games", Ctotal_games);
    ("win_rate_white", Cwin_rate_white); ("win_rate_black", Cwin_rate_black);
    ("draw_rate", Cdraw_rate); ("performance_score", Cperformance_score);
    ("rating_range", Crating_range); ("time_control", Ctime_control);
    ("date_range_start", Cdate_range_start); ("date_range_end", Cdate_range_end);
    ("average_rating", Caverage_rating);
    ("average_game_length", Caverage_game_length);
    ("frequency_rank", Cfrequency_rank);
    ("collected_at", Ccollected_at); ("data_source", Cdata_source) ].

Definition column_of_name (name : string) : option column :=
  option_map snd (find (fun p => String.eqb (fst p) name) columns).

(** The [Integer] and [Float] columns. *)
Definition numeric (c : column) : bool :=
  match c with
  | Crating_range | Ctime_control | Cdate_range_start | Cdate_range_end
  | Ccollected_at | Cdata_source => false
  | _ => true
  end.

Definition column_value (c : column) (s : OpeningStatistic) : sqlval :=
  match c with
  | Cid => opt_int (st_id s)
  | Copening_id => opt_int (opening_id s)
  | Cwhite_wins => VInt (white_wins s)
  | Cblack_wins => VInt (black_wins s)
  | Cdraws => VInt (draws s)
  | Ctotal_games => VInt (total_games s)
  | Cwin_rate_white => VReal (win_rate_white s)
  | Cwin_rate_black => VReal (win_rate_black s)
  | Cdraw_rate => VReal (draw_rate s)
  | Cperformance_score => VReal (performance_score s)
  | Crating_range => opt_text (rating_range s)
  | Ctime_control => opt_text (time_control s)
  | Cdate_range_start => opt_int (date_range_start s)
  | Cdate_range_end => opt_int (date_range_end s)
  | Caverage_rating => opt_int (average_rating s)
  | Caverage_game_length => opt_int (average_game_length s)
  | Cfrequency_rank => opt_int (frequency_rank s)
  | Ccollected_at => VInt (collected_at s)
  | Cdata_source => VText (data_source s)
  end.

(** What the class body declares beside its columns. *)
Definition declared_non_columns : list string :=
  [ "opening"; "win_rate_for_white"; "win_rate_for_black";
    "__tablename__"; "__table_args__"; "__repr__" ].

(** What the repository does not define and the endpoints depend on:
    the names [OpeningStatistic] inherits from the declarative base and
    from [object], the names only an instance resolves, and what the
    library does with an ORDER BY on an attribute that is no column
    ([None]: it raises). *)
Record Library := {
  inherited : string -> bool;
  instance_only : string -> bool;
  order_by_attribute :
    forall A : Type, string -> bool -> list (A * OpeningStatistic)
                     -> option (list (A * OpeningStatistic))
}.

Inductive attribute : Type :=
| Column (c : column)
| NonColumn (name : string).

Section WithLibrary.
Variable L : Library.

(** [getattr(OpeningStatistic, name, default)] *)
Definition class_getattr (name : string) (default : attribute) : attribute :=
  match column_of_name name with
  | Some c => Column c
  | None =>
      if existsb (String.eqb name) declared_non_columns || inherited L name
      then NonColumn name
      else default
  end.

(** [query.order_by(desc(sort_field))] or [query.order_by(sort_field)] *)
Definition ordered {A} (sort_field : attribute) (descending : bool)
           (q : list (A * OpeningStatistic)) : option (list (A * OpeningStatistic)) :=
  match sort_field with
  | Column c =>
      Some (if descending
            then order_by_desc (fun r => column_value c (snd r)) q
            else order_by (fun r => column_value c (snd r)) q)
  | NonColumn name => order_by_attribute L name descending q
  end.

(** [Query.all()] on a query of one entity returns each object once. *)
Fixpoint unique (seen : list (option Z)) (l : list Opening) : list Opening :=
  match l with
  | [] => []
  | o :: r =>
      if existsb (eq_param_Z (id o)) seen then unique seen r
      else o :: unique (id o :: seen) r
  end.

(** [get_openings] *)
Definition get_openings (db : Db) (rating_range time_control : option string)
           (min_games : Z) (sort_by order : string) (limit_ : Z)
  : response (list Opening) :=
  let query := join db in
  let query :=
    if Py.truthy rating_range
    then filter (fun r => eq_param_str (Models.rating_range (snd r)) rating_range) query
    else query in
  let query :=
    if Py.truthy time_control
    then filter (fun r => eq_param_str (Models.time_control (snd r)) time_control) query
    else query in
  let query :=
    if negb (min_games =? 0)
    then filter (fun r => total_games (snd r) >=? min_games) query
    else query in
  let sort_field := class_getattr sort_by (Column Cperformance_score) in
  match ordered sort_field (String.eqb (Py.lower order) "desc") query with
  | Some rows => Body (unique [] (map fst (limit limit_ rows)))
  | None => Unhandled "ArgumentError"
  end.

(** A Python value read off a statistic object. *)
Inductive pyvalue : Type :=
| Scalar (v : sqlval)
| Object (attribute_name : string).

(** [getattr(statistic, name)]; [None] is AttributeError. *)
Definition instance_getattr (name : string) (s : OpeningStatistic) : option pyvalue :=
  match column_of_name name with
  | Some c => Some (Scalar (column_value c s))
  | None =>
      if String.eqb name "win_rate_for_white"
      then Some (Scalar (VReal (win_rate_for_white (H := Exact.exact) s)))
      else if String.eqb name "win_rate_for_black"
      then Some (Scalar (VReal (win_rate_for_black (H := Exact.exact) s)))
      else if existsb (String.eqb name) declared_non_columns
              || inherited L name || instance_only L name
      then Some (Object name)
      else None
  end.

Record TopPerformer := {
  tp_opening : Opening;
  tp_statistics : OpeningStatistic;
  metric_value : pyvalue
}.

(** The query of [get_top_performers]. *)
Definition top_performers_query (db : Db) (limit_ : Z) (metric : string)
  : option (list (Opening * OpeningStatistic)) :=
  let sort_field := class_getattr metric (Column Cperformance_score) in
  match ordered sort_field true
          (filter (fun r => is_active (fst r) && (total_games (snd r) >=? 100))
                  (join db)) with
  | Some rows => Some (limit limit_ rows)
  | None => None
  end.

(** [for opening, statistic in results: top_performers.append(...)] *)
Fixpoint top_performers_of (metric : string) (results : list (Opening * OpeningStatistic))
  : option (list TopPerformer) :=
  match results with
  | [] => Some []
  | (opening, statistic) :: rest =>
      match instance_getattr metric statistic with
      | None => None
      | Some v =>
          match top_performers_of metric rest with
          | None => None
          | Some l =>
              Some ({| tp_opening := opening; tp_statistics := statistic;
                       metric_value := v |} :: l)
          end
      end
  end.

Definition get_top_performers (db : Db) (limit_ : Z) (metric : string)
  : response (list TopPerformer) :=
  match top_performers_query db limit_ metric with
  | None => Unhandled "ArgumentError"
  | Some results =>
      match top_performers_of metric results with
      | Some l => Body l
      | None => Unhandled "AttributeError"
      end
  end.
End WithLibrary.

End Api.

(* ===================================================================== *)
(** ** data_processor.py: from the snapshot file to the database *)
(* ===================================================================== *)

Module Loader.
Import Models Orm Processor.

(** One object of the JSON array of the snapshot file, with values of the
    types the collectors write.  A key that is absent is [None].  The value
    of ["collected_at"] is a text: [Some (Some t)] when
    [datetime.fromisoformat] reads it as the instant [t], [Some None] when
    it raises ValueError. *)
Record RawOpening := {
  raw_moves_sequence : option (list string);
  raw_eco_code : option string;
  raw_opening_name : option string;
  raw_white_wins : option Z;
  raw_black_wins : option Z;
  raw_draws : option Z;
  raw_total_games : option Z;
  raw_win_rate_white : option Q;
  raw_win_rate_black : option Q;
  raw_draw_rate : option Q;
  raw_performance_score : option Q;
  raw_collected_at : option (option Z)
}.

(** [data.get(key, default)] *)
Definition get {A} (value : option A) (default : A) : A :=
  match value with Some v => v | None => default end.

(** [str(i)] in an f-string. *)
Definition str (i : Z) : string := NilZero.string_of_int (Z.to_int i).

(** The body of the loop of [process_opening_data] for record number [i],
    read at the instant [now]; [None] is the ValueError of a timestamp that
    does not parse. *)
Definition process_record (now : Z) (i : Z) (data : RawOpening)
  : option (Opening * OpeningStatistic) :=
  match get (raw_collected_at data) (Some now) with
  | None => None
  | Some collected =>
      Some ({| id := None;
               eco_code := get (raw_eco_code data) "";
               name := get (raw_opening_name data) ("Unknown Opening " ++ str i)%string;
               moves_sequence := get (raw_moves_sequence data) [];
               popularity_rank := i;
               is_active := true |},
            {| st_id := None; opening_id := None;
               white_wins := get (raw_white_wins data) 0;
               black_wins := get (raw_black_wins data) 0;
               draws := get (raw_draws data) 0;
               total_games := get (raw_total_games data) 0;
               win_rate_white := get (raw_win_rate_white data) 0%Q;
               win_rate_black := get (raw_win_rate_black data) 0%Q;
               draw_rate := get (raw_draw_rate data) 0%Q;
               performance_score := get (raw_performance_score data) 0%Q;
               rating_range := Some "all";
               time_control := Some "all";
               date_range_start := None; date_range_end := None;
               average_rating := None; average_game_length := None;
               frequency_rank := None;
               collected_at := collected;
               data_source := "lichess" |})
  end.

(** [for i, data in enumerate(raw_data, 1)], from number [i] on;
    [clock i] is what [datetime.utcnow()] gives while record [i] is read. *)
Fixpoint process_from (clock : Z -> Z) (i : Z) (raw_data : list RawOpening)
  : option (list Opening * list OpeningStatistic) :=
  match raw_data with
  | [] => Some ([], [])
  | data :: rest =>
      match process_record (clock i) i data with
      | None => None
      | Some (opening, statistic) =>
          match process_from clock (i + 1) rest with
          | None => None
          | Some (openings, statistics) =>
              Some (opening :: openings, statistic :: statistics)
          end
      end
  end.

Definition process_opening_data (clock : Z -> Z) (raw_data : list RawOpening)
  : option (list Opening * list OpeningStatistic) :=
  process_from clock 1 raw_data.

(** [process_file]: the file holds a JSON array of objects
    ([Some raw_data]); or it cannot be opened or parsed, or holds something
    else ([None]), and then [load_json_data] or the loop of
    [process_opening_data] raises before the database is opened.  Every
    exception is caught and makes the answer [False], also one that leaves
    [save_to_database]. *)
Definition process_file (clock : Z -> Z)
           (plan : nat -> option string) (utcnow : nat -> Z)
           (file : option (list RawOpening)) (db : Db) : bool * Db :=
  match file with
  | None => (false, db)
  | Some raw_data =>
      match process_opening_data clock raw_data with
      | None => (false, db)
      | Some (openings, statistics) =>
          match save_to_database plan utcnow openings statistics db with
          | (Returned success, db') => (success, db')
          | (Raised _, db') => (false, db')
          end
      end
  end.

End Loader.

(* ===================================================================== *)
(** ** scripts/update_data.py *)
(* ===================================================================== *)

Module Updater.
Import Collector Loader.

(** What the run depends on beside the provider and the database: whether
    the collector and the processor can be built (the API token is set),
    whether the temporary file can be written, and whether it can be
    removed afterwards. *)
Record Host := {
  components_ok : bool;
  write_ok : bool;
  remove_ok : bool
}.

Section WithFloat.
Context {F : Type} `{PyFloat F}.

(** The double a Python float is, as the rational the database keeps. *)
Variable denote : F -> Q.

(** One discovered line as [save_openings_data] writes it with [json.dump]
    and [load_json_data] reads it back: every key is present. *)
Definition to_json (line : OpeningData) : RawOpening :=
  {| raw_moves_sequence := Some (Collector.moves_sequence line);
     raw_eco_code := Some (Collector.eco_code line);
     raw_opening_name := Some (opening_name line);
     raw_white_wins := Some (Collector.white_wins line);
     raw_black_wins := Some (Collector.black_wins line);
     raw_draws := Some (od_draws line);
     raw_total_games := Some (Collector.total_games line);
     raw_win_rate_white := Some (denote (Collector.win_rate_white line));
     raw_win_rate_black := Some (denote (Collector.win_rate_black line));
     raw_draw_rate := Some (denote (Collector.draw_rate line));
     raw_performance_score := Some (denote (od_performance_score line));
     raw_collected_at := Some (Some (Collector.collected_at line)) |}.

(** [AutomatedUpdateSystem.run_full_update], and [run_incremental_update],
    which calls it. *)
Definition run_full_update (host : Host) (P : Provider) (clock : Z -> Z)
           (plan : nat -> option string) (utcnow : nat -> Z) (db : Orm.Db)
  : bool * Orm.Db :=
  if negb (components_ok host) then (false, db)
  else
    match fst (discover_openings_tree P 50 0%nat) with
    | [] => (false, db)
    | openings_data =>
        if negb (write_ok host) then (false, db)
        else
          match process_file clock plan utcnow
                             (Some (map to_json openings_data)) db with
          | (true, db') => (remove_ok host, db')
          | (false, db') => (false, db')
          end
    end.

Definition run_incremental_update := run_full_update.

End WithFloat.

End Updater.

(* ===================================================================== *)
(** ** api/main.py: the other read endpoints *)
(* ===================================================================== *)

Module Queries.
Import Models Orm Api.

(** [get_opening_statistics] *)
Definition get_opening_statistics (db : Db) (opening_id : Z)
           (rating_range time_control : option string) : list OpeningStatistic :=
  let query :=
    filter (fun s => eq_param_Z (Models.opening_id s) (Some opening_id))
           (statistics db) in
  let query :=
    if Py.truthy rating_range
    then filter (fun s => eq_param_str (Models.rating_range s) rating_range) query
    else query in
  let query :=
    if Py.truthy time_control
    then filter (fun s => eq_param_str (Models.time_control s) time_control) query
    else query in
  order_by_desc (fun s => VInt (collected_at s)) query.

Record Summary := {
  total_openings : Z;
  total_statistics : Z;
  last_updated : option Z;
  available_rating_ranges : list string;
  available_time_controls : list string
}.

Definition option_string_dec (a b : option string) : {a = b} + {a <> b}.
Proof. decide equality. apply string_dec. Defined.

(** [[r[0] for r in rows if r[0]]] over [query(column).distinct()] *)
Definition distinct_values (values : list (option string)) : list string :=
  flat_map (fun v => if Py.truthy v
                     then match v with Some text => [text] | None => [] end
                     else [])
           (nodup option_string_dec values).

(** [get_statistics_summary] *)
Definition get_statistics_summary (db : Db) : Summary :=
  let latest_update :=
    hd_error
      (order_by_desc (fun l => opt_int (completed_at l))
         (filter (fun l => String.eqb (status l) "success") (update_logs db))) in
  {| total_openings := Py.len (filter is_active (openings db));
     total_statistics := Py.len (statistics db);
     last_updated :=
       match latest_update with
       | Some l => completed_at l
       | None => None
       end;
     available_rating_ranges := distinct_values (map Models.rating_range (statistics db));
     available_time_controls := distinct_values (map Models.time_control (statistics db)) |}.

End Queries.

(* ===================================================================== *)
(** ** data_collection/simple_collector.py *)
(* ===================================================================== *)

Module SimpleCollector.
Import Collector.

(** The ["opening"] object of an answer; a key that is missing is [None]. *)
Record LineInfo := { li_eco : option string; li_name : option string }.

(** The provider's answer to one request of this collector.  A count that
    is missing holds 0 and a missing ["moves"] the empty list;
    ["opening"] is [None] when missing or null. *)
Record LineStats := {
  ls_moves : list MoveStat;
  ls_white : Z;
  ls_black : Z;
  ls_draws : Z;
  ls_opening : option LineInfo
}.

(** [respond n rq] is the answer to the [n]-th request of the run, [None]
    when the call raises; [now n] is [datetime.now()] after [n] calls. *)
Record Explorer := {
  respond : nat -> Request -> option LineStats;
  now : nat -> Z
}.

Section WithFloat.
Context {F : Type} `{PyFloat F}.
Variable E : Explorer.

Record TopMove := {
  tm_move : string;
  tm_uci : string;
  tm_total_games : Z;
  tm_white_wins : Z;
  tm_black_wins : Z;
  tm_draws : Z;
  tm_win_rate_white : F;
  tm_win_rate_black : F;
  tm_draw_rate : F;
  tm_average_rating : Z;
  tm_collected_at : Z
}.

(** The body of the loop of [get_top_first_moves]: [continue] on a rare
    move, otherwise one dict. *)
Definition top_move_of (t : Z) (m : MoveStat) : list TopMove :=
  let total_games := white m + black m + draws m in
  if total_games <? 1000 then []
  else [{| tm_move := san m;
           tm_uci := uci m;
           tm_total_games := total_games;
           tm_white_wins := white m;
           tm_black_wins := black m;
           tm_draws := draws m;
           tm_win_rate_white := fdiv (of_int (white m)) (of_int total_games);
           tm_win_rate_black := fdiv (of_int (black m)) (of_int total_games);
           tm_draw_rate := fdiv (of_int (draws m)) (of_int total_games);
           tm_average_rating :=
             match averageRating m with Some r => r | None => 1600 end;
           tm_collected_at := t |}].

(** [get_top_first_moves]: the request is not guarded, so an exception of
    the call leaves the function ([None]). *)
Definition get_top_first_moves : Run (option (list TopMove)) :=
  fun n =>
    match respond E n {| play := []; breadth := 5 |} with
    | None => (None, S n)
    | Some stats =>
        (Some (flat_map (top_move_of (now E (S n))) (Py.slice_to 8 (ls_moves stats))),
         S n)
    end.

(** [(win_rate_white + draw_rate * 0.5) * 100] *)
Definition line_score (win_rate_white draw_rate : F) : F :=
  fmul (fadd win_rate_white (fmul draw_rate lit_0_5)) (of_int 100).

(** [explore_opening_line]: [None] for a line with fewer than 100 games
    and when the call raises. *)
Definition explore_opening_line (moves_list : list string) : Run (option OpeningData) :=
  fun n =>
    match respond E n {| play := moves_list; breadth := 3 |} with
    | None => (None, S n)
    | Some stats =>
        let total_games := ls_white stats + ls_black stats + ls_draws stats in
        if total_games <? 100 then (None, S n)
        else
          let win_rate_white := fdiv (of_int (ls_white stats)) (of_int total_games) in
          let win_rate_black := fdiv (of_int (ls_black stats)) (of_int total_games) in
          let draw_rate := fdiv (of_int (ls_draws stats)) (of_int total_games) in
          (Some {| moves_sequence := moves_list;
                   eco_code :=
                     match ls_opening stats with
                     | Some {| li_eco := Some code |} => code
                     | _ => ""
                     end;
                   opening_name :=
                     match ls_opening stats with
                     | Some {| li_name := Some text |} => text
                     | _ => ("Opening: " ++ String.concat " " moves_list)%string
                     end;
                   white_wins := ls_white stats;
                   black_wins := ls_black stats;
                   od_draws := ls_draws stats;
                   total_games := total_games;
                   win_rate_white := win_rate_white;
                   win_rate_black := win_rate_black;
                   draw_rate := draw_rate;
                   od_performance_score := line_score win_rate_white draw_rate;
                   collected_at := now E (S n) |},
           S n)
    end.

Definition popular_sequences : list (list string) :=
  [ ["e4"; "e5"; "Nf3"];
    ["e4"; "e5"; "Bc4"];
    ["e4"; "e5"; "Bb5"];
    ["e4"; "c5"; "Nf3"];
    ["e4"; "c6"; "e5"];
    ["e4"; "e6"; "e5"];
    ["e4"; "Nf6"];
    ["d4"; "d5"; "c4"];
    ["d4"; "Nf6"; "c4"];
    ["d4"; "Nf6"; "Nf3"];
    ["d4"; "g6"; "e4"];
    ["d4"; "e6"; "e4"];
    ["d4"; "c5"];
    ["Nf3"; "Nf6"];
    ["c4"; "e5"];
    ["c4"; "Nf6"];
    ["f4"];
    ["b3"];
    ["g3"; "g6"] ].

(** [for move_data in first_moves[:5]] *)
Fixpoint explore_first_moves (first_moves : list TopMove)
         (openings : list OpeningData) : Run (list OpeningData) :=
  match first_moves with
  | [] => ret openings
  | move_data :: rest =>
      opening_data <- explore_opening_line [tm_move move_data] ;;
      match opening_data with
      | Some line =>
          if total_games line >=? 1000
          then explore_first_moves rest (openings ++ [line])
          else explore_first_moves rest openings
      | None => explore_first_moves rest openings
      end
  end.

Variable max_openings : Z.

(** [for sequence in popular_sequences], with its [break]. *)
Fixpoint explore_sequences (sequences : list (list string))
         (openings : list OpeningData) : Run (list OpeningData) :=
  match sequences with
  | [] => ret openings
  | sequence :: rest =>
      if Py.len openings >=? max_openings then ret openings
      else
        opening_data <- explore_opening_line sequence ;;
        match opening_data with
        | Some line =>
            if total_games line >=? 100
            then explore_sequences rest (openings ++ [line])
            else explore_sequences rest openings
        | None => explore_sequences rest openings
        end
  end.

(** [collect_popular_openings]; [None] is the exception of the first
    request leaving the function. *)
Definition collect_popular_openings : Run (option (list OpeningData)) :=
  first_moves <- get_top_first_moves ;;
  match first_moves with
  | None => ret None
  | Some first_moves =>
      openings <- explore_first_moves (Py.slice_to 5 first_moves) [] ;;
      openings <- explore_sequences popular_sequences openings ;;
      ret (Some (Py.slice_to max_openings (sort_discovered openings)))
  end.

End WithFloat.

End SimpleCollector.

(* ===================================================================== *)
(** * Properties *)
(* ===================================================================== *)

Import Binary64 Exact.

(** ** Lists, slices and the stable sort *)

Section ListFacts.
Variable A : Type.

Lemma insert_perm (before : A -> A -> bool) (x : A) (l : list A) :
  Permutation (x :: l) (Py.insert before x l).
Proof.
  induction l as [|y r IH]; simpl.
  - apply Permutation_refl.
  - destruct (before y x).
    + eapply perm_trans; [apply perm_swap|].
      apply perm_skip, IH.
    + apply Permutation_refl.
Qed.

Lemma sort_perm (before : A -> A -> bool) (l : list A) :
  Permutation l (Py.sort before l).
Proof.
  induction l as [|x r IH]; simpl.
  - apply perm_nil.
  - eapply perm_trans; [apply perm_skip, IH|].
    apply insert_perm.
Qed.

Lemma sort_length (before : A -> A -> bool) (l : list A) :
  List.length (Py.sort before l) = List.length l.
Proof. symmetry. apply Permutation_length, sort_perm. Qed.

Lemma sort_Forall (before : A -> A -> bool) (P : A -> Prop) (l : list A) :
  Forall P l -> Forall P (Py.sort before l).
Proof. intro Hl. eapply Permutation_Forall; [apply sort_perm|exact Hl]. Qed.

Lemma sort_In (before : A -> A -> bool) (l : list A) (x : A) :
  In x (Py.sort before l) <-> In x l.
Proof.
  split; intro Hx.
  - eapply Permutation_in; [apply Permutation_sym, sort_perm|exact Hx].
  - eapply Permutation_in; [apply sort_perm|exact Hx].
Qed.

Lemma firstn_In (n : nat) (l : list A) (x : A) :
  In x (firstn n l) -> In x l.
Proof.
  revert l. induction n as [|n IH]; intros [|y r] Hx; simpl in *;
    try contradiction.
  destruct Hx as [Hx|Hx]; [left; exact Hx|right; apply IH, Hx].
Qed.

Lemma firstn_Forall (P : A -> Prop) (n : nat) (l : list A) :
  Forall P l -> Forall P (firstn n l).
Proof.
  intro Hl. rewrite Forall_forall in *.
  intros x Hx. apply Hl. eapply firstn_In. exact Hx.
Qed.

Lemma slice_to_Forall (P : A -> Prop) (n : Z) (l : list A) :
  Forall P l -> Forall P (Py.slice_to n l).
Proof.
  intro Hl. unfold Py.slice_to.
  destruct (n <? 0); apply firstn_Forall; exact Hl.
Qed.

Lemma slice_to_length (n : Z) (l : list A) :
  0 <= n -> Z.of_nat (List.length (Py.slice_to n l)) <= n.
Proof.
  intro Hn. unfold Py.slice_to.
  destruct (Z.ltb_spec n 0) as [Hneg|_]; [lia|].
  rewrite length_firstn. lia.
Qed.

(** With a count that is not positive the slice is empty. *)
Lemma slice_to_nonpositive (n : Z) (l : list A) :
  n <= 0 -> (List.length l <= 1)%nat -> Py.slice_to n l = [].
Proof.
  intros Hn Hl. unfold Py.slice_to.
  destruct (Z.ltb_spec n 0) as [Hneg|Hpos].
  - replace (Z.to_nat (Z.of_nat (List.length l) + n)) with 0%nat by lia.
    reflexivity.
  - replace n with 0 by lia. reflexivity.
Qed.
End ListFacts.

(** ** The scoring function and the derived rates *)

Section Scoring.
Import Collector.

(** The primary formula as the specification writes it. *)
Definition primary_formula {F} `{PyFloat F} (win_rate_white win_rate_black draw_rate : F) : F :=
  fmul (fadd (fadd (fmul win_rate_white lit_0_4)
                   (fmul (fsub (of_int 1) win_rate_black) lit_0_4))
             (fmul draw_rate lit_0_2))
       (of_int 100).

(** C3.  The score the discovery engine stores for a line is the primary
    formula of its three rates, in either reading of Python floats; it is
    a function of the counts alone (not of the provider, the moves or the
    clock); and the line with 550 white wins, 400 black wins and 50 draws
    out of 1000 games scores exactly 47.0 in binary64 arithmetic, and 47
    in exact arithmetic. *)
Theorem primary_score_formula :
  (forall (F : Type) (I : PyFloat F) (mvs : list string) (st : Continuation) (now : Z),
      od_performance_score (opening_data_of mvs st now)
      = primary_formula (rate (c_white_wins st) (c_total_games st))
                        (rate (c_black_wins st) (c_total_games st))
                        (rate (c_draws st) (c_total_games st)))
  /\ (forall (F : Type) (I : PyFloat F) (wr br dr : F),
         performance_score wr br dr = primary_formula wr br dr)
  /\ performance_score (F := float)
       (rate 550 1000) (rate 400 1000) (rate 50 1000) = 47%float
  /\ (performance_score (F := Q)
        (rate 550 1000) (rate 400 1000) (rate 50 1000) == 47)%Q.
Proof.
  split; [|split; [|split]].
  - intros. reflexivity.
  - intros. reflexivity.
  - vm_compute. reflexivity.
  - vm_compute. reflexivity.
Qed.

Lemma exact_rate_positive (count total : Z) :
  0 < total -> (rate (F := Q) count total == inject_Z count / inject_Z total)%Q.
Proof.
  intro Ht. unfold rate.
  destruct (Z.gtb_spec total 0) as [_|Hle]; [|lia].
  simpl. reflexivity.
Qed.

Lemma exact_rates_sum (white black draws : Z) :
  0 < white + black + draws ->
  (rate (F := Q) white (white + black + draws)
   + rate black (white + black + draws)
   + rate draws (white + black + draws) == 1)%Q.
Proof.
  intro Ht.
  rewrite !exact_rate_positive by exact Ht.
  assert (Hnz : ~ inject_Z (white + black + draws) == 0).
  { intro Hz. unfold Qeq in Hz. simpl in Hz. lia. }
  rewrite !inject_Z_plus in *.
  field. exact Hnz.
Qed.

(** The test [abs(x - 1.0) <= tol] in binary64. *)
Definition within (tol x : float) : bool :=
  PrimFloat.leb (PrimFloat.abs (PrimFloat.sub x 1%float)) tol.
End Scoring.

(** ** The discovery engine *)

Section Discovery.
Import Collector.
Context {F : Type} `{PyFloat F}.
Variable P : Provider.
Variable max_openings : Z.

(** The floor of line 189. *)
Definition above_floor (o : OpeningData (F := F)) : Prop := 100 <= total_games o.

Lemma opening_data_total (mvs : list string) (st : Continuation) (now : Z) :
  total_games (opening_data_of (F := F) mvs st now) = c_total_games st.
Proof. reflexivity. Qed.

(** Every line the inner loop appends passed the floor. *)
Lemma explore_continuations_floor (first : string) (conts : list MoveStat) :
  forall (discovered : list OpeningData) (n : nat),
    Forall above_floor discovered ->
    Forall above_floor (fst (explore_continuations P max_openings first conts discovered n)).
Proof.
  induction conts as [|continuation rest IH]; intros discovered n Hd; simpl.
  - exact Hd.
  - unfold bind at 1.
    destruct (get_opening_continuations P [first; san continuation] n)
      as [[st|] n'] eqn:Hcall.
    + destruct (Z.ltb_spec (c_total_games st) 100) as [Hlow|Hok].
      * apply IH, Hd.
      * unfold bind, clock.
        assert (Hd' : Forall above_floor
                        (discovered ++ [opening_data_of [first; san continuation] st (utcnow P n')])).
        { apply Forall_app. split; [exact Hd|].
          constructor; [|constructor].
          unfold above_floor. rewrite opening_data_total. exact Hok. }
        destruct (Py.len _ >=? max_openings).
        -- exact Hd'.
        -- apply IH, Hd'.
    + apply IH, Hd.
Qed.

Lemma explore_first_moves_floor (firsts : list FirstMove) :
  forall (discovered : list OpeningData) (n : nat),
    Forall above_floor discovered ->
    Forall above_floor (fst (explore_first_moves P max_openings firsts discovered n)).
Proof.
  induction firsts as [|first_move rest IH]; intros discovered n Hd; simpl.
  - exact Hd.
  - unfold bind at 1.
    destruct (get_opening_continuations P [move first_move] n) as [[st|] n'].
    + unfold bind at 1.
      pose proof (explore_continuations_floor (move first_move)
                    (Py.slice_to 5 (continuations st)) n' Hd) as Hinner.
      destruct (explore_continuations P max_openings (move first_move)
                  (Py.slice_to 5 (continuations st)) discovered n')
        as [discovered' n''].
      simpl in Hinner.
      destruct (Py.len discovered' >=? max_openings).
      * exact Hinner.
      * apply IH, Hinner.
    + apply IH, Hd.
Qed.

(** C4.  Asked for a count [max_openings] (a number that is not negative),
    the discovery engine returns at most that many lines, and every line
    it returns has at least 100 games, whatever the provider answers and
    whichever of its calls fail. *)
Theorem discovery_bounded (n : nat) :
  0 <= max_openings ->
  Py.len (fst (discover_openings_tree P max_openings n)) <= max_openings
  /\ Forall (fun o => 100 <= total_games o)
            (fst (discover_openings_tree P max_openings n)).
Proof.
  intro Hcount.
  unfold discover_openings_tree, bind.
  destruct (get_popular_openings P 8 n) as [first_moves n1].
  pose proof (explore_first_moves_floor (Py.slice_to 8 first_moves) n1
                (Forall_nil above_floor)) as Hfloor.
  destruct (explore_first_moves P max_openings (Py.slice_to 8 first_moves) [] n1)
    as [discovered n2].
  simpl in *. split.
  - apply slice_to_length, Hcount.
  - apply slice_to_Forall. unfold sort_discovered.
    apply sort_Forall. exact Hfloor.
Qed.
End Discovery.

(** The engine at work: two first moves, the second call failing, one line
    below the floor and two above it, with room for one line only. *)
Definition sample_provider : Collector.Provider :=
  let mv s w b d :=
    {| Collector.san := s; Collector.uci := s; Collector.white := w;
       Collector.black := b; Collector.draws := d;
       Collector.averageRating := None |} in
  let stats ms w b d :=
    {| Collector.moves := ms; Collector.stats_white := w;
       Collector.stats_black := b; Collector.stats_draws := d;
       Collector.opening := None |} in
  {| Collector.respond := fun n rq =>
       match n with
       | 0%nat => Some (stats [mv "e4" 500 400 100; mv "d4" 300 300 50] 800 700 150)
       | 1%nat => None
       | 2%nat => Some (stats [mv "d5" 10 10 5; mv "Nf6" 90 80 30] 300 300 50)
       | 3%nat => Some (stats [] 10 10 5)
       | _ => Some (stats [] 90 80 30)
       end;
     Collector.utcnow := fun n => Z.of_nat n |}.

Lemma discovery_bounded_witness :
  0 <= 1
  /\ Py.len (fst (Collector.discover_openings_tree (F := Q) sample_provider 1 0%nat)) <= 1
  /\ Forall (fun o => 100 <= Collector.total_games o)
            (fst (Collector.discover_openings_tree (F := Q) sample_provider 1 0%nat)).
Proof.
  split; [lia|].
  apply (discovery_bounded (F := Q) sample_provider (max_openings := 1) 0%nat).
  lia.
Defined.

Example discovery_sample :
  map Collector.moves_sequence
      (fst (Collector.discover_openings_tree (F := float) sample_provider 1 0%nat))
  = [["d4"; "Nf6"]].
Proof. vm_compute. reflexivity. Qed.

(** ** Statements and keys *)

Section Keys.
Import Models Orm.
Context {R : Type} `{Row R}.

(** Keys are given: the class stores the key it is handed. *)
Hypothesis pk_with_pk : forall (k : Z) (r : R), pk (with_pk k r) = Some k.
Hypothesis pk_defaults : forall (t : Z) (r : R), pk (defaults t r) = pk r.

Definition max_pk (t : list R) : Z :=
  fold_right (fun r m => match pk r with Some k => Z.max k m | None => m end) 0 t.

Lemma next_pk_max (t : list R) : next_pk t = 1 + max_pk t.
Proof. reflexivity. Qed.

Lemma max_pk_bound (t : list R) (r : R) (k : Z) :
  In r t -> pk r = Some k -> k <= max_pk t.
Proof.
  induction t as [|x t IH]; intros Hr Hk; simpl in *; [contradiction|].
  destruct Hr as [->|Hr].
  - rewrite Hk. lia.
  - specialize (IH Hr Hk). destruct (pk x); lia.
Qed.

(** The key of the next row is taken by no row. *)
Lemma next_pk_fresh (t : list R) (r : R) :
  In r t -> has_pk (next_pk t) r = false.
Proof.
  intro Hr. unfold has_pk.
  destruct (pk r) as [k|] eqn:Hk; [|reflexivity].
  pose proof (max_pk_bound t r Hr Hk) as Hb.
  rewrite next_pk_max. apply Z.eqb_neq. lia.
Qed.

Lemma sql_update_absent (o : R) (t : list R) :
  (forall k r, pk o = Some k -> In r t -> has_pk k r = false) ->
  sql_update o t = t.
Proof.
  intro Habs. unfold sql_update.
  destruct (pk o) as [k|] eqn:Hk; [|reflexivity].
  induction t as [|x t IH]; simpl; [reflexivity|].
  rewrite (Habs k x eq_refl (or_introl eq_refl)).
  f_equal. apply IH. intros k' r Hk' Hr.
  apply Habs; [exact Hk'|right; exact Hr].
Qed.

(** An UPDATE that writes back the row just inserted changes nothing. *)
Lemma sql_update_inserted (o : R) (t : list R) (now : Z) :
  pk o = None ->
  let o' := defaults now (with_pk (next_pk t) o) in
  sql_update o' (t ++ [o']) = t ++ [o'].
Proof.
  intros Ho o'.
  assert (Hk : pk o' = Some (next_pk t)).
  { unfold o'. rewrite pk_defaults, pk_with_pk. reflexivity. }
  unfold sql_update. rewrite Hk. rewrite map_app. simpl.
  f_equal.
  - rewrite <- (map_id t) at 2. apply map_ext_in.
    intros r Hr. rewrite (next_pk_fresh t r Hr). reflexivity.
  - unfold has_pk. rewrite Hk, Z.eqb_refl. reflexivity.
Qed.
End Keys.

(** ** Loading a snapshot: [save_to_database] *)

Section Loading.
Import Models Orm Processor.

(** The plan that fails one round trip: the fifth of [save_to_database] is
    the INSERT of the new openings ([session.flush()], line 109), after the
    log's commit, the two DELETEs and their commit. *)
Definition fail_at (k : nat) (msg : string) : nat -> option string :=
  fun n => if Nat.eqb n k then Some msg else None.

Definition no_failure : nat -> option string := fun _ => None.

(** The log row of a run, as its first commit stores it. *)
Definition log_in_progress (key started : Z) : DataUpdateLog :=
  {| log_id := Some key; operation_type := "initial_load";
     status := "in_progress";
     openings_processed := 0; statistics_updated := 0;
     started_at := started; completed_at := None;
     duration_seconds := None; error_message := None |}.

Lemma log_written_back (ls : list DataUpdateLog) (started : Z) :
  sql_update (log_in_progress (next_pk ls) started)
             (ls ++ [log_in_progress (next_pk ls) started])
  = ls ++ [log_in_progress (next_pk ls) started].
Proof.
  apply (sql_update_inserted (H := Row_DataUpdateLog)
           (fun k r => eq_refl) (fun t r => eq_refl)
           {| log_id := None; operation_type := "initial_load";
              status := "in_progress";
              openings_processed := 0; statistics_updated := 0;
              started_at := started; completed_at := None;
              duration_seconds := None; error_message := None |}
           ls 0 eq_refl).
Qed.

Local Arguments next_pk : simpl never.
Local Arguments sql_update : simpl never.

(** What a run leaves when the INSERT of the openings fails: an exception
    leaves the function, the two tables are empty and the log row is as the
    first commit wrote it. *)
Lemma save_to_database_flush_failure
      (utcnow : nat -> Z) (new_openings : list Opening)
      (new_statistics : list OpeningStatistic) (db : Db) (msg : string) :
  save_to_database (fail_at 4 msg) utcnow new_openings new_statistics db
  = (Raised pending_rollback,
     {| openings := [];
        statistics := [];
        update_logs :=
          update_logs db ++ [log_in_progress (next_pk (update_logs db)) (utcnow 0%nat)];
        tier_list_entries := tier_list_entries db |}).
Proof.
  destruct db as [os ss ls es].
  unfold save_to_database, try_except. cbn.
  fold (log_in_progress (next_pk ls) (utcnow 0%nat)).
  rewrite log_written_back.
  reflexivity.
Qed.

(** A stored snapshot of one opening with its statistic, and a new load in
    which the statistics outnumber the openings. *)
Definition sample_opening (label : string) : Opening :=
  {| id := None; eco_code := "C20"; name := label;
     moves_sequence := ["e4"; "e5"]; popularity_rank := 1; is_active := true |}.

Definition sample_statistic (games : Z) : OpeningStatistic :=
  {| st_id := None; opening_id := None;
     white_wins := games; black_wins := 0; draws := 0; total_games := games;
     win_rate_white := 1; win_rate_black := 0; draw_rate := 0;
     performance_score := 80;
     rating_range := Some "all"; time_control := Some "all";
     date_range_start := None; date_range_end := None;
     average_rating := None; average_game_length := None;
     frequency_rank := None; collected_at := 5; data_source := "lichess" |}.

Definition prior_snapshot : Db :=
  {| openings := [with_pk 1 (sample_opening "King's Pawn Game")];
     statistics := [with_pk 1 (set_opening_id (Some 1) (sample_statistic 100))];
     update_logs := [];
     tier_list_entries := [] |}.

Definition wall_clock : nat -> Z := fun n => 1000 + Z.of_nat n.

(** C1.  [save_to_database] is not atomic.  (a) With one opening and two
    statistics and no failure injected, [openings[1]] raises IndexError in
    the linking loop: the stored snapshot is gone, the new opening is
    committed without any statistic, and the log is marked error with the
    exception text.  (b) Whatever the inputs and the stored snapshot, when
    the INSERT of the openings fails the two tables are left empty: the
    DELETEs were committed on their own before. *)
Theorem save_to_database_half_replaced :
  (let final := save_to_database no_failure wall_clock
                  [sample_opening "Sicilian Defense"]
                  [sample_statistic 200; sample_statistic 300]
                  prior_snapshot in
   fst final = Returned false
   /\ openings (snd final) = [with_pk 1 (sample_opening "Sicilian Defense")]
   /\ statistics (snd final) = []
   /\ openings (snd final) <> openings prior_snapshot
   /\ statistics (snd final) <> statistics prior_snapshot
   /\ map status (update_logs (snd final)) = ["error"]
   /\ map error_message (update_logs (snd final)) = [Some "list index out of range"])
  /\ (forall (utcnow : nat -> Z) (new_openings : list Opening)
             (new_statistics : list OpeningStatistic) (db : Db) (msg : string),
         let final := save_to_database (fail_at 4 msg) utcnow
                        new_openings new_statistics db in
         openings (snd final) = [] /\ statistics (snd final) = []).
Proof.
  split.
  - vm_compute. repeat split; try reflexivity; discriminate.
  - intros utcnow new_openings new_statistics db msg final.
    unfold final. rewrite save_to_database_flush_failure.
    split; reflexivity.
Qed.

(** C7.  The log of a run can stay "in_progress".  Whatever the inputs and
    the stored data, when the INSERT of the openings fails the handler's
    [session.commit()] is refused by the session, which awaits the
    [rollback()] that the handler calls only afterwards: the exception
    leaves [save_to_database], and the log row of the run is the one the
    first commit wrote, with status "in_progress".  No failure needs to be
    injected: two openings that come with the same primary key make that
    INSERT fail by themselves. *)
Theorem update_log_left_in_progress :
  (forall (utcnow : nat -> Z) (new_openings : list Opening)
          (new_statistics : list OpeningStatistic) (db : Db) (msg : string),
      let final := save_to_database (fail_at 4 msg) utcnow
                     new_openings new_statistics db in
      fst final = Raised pending_rollback
      /\ exists run_log : DataUpdateLog,
           update_logs (snd final) = update_logs db ++ [run_log]
           /\ status run_log = "in_progress"
           /\ completed_at run_log = None
           /\ error_message run_log = None)
  /\ (let final := save_to_database no_failure wall_clock
                     [with_pk 5 (sample_opening "Sicilian Defense");
                      with_pk 5 (sample_opening "French Defense")]
                     [] prior_snapshot in
      fst final = Raised pending_rollback
      /\ map status (update_logs (snd final)) = ["in_progress"]).
Proof.
  split.
  - intros utcnow new_openings new_statistics db msg final. unfold final.
    rewrite save_to_database_flush_failure. split; [reflexivity|].
    eexists. split; [reflexivity|].
    repeat split.
  - vm_compute. split; reflexivity.
Qed.

(** Without a failure the same load replaces the snapshot and the log is
    marked success. *)
Example save_to_database_success :
  let final := save_to_database no_failure wall_clock
                 [sample_opening "Sicilian Defense"] [sample_statistic 200]
                 prior_snapshot in
  fst final = Returned true
  /\ map name (openings (snd final)) = ["Sicilian Defense"]
  /\ map opening_id (statistics (snd final)) = [Some 1]
  /\ map status (update_logs (snd final)) = ["success"].
Proof. vm_compute. repeat split. Qed.
End Loading.

(** ** The tier-list overlay: [update_tier_list] *)

Section TierUpdates.
Import Models Orm Api.
Variable plan : nat -> option string.
Variable utcnow : nat -> Z.
Variables rating_range time_control user : string.

(** One update makes one round trip and touches neither the committed
    store nor the state of the transaction. *)
Lemma apply_update_spec (u : TierListUpdate) (s : Session) :
  inactive s = false ->
  match apply_update plan utcnow rating_range time_control user u s with
  | Ok _ s' =>
      store s' = store s /\ txn s' = txn s /\ inactive s' = false
      /\ trips s' = S (trips s) /\ plan (trips s) = None
  | Raise msg s' =>
      store s' = store s /\ plan (trips s) = Some msg
  end.
Proof.
  intro Hact.
  unfold apply_update, bind, query_first, round_trip.
  rewrite Hact.
  destruct (plan (trips s)) as [msg|] eqn:Hplan.
  - split; reflexivity.
  - destruct (find _ (rows TierListEntries (txn (tick s)))) as [r|].
    + destruct (identity_of _ r) as [o|]; simpl; repeat split; assumption.
    + simpl. repeat split; assumption.
Qed.

Lemma apply_updates_spec (updates : list TierListUpdate) :
  forall s : Session,
    inactive s = false ->
    match apply_updates plan utcnow rating_range time_control user updates s with
    | Ok _ s' =>
        store s' = store s /\ txn s' = txn s /\ inactive s' = false
        /\ trips s' = (trips s + List.length updates)%nat
        /\ forall k, (k < List.length updates)%nat -> plan (trips s + k) = None
    | Raise msg s' =>
        store s' = store s
        /\ exists k, (k < List.length updates)%nat /\ plan (trips s + k) = Some msg
    end.
Proof.
  induction updates as [|u rest IH]; intros s Hact; simpl.
  - repeat split; try reflexivity; try assumption; try lia.
  - unfold bind at 1.
    pose proof (apply_update_spec u s Hact) as Hone.
    destruct (apply_update plan utcnow rating_range time_control user u s)
      as [[] s1|msg s1].
    + destruct Hone as (Hst & Htx & Hact1 & Htr & Hnone).
      specialize (IH s1 Hact1).
      destruct (apply_updates plan utcnow rating_range time_control user rest s1)
        as [[] s2|msg s2].
      * destruct IH as (Hst2 & Htx2 & Hact2 & Htr2 & Hnone2).
        repeat split; try congruence; try lia.
        intros [|k] Hk.
        -- rewrite Nat.add_0_r. exact Hnone.
        -- replace (trips s + S k)%nat with (trips s1 + k)%nat by lia.
           apply Hnone2. lia.
      * destruct IH as (Hst2 & k & Hk & Hplan).
        split; [congruence|].
        exists (S k). split; [lia|].
        replace (trips s + S k)%nat with (trips s1 + k)%nat by lia.
        exact Hplan.
    + destruct Hone as (Hst & Hplan).
      split; [exact Hst|].
      exists 0%nat. split; [lia|]. rewrite Nat.add_0_r. exact Hplan.
Qed.

(** The call either answers with its success message or with status 500,
    and in the second case the database is the one it started from. *)
Lemma update_tier_list_outcomes (updates : list TierListUpdate) (db : Db) :
  (exists db', update_tier_list plan utcnow updates rating_range time_control user db
               = (Body "Tier list updated successfully", db')
               /\ forall k, (k <= List.length updates)%nat -> plan k = None)
  \/ (exists msg, update_tier_list plan utcnow updates rating_range time_control user db
                  = (HttpException 500 ("Failed to update tier list: " ++ msg)%string, db)).
Proof.
  unfold update_tier_list, try_except, bind.
  pose proof (apply_updates_spec updates (open_session db) eq_refl) as Hloop.
  destruct (apply_updates plan utcnow rating_range time_control user updates
              (open_session db)) as [[] s1|msg s1].
  - destruct Hloop as (Hst & Htx & Hact & Htr & Hnone).
    unfold commit, bind, flush. rewrite Hact.
    destruct (plan (trips s1)) as [msg|] eqn:Hplan.
    + right. exists msg. simpl. rewrite Hst. reflexivity.
    + destruct (flush_tables utcnow (tick s1)) as [s2|].
      * left. eexists. split; [reflexivity|].
        intros k Hk. simpl in Htr.
        destruct (Nat.eq_dec k (List.length updates)) as [->|Hne].
        -- rewrite <- Htr. exact Hplan.
        -- apply (Hnone k). lia.
      * right. exists integrity_error. simpl. rewrite Hst. reflexivity.
  - destruct Hloop as (Hst & _).
    right. exists msg. simpl. rewrite Hst. reflexivity.
Qed.

(** C6.  When any round trip of the call fails (the lookup of one of the
    updates, or the commit), the caller gets an error (status 500) and the
    database, the TierListEntry table included, is exactly what it was before
    the call: nothing of the batch is applied. *)
Theorem tier_updates_all_or_nothing (updates : list TierListUpdate) (db : Db) :
  (exists k msg, (k <= List.length updates)%nat /\ plan k = Some msg) ->
  exists detail,
    update_tier_list plan utcnow updates rating_range time_control user db
    = (HttpException 500 detail, db).
Proof.
  intros (k & msg & Hk & Hplan).
  destruct (update_tier_list_outcomes updates db) as [(db' & _ & Hnone)|(m & Hfail)].
  - rewrite (Hnone k Hk) in Hplan. discriminate.
  - eexists. exact Hfail.
Qed.
End TierUpdates.

(** ** Upserts, one call after another *)

Section Upserts.
Import Models Orm Api.
Variable utcnow : nat -> Z.
Variables rating_range time_control user : string.

Local Arguments next_pk : simpl never.
Local Arguments sql_update : simpl never.
Local Arguments tier_key : simpl never.

(** The filter of the lookup for opening [k] in the context of the call. *)
Definition in_context (k : Z) : TierListEntry -> bool :=
  tier_key (Some k) (Some rating_range) (Some time_control) (Some user).

(** The row an INSERT makes of a new entry. *)
Definition inserted_entry (u : TierListUpdate) (key t : Z) : TierListEntry :=
  defaults t (with_pk key (new_entry u rating_range time_control user)).

Definition with_entries (es : list TierListEntry) (db : Db) : Db :=
  {| openings := openings db; statistics := statistics db;
     update_logs := update_logs db; tier_list_entries := es |}.

(** A call with one update for a key that has no row: one INSERT. *)
Lemma update_tier_list_inserts (u : TierListUpdate) (db : Db) :
  find (in_context (u_opening_id u)) (tier_list_entries db) = None ->
  update_tier_list no_failure utcnow [u] rating_range time_control user db
  = (Body "Tier list updated successfully",
     with_entries (tier_list_entries db
                   ++ [inserted_entry u (next_pk (tier_list_entries db)) (utcnow 2%nat)])
                  db).
Proof.
  intro Hfind. destruct db as [os ss ls es]. simpl in Hfind.
  unfold in_context in Hfind.
  unfold update_tier_list, try_except, apply_updates, apply_update, bind,
    query_first, round_trip, no_failure.
  cbn. rewrite Hfind. cbn.
  reflexivity.
Qed.

Lemma sql_update_single (o r : TierListEntry) (k : Z) :
  te_id o = Some k -> te_id r = Some k -> sql_update o [r] = [o].
Proof.
  intros Ho Hr. unfold sql_update, has_pk. cbn.
  rewrite Ho, Hr, Z.eqb_refl. reflexivity.
Qed.

(** A call with one update for a key that has a row: one UPDATE of the
    first such row. *)
Lemma update_tier_list_updates (u : TierListUpdate) (db : Db)
      (r : TierListEntry) (key : Z) :
  find (in_context (u_opening_id u)) (tier_list_entries db) = Some r ->
  te_id r = Some key ->
  update_tier_list no_failure utcnow [u] rating_range time_control user db
  = (Body "Tier list updated successfully",
     with_entries (sql_update (retiered u (utcnow 1%nat) r) (tier_list_entries db)) db).
Proof.
  intros Hfind Hkey. destruct db as [os ss ls es]. simpl in Hfind.
  unfold in_context in Hfind.
  unfold update_tier_list, try_except, apply_updates, apply_update, bind,
    query_first, round_trip, no_failure.
  cbn. rewrite Hfind.
  unfold identity_of. cbn. rewrite Hkey. cbn.
  unfold replace_loaded.
  rewrite (sql_update_single (retiered u (utcnow 1%nat) r) r (k := key) Hkey Hkey).
  cbn. reflexivity.
Qed.

(** A call with two updates for one key that has a row: the second lookup
    returns the object the first update assigned to, and one UPDATE writes
    the second update's values. *)
Lemma update_tier_list_updates_twice (u1 u2 : TierListUpdate) (db : Db)
      (r : TierListEntry) (key : Z) :
  u_opening_id u2 = u_opening_id u1 ->
  find (in_context (u_opening_id u1)) (tier_list_entries db) = Some r ->
  te_id r = Some key ->
  update_tier_list no_failure utcnow [u1; u2] rating_range time_control user db
  = (Body "Tier list updated successfully",
     with_entries
       (sql_update (retiered u2 (utcnow 2%nat) (retiered u1 (utcnow 1%nat) r))
                   (tier_list_entries db))
       db).
Proof.
  intros Hsame Hfind Hkey. destruct db as [os ss ls es]. simpl in Hfind.
  unfold in_context in Hfind.
  assert (Hfind2 := Hfind). rewrite <- Hsame in Hfind2.
  unfold update_tier_list, try_except, apply_updates, apply_update, bind,
    query_first, round_trip, no_failure.
  cbn. rewrite Hfind.
  unfold identity_of. cbn. rewrite Hkey. cbn.
  unfold replace_loaded.
  rewrite (sql_update_single (retiered u1 (utcnow 1%nat) r) r (k := key) Hkey Hkey).
  cbn. rewrite Hfind2. cbn. rewrite Hkey.
  unfold has_pk at 1. cbn. rewrite Hkey, Z.eqb_refl. cbn.
  unfold replace_loaded.
  rewrite (sql_update_single (retiered u2 (utcnow 2%nat) (retiered u1 (utcnow 1%nat) r))
             (retiered u1 (utcnow 1%nat) r) (k := key) Hkey Hkey).
  cbn. reflexivity.
Qed.

(** A call with two updates for one key that has no row: the second lookup
    does not see the entry the first update added, and both are inserted. *)
Lemma update_tier_list_inserts_twice (u1 u2 : TierListUpdate) (db : Db) :
  u_opening_id u2 = u_opening_id u1 ->
  find (in_context (u_opening_id u1)) (tier_list_entries db) = None ->
  update_tier_list no_failure utcnow [u1; u2] rating_range time_control user db
  = (Body "Tier list updated successfully",
     with_entries
       (tier_list_entries db
        ++ [inserted_entry u1 (next_pk (tier_list_entries db)) (utcnow 3%nat);
            inserted_entry u2
              (next_pk (tier_list_entries db
                        ++ [inserted_entry u1 (next_pk (tier_list_entries db))
                                           (utcnow 3%nat)]))
              (utcnow 3%nat)])
       db).
Proof.
  intros Hsame Hfind. destruct db as [os ss ls es]. simpl in Hfind.
  unfold in_context in Hfind.
  unfold update_tier_list, try_except, apply_updates, apply_update, bind,
    query_first, round_trip, no_failure.
  assert (Hfind2 := Hfind). rewrite <- Hsame in Hfind2.
  cbn. rewrite Hfind. cbn. rewrite Hfind2. cbn.
  rewrite <- app_assoc. reflexivity.
Qed.
End Upserts.

(** ** Rows with distinct keys *)

Section Stored.
Import Models Orm.
Context {R : Type} `{Row R}.

(** The rows of a stored table: each has a key, and no key occurs twice. *)
Definition stored (t : list R) : Prop :=
  NoDup (map pk t) /\ Forall (fun r => pk r <> None) t.

Lemma has_pk_true (k : Z) (r : R) : has_pk k r = true -> pk r = Some k.
Proof.
  unfold has_pk. destruct (pk r) as [k'|]; [|discriminate].
  intro Hk. apply Z.eqb_eq in Hk. congruence.
Qed.

Lemma has_pk_of (k : Z) (r : R) : pk r = Some k -> has_pk k r = true.
Proof. intro Hk. unfold has_pk. rewrite Hk. apply Z.eqb_refl. Qed.

Lemma same_pk_same_row (t : list R) (x y : R) :
  NoDup (map pk t) -> In x t -> In y t -> pk x = pk y -> x = y.
Proof.
  induction t as [|z t IH]; intros Hnd Hx Hy Hpk; simpl in *; [contradiction|].
  inversion Hnd as [|? ? Hnotin Hnd']; subst.
  destruct Hx as [->|Hx], Hy as [->|Hy].
  - reflexivity.
  - exfalso. apply Hnotin. rewrite Hpk. apply in_map, Hy.
  - exfalso. apply Hnotin. rewrite <- Hpk. apply in_map, Hx.
  - apply IH; assumption.
Qed.

(** An UPDATE keeps every key where it was. *)
Lemma sql_update_keys (o : R) (t : list R) :
  map pk (sql_update o t) = map pk t.
Proof.
  unfold sql_update. destruct (pk o) as [k|] eqn:Hk; [|reflexivity].
  rewrite map_map. apply map_ext.
  intro r. destruct (has_pk k r) eqn:Hr; [|reflexivity].
  rewrite (has_pk_true k r Hr). exact Hk.
Qed.

Lemma sql_update_stored (o : R) (t : list R) :
  pk o <> None -> stored t -> stored (sql_update o t).
Proof.
  intros Ho [Hnd Hall]. split.
  - rewrite sql_update_keys. exact Hnd.
  - unfold sql_update. destruct (pk o) as [k|] eqn:Hk; [|exact Hall].
    rewrite Forall_forall in *. intros x Hx.
    apply in_map_iff in Hx. destruct Hx as (r & <- & Hr).
    destruct (has_pk k r); [congruence|apply Hall, Hr].
Qed.

(** An UPDATE of the row inserted last, the key being the fresh one. *)
Lemma sql_update_last (o r : R) (t : list R) :
  pk o = Some (next_pk t) -> pk r = Some (next_pk t) ->
  sql_update o (t ++ [r]) = t ++ [o].
Proof.
  intros Ho Hr. unfold sql_update. rewrite Ho, map_app. simpl.
  f_equal.
  - rewrite <- (map_id t) at 2. apply map_ext_in.
    intros x Hx. rewrite (next_pk_fresh t x Hx). reflexivity.
  - rewrite (has_pk_of r Hr). reflexivity.
Qed.

(** An UPDATE of the one row that passes a filter, by an object that passes
    it too: that object is then the one row that passes. *)
Lemma sql_update_filter (p : R -> bool) (o r : R) (t : list R) (k : Z) :
  NoDup (map pk t) -> pk r = Some k -> pk o = Some k ->
  p o = true -> filter p t = [r] ->
  filter p (sql_update o t) = [o].
Proof.
  intros Hnd Hr Ho Hpo Hfilter.
  assert (Hin : In r t /\ p r = true).
  { apply filter_In. rewrite Hfilter. left. reflexivity. }
  destruct Hin as [Hin Hpr].
  unfold sql_update. rewrite Ho.
  assert (Hcommute :
            forall l, incl l t ->
                      filter p (map (fun x => if has_pk k x then o else x) l)
                      = map (fun x => if has_pk k x then o else x) (filter p l)).
  { induction l as [|x l IH]; intro Hincl; simpl; [reflexivity|].
    assert (Hx : In x t) by (apply Hincl; left; reflexivity).
    assert (Hl : incl l t) by (intros y Hy; apply Hincl; right; exact Hy).
    destruct (has_pk k x) eqn:Hk.
    - assert (x = r).
      { apply (same_pk_same_row t); try assumption.
        rewrite (has_pk_true k x Hk). symmetry. exact Hr. }
      subst x. rewrite Hpo, Hpr. simpl. rewrite Hk. f_equal. apply IH, Hl.
    - destruct (p x); simpl; [rewrite Hk; f_equal|]; apply IH, Hl. }
  rewrite (Hcommute t (incl_refl t)), Hfilter. simpl.
  rewrite (has_pk_of r Hr). reflexivity.
Qed.
End Stored.

Section Finding.
Variable A : Type.
Variable p : A -> bool.

Lemma find_hd_filter (l : list A) : find p l = hd_error (filter p l).
Proof.
  induction l as [|x l IH]; simpl; [reflexivity|].
  destruct (p x); [reflexivity|exact IH].
Qed.

Lemma find_none_filter (l : list A) : find p l = None -> filter p l = [].
Proof.
  rewrite find_hd_filter. destruct (filter p l); [reflexivity|discriminate].
Qed.

Lemma find_some_filter (l : list A) (x : A) :
  find p l = Some x -> (List.length (filter p l) <= 1)%nat -> filter p l = [x].
Proof.
  rewrite find_hd_filter. destruct (filter p l) as [|y [|z r]]; simpl;
    intros Hx Hlen; try discriminate; [congruence|lia].
Qed.

Lemma filter_find (l : list A) (x : A) : filter p l = [x] -> find p l = Some x.
Proof. intro Hf. rewrite find_hd_filter, Hf. reflexivity. Qed.
End Finding.

(** ** Two writes for one key *)

Definition rank_update (opening : Z) (rank : string) (position : Z) : Api.TierListUpdate :=
  {| Api.u_opening_id := opening; Api.u_tier_rank := rank;
     Api.u_tier_position := position |}.

Section UpsertSequence.
Import Models Orm Api.
Variables first_clock second_clock : nat -> Z.
Variables rating_range time_control user : string.
Variable opening : Z.

Let matching : TierListEntry -> bool :=
  in_context rating_range time_control user opening.

Lemma inserted_entry_matches (u : TierListUpdate) (key t : Z) :
  u_opening_id u = opening ->
  matching (inserted_entry rating_range time_control user u key t) = true.
Proof.
  intro Hu. unfold matching, in_context, tier_key. simpl.
  rewrite Hu, Z.eqb_refl, !String.eqb_refl. reflexivity.
Qed.

Lemma retiered_matches (u : TierListUpdate) (t : Z) (e : TierListEntry) :
  matching (retiered u t e) = matching e.
Proof. reflexivity. Qed.

(** One call with one update for [opening], from a stored table with at
    most one row for the key: afterwards the table is stored, and the key
    has exactly one row, which carries the rank and position written. *)
Lemma one_write (clock : nat -> Z) (rank : string) (position : Z) (db : Db) :
  stored (tier_list_entries db) ->
  (List.length (filter matching (tier_list_entries db)) <= 1)%nat ->
  exists (db' : Db) (e : TierListEntry),
    update_tier_list no_failure clock [rank_update opening rank position]
                     rating_range time_control user db
    = (Body "Tier list updated successfully", db')
    /\ stored (tier_list_entries db')
    /\ filter matching (tier_list_entries db') = [e]
    /\ tier_rank e = rank /\ tier_position e = position.
Proof.
  intros [Hnd Hkeys] Hone.
  destruct (find matching (tier_list_entries db)) as [r|] eqn:Hfind.
  - (* a row exists: it is updated in place *)
    pose proof (find_some_filter _ _ Hfind Hone) as Hfilter.
    assert (Hin : In r (tier_list_entries db)).
    { apply (find_some _ _ Hfind). }
    assert (Hmatch : matching r = true).
    { apply (find_some _ _ Hfind). }
    destruct (te_id r) as [key|] eqn:Hkey.
    2:{ rewrite Forall_forall in Hkeys. exfalso. apply (Hkeys r Hin). exact Hkey. }
    eexists. exists (retiered (rank_update opening rank position) (clock 1%nat) r).
    split; [|split; [|split; [|split]]].
    + apply (update_tier_list_updates clock rating_range time_control user
               (rank_update opening rank position) db (r := r) (key := key));
        assumption.
    + simpl. apply sql_update_stored.
      * simpl. rewrite Hkey. discriminate.
      * split; assumption.
    + simpl.
      apply sql_update_filter with (r := r) (k := key); assumption.
    + reflexivity.
    + reflexivity.
  - (* no row: one is inserted *)
    pose proof (find_none_filter _ _ Hfind) as Hfilter.
    eexists.
    exists (inserted_entry rating_range time_control user
              (rank_update opening rank position)
              (next_pk (tier_list_entries db)) (clock 2%nat)).
    split; [|split; [|split; [|split]]].
    + apply (update_tier_list_inserts clock rating_range time_control user
               (rank_update opening rank position) db). exact Hfind.
    + simpl. split.
      * rewrite map_app. simpl.
        apply NoDup_app_remove_l with (l := []). simpl.
        apply Permutation_NoDup with
          (l := Some (next_pk (tier_list_entries db)) :: map te_id (tier_list_entries db)).
        { apply Permutation_cons_append. }
        constructor; [|exact Hnd].
        intro Habs. apply in_map_iff in Habs. destruct Habs as (x & Hx & Hxin).
        pose proof (next_pk_fresh (tier_list_entries db) x Hxin) as Hfresh.
        unfold has_pk in Hfresh. simpl in Hfresh. rewrite Hx, Z.eqb_refl in Hfresh.
        discriminate.
      * apply Forall_app. split; [exact Hkeys|].
        constructor; [simpl; discriminate|constructor].
    + simpl. rewrite filter_app, Hfilter. simpl.
      rewrite inserted_entry_matches by reflexivity. reflexivity.
    + reflexivity.
    + reflexivity.
Qed.

(** X25.  For every key, starting from a stored table that holds at most
    one row for it, the write of (A, 1) followed by the write of (S, 1),
    each a call of its own, leaves exactly one row for the key, with rank
    "S" and position 1: the second write updates the row of the first.  When
    the key has its row already, the two writes in one call do the same.
    (Two writes in one call for a key that has no row yet are another
    matter: they leave two rows.) *)
Theorem second_write_updates_in_place (db : Db) :
  stored (tier_list_entries db) ->
  (List.length (filter matching (tier_list_entries db)) <= 1)%nat ->
  (exists (db1 db2 : Db) (e : TierListEntry),
      update_tier_list no_failure first_clock [rank_update opening "A" 1]
                       rating_range time_control user db
      = (Body "Tier list updated successfully", db1)
      /\ update_tier_list no_failure second_clock [rank_update opening "S" 1]
                          rating_range time_control user db1
         = (Body "Tier list updated successfully", db2)
      /\ filter matching (tier_list_entries db2) = [e]
      /\ tier_rank e = "S" /\ tier_position e = 1)
  /\ (forall r : TierListEntry,
         find matching (tier_list_entries db) = Some r ->
         exists (db' : Db) (e : TierListEntry),
           update_tier_list no_failure first_clock
                            [rank_update opening "A" 1; rank_update opening "S" 1]
                            rating_range time_control user db
           = (Body "Tier list updated successfully", db')
           /\ filter matching (tier_list_entries db') = [e]
           /\ tier_rank e = "S" /\ tier_position e = 1).
Proof.
  intros Hstored Hone. split.
  - destruct (one_write first_clock "A" 1 db Hstored Hone)
      as (db1 & e1 & Hfirst & Hstored1 & Hfilter1 & _).
    assert (Hone1 : (List.length (filter matching (tier_list_entries db1)) <= 1)%nat).
    { rewrite Hfilter1. simpl. lia. }
    destruct (one_write second_clock "S" 1 db1 Hstored1 Hone1)
      as (db2 & e2 & Hsecond & _ & Hfilter2 & Hrank & Hposition).
    exists db1, db2, e2. repeat split; assumption.
  - intros r Hfind. destruct Hstored as [Hnd Hkeys].
    pose proof (find_some_filter _ _ Hfind Hone) as Hfilter.
    assert (Hin : In r (tier_list_entries db)) by apply (find_some _ _ Hfind).
    assert (Hmatch : matching r = true) by apply (find_some _ _ Hfind).
    destruct (te_id r) as [key|] eqn:Hkey.
    2:{ rewrite Forall_forall in Hkeys. exfalso. apply (Hkeys r Hin). exact Hkey. }
    eexists.
    exists (retiered (rank_update opening "S" 1) (first_clock 2%nat)
              (retiered (rank_update opening "A" 1) (first_clock 1%nat) r)).
    split; [|split; [|split; reflexivity]].
    + apply (update_tier_list_updates_twice first_clock rating_range time_control user
               (rank_update opening "A" 1) (rank_update opening "S" 1) db
               (r := r) (key := key)); [reflexivity|exact Hfind|exact Hkey].
    + simpl. apply sql_update_filter with (r := r) (k := key); assumption.
Qed.
End UpsertSequence.

Section TierWitnesses.
Import Models Orm Api.

Lemma second_write_updates_in_place_witness :
  stored (Orm.tier_list_entries Orm.empty_db)
  /\ (List.length (filter (in_context "all" "all" "default" 7)
                          (Orm.tier_list_entries Orm.empty_db)) <= 1)%nat
  /\ exists (db1 db2 : Orm.Db) (e : Models.TierListEntry),
       Api.update_tier_list no_failure wall_clock [rank_update 7 "A" 1]
                            "all" "all" "default" Orm.empty_db
       = (Api.Body "Tier list updated successfully", db1)
       /\ Api.update_tier_list no_failure wall_clock [rank_update 7 "S" 1]
                               "all" "all" "default" db1
          = (Api.Body "Tier list updated successfully", db2)
       /\ filter (in_context "all" "all" "default" 7) (Orm.tier_list_entries db2) = [e]
       /\ Models.tier_rank e = "S" /\ Models.tier_position e = 1.
Proof.
  assert (Hstored : stored (Orm.tier_list_entries Orm.empty_db)).
  { split; constructor. }
  assert (Hone : (List.length (filter (in_context "all" "all" "default" 7)
                                      (Orm.tier_list_entries Orm.empty_db)) <= 1)%nat).
  { simpl. lia. }
  split; [exact Hstored|]. split; [exact Hone|].
  exact (proj1 (second_write_updates_in_place wall_clock wall_clock
                  "all" "all" "default" 7 Orm.empty_db Hstored Hone)).
Defined.

Lemma tier_updates_all_or_nothing_witness :
  (exists k msg, (k <= List.length [rank_update 7 "A" 1; rank_update 9 "B" 2])%nat
                 /\ fail_at 1 "OperationalError" k = Some msg)
  /\ exists detail,
       Api.update_tier_list (fail_at 1 "OperationalError") wall_clock
                            [rank_update 7 "A" 1; rank_update 9 "B" 2]
                            "all" "all" "default" prior_snapshot
       = (Api.HttpException 500 detail, prior_snapshot).
Proof.
  assert (Hfails : exists k msg,
             (k <= List.length [rank_update 7 "A" 1; rank_update 9 "B" 2])%nat
             /\ fail_at 1 "OperationalError" k = Some msg).
  { exists 1%nat, "OperationalError". split; [simpl; lia|reflexivity]. }
  split; [exact Hfails|].
  exact (tier_updates_all_or_nothing (fail_at 1 "OperationalError") wall_clock
           "all" "all" "default" [rank_update 7 "A" 1; rank_update 9 "B" 2]
           prior_snapshot Hfails).
Defined.

End TierWitnesses.

(** ** Two writes for one key in one call *)

Section BatchDuplicates.
Import Models Orm Api.

(** At most one entry for every key (opening, rating range, time control,
    user). *)
Definition one_row_per_key (es : list TierListEntry) : Prop :=
  forall (k : option Z) (r t u : option string),
    (List.length (filter (tier_key k r t u) es) <= 1)%nat.

(** C10.  [update_tier_list] does not keep the table at one row per key.
    (a) From the empty table, one successful call with the updates (7, A, 1)
    and (7, S, 1) leaves two rows for the key (7, "all", "all", "default").
    (b) The same holds from every database that has no row for the key yet:
    the session does not flush before a query, so the lookup of the second
    update does not see the entry the first one added. *)
Theorem batch_leaves_two_rows_for_a_key :
  (let final := update_tier_list no_failure wall_clock
                  [rank_update 7 "A" 1; rank_update 7 "S" 1]
                  "all" "all" "default" empty_db in
   one_row_per_key (tier_list_entries empty_db)
   /\ fst final = Body "Tier list updated successfully"
   /\ map (fun e => (te_id e, te_opening_id e, tier_rank e))
          (tier_list_entries (snd final))
      = [(Some 1, Some 7, "A"); (Some 2, Some 7, "S")]
   /\ ~ one_row_per_key (tier_list_entries (snd final)))
  /\ (forall (utcnow : nat -> Z) (rating_range time_control user : string)
             (opening : Z) (db : Db),
         find (in_context rating_range time_control user opening)
              (tier_list_entries db) = None ->
         let final := update_tier_list no_failure utcnow
                        [rank_update opening "A" 1; rank_update opening "S" 1]
                        rating_range time_control user db in
         fst final = Body "Tier list updated successfully"
         /\ List.length (filter (in_context rating_range time_control user opening)
                                (tier_list_entries (snd final))) = 2%nat).
Proof.
  split.
  - cbv zeta. split; [|split; [|split]].
    + intros k r t u. simpl. lia.
    + vm_compute. reflexivity.
    + vm_compute. reflexivity.
    + intro Hone.
      specialize (Hone (Some 7) (Some "all") (Some "all") (Some "default")).
      vm_compute in Hone. lia.
  - intros utcnow rating_range time_control user opening db Hfind final.
    unfold final.
    rewrite (update_tier_list_inserts_twice utcnow rating_range time_control user
               (rank_update opening "A" 1) (rank_update opening "S" 1) db
               eq_refl Hfind).
    split; [reflexivity|].
    simpl. rewrite filter_app, (find_none_filter _ _ Hfind). simpl.
    rewrite !inserted_entry_matches by reflexivity.
    reflexivity.
Qed.
End BatchDuplicates.

(** ** A first write and a second write in one call *)

Section FirstWriteBatch.
Import Models Orm Api.

(** C5.  The second write does not always update in place.  When the two
    updates (A, 1) and (S, 1) for a key come in one call and the key has no
    row yet, the call succeeds and leaves two rows for the key, the first
    with rank "A" and the second with rank "S": the lookup of the second
    update does not see the entry the first one added, which is not
    flushed.  The row a later lookup by the key returns is the row with
    rank "A", so [get_tier_list] shows "A" and the last write is lost from
    view.  (a) From the empty table, for opening 7 in the default context;
    (b) from every database without a row for the key. *)
Theorem second_write_in_one_call_duplicates :
  (let final := update_tier_list no_failure wall_clock
                  [rank_update 7 "A" 1; rank_update 7 "S" 1]
                  "all" "all" "default" empty_db in
   fst final = Body "Tier list updated successfully"
   /\ map (fun e => (tier_rank e, tier_position e))
          (filter (in_context "all" "all" "default" 7)
                  (tier_list_entries (snd final)))
      = [("A", 1); ("S", 1)]
   /\ option_map tier_rank
        (find (tier_key (Some 7) (Some "all") (Some "all") (Some "default"))
              (tier_list_entries (snd final)))
      = Some "A")
  /\ (forall (utcnow : nat -> Z) (rating_range time_control user : string)
             (opening : Z) (db : Db),
         find (in_context rating_range time_control user opening)
              (tier_list_entries db) = None ->
         let final := update_tier_list no_failure utcnow
                        [rank_update opening "A" 1; rank_update opening "S" 1]
                        rating_range time_control user db in
         fst final = Body "Tier list updated successfully"
         /\ (exists first second,
                filter (in_context rating_range time_control user opening)
                       (tier_list_entries (snd final)) = [first; second]
                /\ tier_rank first = "A" /\ tier_position first = 1
                /\ tier_rank second = "S" /\ tier_position second = 1
                /\ find (tier_key (Some opening) (Some rating_range)
                                  (Some time_control) (Some user))
                        (tier_list_entries (snd final)) = Some first)).
Proof.
  split.
  - cbv zeta. repeat split; vm_compute; reflexivity.
  - intros utcnow rating_range time_control user opening db Hfind final.
    unfold final.
    rewrite (update_tier_list_inserts_twice utcnow rating_range time_control user
               (rank_update opening "A" 1) (rank_update opening "S" 1) db
               eq_refl Hfind).
    split; [reflexivity|].
    eexists. eexists.
    cbn [snd tier_list_entries with_entries].
    split; [|split; [|split; [|split; [|split]]]].
    + rewrite filter_app, (find_none_filter _ _ Hfind). cbn [filter app].
      rewrite !inserted_entry_matches by reflexivity.
      reflexivity.
    + reflexivity.
    + reflexivity.
    + reflexivity.
    + reflexivity.
    + change (tier_key (Some opening) (Some rating_range) (Some time_control) (Some user))
        with (in_context rating_range time_control user opening).
      rewrite find_hd_filter, filter_app, (find_none_filter _ _ Hfind).
      cbn [filter app].
      rewrite !inserted_entry_matches by reflexivity.
      reflexivity.
Qed.
End FirstWriteBatch.

(** ** Sorted output *)

Section SortedOutput.
Variable A : Type.
Variable before : A -> A -> bool.

(** [x] may stand in front of [y]. *)
Definition in_order (x y : A) : Prop := before y x = false.

Hypothesis before_asym : forall x y, before x y = true -> before y x = false.

Lemma insert_sorted (x : A) (l : list A) :
  Sorted in_order l -> Sorted in_order (Py.insert before x l).
Proof.
  induction 1 as [|y r Hr IH Hhd]; simpl.
  - repeat constructor.
  - destruct (before y x) eqn:Hyx.
    + constructor; [exact IH|].
      destruct r as [|z r']; simpl.
      * constructor. unfold in_order. apply before_asym, Hyx.
      * destruct (before z x).
        -- constructor. inversion Hhd. assumption.
        -- constructor. unfold in_order. apply before_asym, Hyx.
    + constructor; [constructor; assumption|].
      constructor. exact Hyx.
Qed.

Lemma sort_sorted (l : list A) : Sorted in_order (Py.sort before l).
Proof.
  induction l as [|x r IH]; simpl; [constructor|].
  apply insert_sorted, IH.
Qed.
End SortedOutput.

Section SortedKept.
Variables A B : Type.
Variable R : A -> A -> Prop.

Lemma firstn_sorted (n : nat) (l : list A) : Sorted R l -> Sorted R (firstn n l).
Proof.
  revert l. induction n as [|n IH]; intros l Hl; simpl; [constructor|].
  destruct Hl as [|x r Hr Hhd]; [constructor|].
  constructor; [apply IH, Hr|].
  destruct n; simpl; [constructor|].
  destruct Hhd; constructor. assumption.
Qed.

Lemma map_sorted (S : B -> B -> Prop) (f : A -> B) (l : list A) :
  (forall x y, R x y -> S (f x) (f y)) ->
  Sorted R l -> Sorted S (map f l).
Proof.
  intros Hf Hl. induction Hl as [|x r Hr IH Hhd]; simpl; [constructor|].
  constructor; [exact IH|].
  destruct Hhd; simpl; constructor. apply Hf. assumption.
Qed.
End SortedKept.

Section SortedCut.
Variable A : Type.
Variable R : A -> A -> Prop.
Hypothesis R_trans : forall x y z, R x y -> R y z -> R x z.

Lemma skipn_In (n : nat) (l : list A) (x : A) : In x (skipn n l) -> In x l.
Proof.
  revert l. induction n as [|n IH]; intros [|y l] Hx; simpl in *;
    try assumption. right. apply IH, Hx.
Qed.

(** In a sorted list, what stands within the first [n] places stands
    before everything after them. *)
Lemma sorted_cut (n : nat) (l : list A) (a r : A) :
  Sorted R l -> In a (firstn n l) -> In r (skipn n l) -> R a r.
Proof.
  intro Hl. apply Sorted_StronglySorted in Hl; [|exact R_trans].
  revert n. induction Hl as [|x l Hl IH Hall]; intros n Ha Hr.
  - rewrite firstn_nil in Ha. contradiction.
  - destruct n as [|n]; simpl in Ha, Hr; [contradiction|].
    destruct Ha as [<-|Ha].
    + rewrite Forall_forall in Hall. apply Hall.
      apply (skipn_In n). exact Hr.
    + apply (IH n); assumption.
Qed.
End SortedCut.

Section FirstMatch.
Variable A : Type.
Variable p : A -> bool.

End FirstMatch.

(** ** The tier list: [get_tier_list] *)

Section TierList.
Import Models Orm Api.

Lemma Qltb_asym (a b : Q) : Qltb a b = true -> Qltb b a = false.
Proof.
  unfold Qltb. intro Hab.
  apply negb_true_iff in Hab. apply negb_false_iff.
  apply Qle_bool_iff.
  destruct (Qlt_le_dec a b) as [Hlt|Hle].
  - apply Qlt_le_weak, Hlt.
  - apply Qle_bool_iff in Hle. congruence.
Qed.

Lemma Qltb_false (a b : Q) : Qltb a b = false -> (b <= a)%Q.
Proof.
  unfold Qltb. intro Hab. apply negb_false_iff in Hab.
  apply Qle_bool_iff, Hab.
Qed.

Lemma join_In (db : Db) (o : Opening) (s : OpeningStatistic) :
  In (o, s) (join db)
  <-> In o (openings db) /\ In s (statistics db)
      /\ eq_join (id o) (opening_id s) = true.
Proof.
  unfold join. rewrite in_flat_map. split.
  - intros (o' & Ho & Hpair).
    apply in_map_iff in Hpair. destruct Hpair as (s' & Heq & Hs).
    inversion Heq; subst. apply filter_In in Hs. tauto.
  - intros (Ho & Hs & Hjoin). exists o. split; [exact Ho|].
    apply in_map_iff. exists s. split; [reflexivity|].
    apply filter_In. tauto.
Qed.

Lemma eq_join_true (a b : option Z) :
  eq_join a b = true <-> exists k, a = Some k /\ b = Some k.
Proof.
  destruct a as [x|], b as [y|]; simpl; split;
    try discriminate; try (intros (k & Ha & Hb); discriminate).
  - intro Hxy. apply Z.eqb_eq in Hxy. subst. exists y. tauto.
  - intros (k & Ha & Hb). inversion Ha; inversion Hb; subst. apply Z.eqb_refl.
Qed.

(** The subquery on a list of statistic rows. *)
Definition latest_in (l : list OpeningStatistic) (k : Z) : option Z :=
  fold_right (fun s m =>
                if eq_join (opening_id s) (Some k)
                then match m with
                     | Some t => Some (Z.max (collected_at s) t)
                     | None => Some (collected_at s)
                     end
                else m)
             None l.

Lemma latest_collected_at_fold (db : Db) (k : Z) :
  latest_collected_at db k = latest_in (statistics db) k.
Proof. reflexivity. Qed.

Lemma eq_join_same (a : option Z) (k : Z) :
  eq_join a (Some k) = true <-> a = Some k.
Proof.
  rewrite eq_join_true. split.
  - intros (k' & -> & Hk). symmetry. exact Hk.
  - intros ->. exists k. tauto.
Qed.

Lemma latest_in_cons (x : OpeningStatistic) (l : list OpeningStatistic) (k : Z) :
  latest_in (x :: l) k
  = if eq_join (opening_id x) (Some k)
    then match latest_in l k with
         | Some t => Some (Z.max (collected_at x) t)
         | None => Some (collected_at x)
         end
    else latest_in l k.
Proof. reflexivity. Qed.

(** No value: the opening has no statistic row. *)
Lemma latest_in_none (l : list OpeningStatistic) (k : Z) :
  latest_in l k = None ->
  forall s, In s l -> opening_id s <> Some k.
Proof.
  induction l as [|x l IH]; intros Hnone s Hs; [contradiction|].
  rewrite latest_in_cons in Hnone.
  destruct (eq_join (opening_id x) (Some k)) eqn:Hx.
  - destruct (latest_in l k); discriminate.
  - destruct Hs as [->|Hs]; [|apply IH; assumption].
    intro Habs. apply eq_join_same in Habs. congruence.
Qed.

(** A value: it is the [collected_at] of a row of the opening, and no row
    of the opening is newer. *)
Lemma latest_in_some (l : list OpeningStatistic) (k : Z) :
  forall m,
    latest_in l k = Some m ->
    (exists s, In s l /\ opening_id s = Some k /\ collected_at s = m)
    /\ (forall s, In s l -> opening_id s = Some k -> collected_at s <= m).
Proof.
  induction l as [|x l IH]; intros m Hm; [discriminate|].
  rewrite latest_in_cons in Hm.
  destruct (eq_join (opening_id x) (Some k)) eqn:Hx.
  - apply eq_join_same in Hx.
    destruct (latest_in l k) as [t|] eqn:Hrest.
    + destruct (IH t eq_refl) as [(s0 & Hs0 & Hk0 & Ht0) Hmax].
      inversion Hm; subst m. split.
      * destruct (Z.max_spec (collected_at x) t) as [[_ ->]|[_ ->]].
        -- exists s0. simpl. tauto.
        -- exists x. simpl. tauto.
      * intros s [->|Hs] Hks; [lia|].
        specialize (Hmax s Hs Hks). lia.
    + inversion Hm; subst m. split.
      * exists x. simpl. tauto.
      * intros s [->|Hs] Hks; [lia|].
        exfalso. eapply latest_in_none; eassumption.
  - destruct (IH m Hm) as [(s0 & Hs0 & Hk0 & Hm0) Hmax]. split.
    + exists s0. simpl. tauto.
    + intros s [->|Hs] Hks; [|apply Hmax; assumption].
      apply eq_join_same in Hks. congruence.
Qed.

(** The subquery's value for a group: the greatest [collected_at] among the
    statistics of the opening, all contexts together. *)
Lemma latest_collected_at_spec (db : Db) (k m : Z) :
  latest_collected_at db k = Some m
  <-> (exists s, In s (statistics db) /\ opening_id s = Some k /\ collected_at s = m)
      /\ (forall s, In s (statistics db) -> opening_id s = Some k -> collected_at s <= m).
Proof.
  rewrite latest_collected_at_fold. split; [apply latest_in_some|].
  intros [(s & Hs & Hks & Hms) Hall].
  destruct (latest_in (statistics db) k) as [t|] eqn:Hlatest.
  - destruct (latest_in_some _ _ Hlatest) as [(s0 & Hs0 & Hk0 & Ht0) Hmax].
    specialize (Hmax s Hs Hks). specialize (Hall s0 Hs0 Hk0).
    f_equal. lia.
  - exfalso. eapply latest_in_none; eassumption.
Qed.

Lemma is_latest_spec (db : Db) (s : OpeningStatistic) :
  In s (statistics db) ->
  (is_latest db s = true
   <-> opening_id s <> None
       /\ forall s', In s' (statistics db) -> opening_id s' = opening_id s ->
                     collected_at s' <= collected_at s).
Proof.
  intro Hs. unfold is_latest.
  destruct (opening_id s) as [k|] eqn:Hk.
  - destruct (latest_collected_at db k) as [m|] eqn:Hlatest; simpl.
    + apply latest_collected_at_spec in Hlatest.
      destruct Hlatest as [(s0 & Hs0 & Hk0 & Hm0) Hmax].
      split.
      * intro Heq. apply Z.eqb_eq in Heq. subst m.
        split; [discriminate|]. intros s' Hs' Hk'.
        specialize (Hmax s' Hs' Hk'). lia.
      * intros [_ Hall]. apply Z.eqb_eq.
        specialize (Hmax s Hs Hk). specialize (Hall s0 Hs0 Hk0). lia.
    + split; [discriminate|]. intros [_ Hall]. exfalso.
      assert (Hsome : latest_collected_at db k = Some (collected_at s)).
      { apply latest_collected_at_spec. split.
        - exists s. tauto.
        - intros s' Hs' Hk'. apply Hall; assumption. }
      congruence.
  - split; [discriminate|]. intros [Habs _]. contradiction.
Qed.





(** The (opening, statistic) pair an answer shows. *)
Definition shown_pair (e : TierListResponse) : Opening * OpeningStatistic :=
  (tl_opening e, tl_statistics e).

End TierList.

Section TierListAsSpecified.
Import Models Orm Api.



(** A statistic of opening 1 in a rating range, collected at [t]. *)
Definition statistic_in (key : Z) (range : string) (t : Z) : OpeningStatistic :=
  {| st_id := Some key; opening_id := Some 1;
     white_wins := 120; black_wins := 60; draws := 20; total_games := 200;
     win_rate_white := 6 # 10; win_rate_black := 3 # 10; draw_rate := 1 # 10;
     performance_score := 54;
     rating_range := Some range; time_control := Some "blitz";
     date_range_start := None; date_range_end := None;
     average_rating := None; average_game_length := None;
     frequency_rank := None; collected_at := t; data_source := "lichess" |}.

(** One active opening with an older row for 1800-2000 and a newer row for
    2000-2200. *)
Definition two_ranges : Db :=
  {| openings := [with_pk 1 (sample_opening "Sicilian Defense")];
     statistics := [statistic_in 1 "1800-2000" 10; statistic_in 2 "2000-2200" 20];
     update_logs := [];
     tier_list_entries := [] |}.


(** With the default context ("all", "all") no filter applies and the same
    database answers with the newest row. *)
Example get_tier_list_default_context :
  map (fun e => (id (tl_opening e), st_id (tl_statistics e), tl_tier_rank e))
      (get_tier_list two_ranges (Some "all") (Some "all") (Some "default"))
  = [(Some 1, Some 2, None)].
Proof. vm_compute. reflexivity. Qed.
End TierListAsSpecified.

(** ** Sort and metric names: [get_openings], [get_top_performers] *)

Section SortFields.
Import Models Orm Api.

(** The name is an attribute of the class [OpeningStatistic]: a column,
    something else its body declares, or something it inherits. *)
Definition names_attribute (L : Library) (name : string) : bool :=
  match column_of_name name with
  | Some _ => true
  | None => existsb (String.eqb name) declared_non_columns || inherited L name
  end.

(** The name is one of the [Integer] and [Float] columns. *)
Definition numeric_field (name : string) : bool :=
  match column_of_name name with
  | Some c => numeric c
  | None => false
  end.

Lemma class_getattr_default (L : Library) (name : string) (default : attribute) :
  names_attribute L name = false -> class_getattr L name default = default.
Proof.
  unfold names_attribute, class_getattr.
  destruct (column_of_name name); [discriminate|].
  intros ->. reflexivity.
Qed.

Lemma class_getattr_performance_score (L : Library) (default : attribute) :
  class_getattr L "performance_score" default = Column Cperformance_score.
Proof. reflexivity. Qed.

(** C8, as the code has it.  A name that is no attribute of the class at all
    makes [getattr] return its default: [get_openings] raises nothing and
    answers exactly as for "performance_score", and the query of
    [get_top_performers] selects and orders the same rows as for
    "performance_score". *)
Theorem unknown_sort_field_falls_back (L : Library) (name : string) :
  names_attribute L name = false ->
  (forall db rating_range time_control min_games order limit_,
      get_openings L db rating_range time_control min_games name order limit_
      = get_openings L db rating_range time_control min_games
                     "performance_score" order limit_
      /\ exists rows,
          get_openings L db rating_range time_control min_games name order limit_
          = Body rows)
  /\ (forall db limit_,
         top_performers_query L db limit_ name
         = top_performers_query L db limit_ "performance_score"
         /\ exists rows, top_performers_query L db limit_ name = Some rows).
Proof.
  intro Hname. split.
  - intros db rating_range time_control min_games order limit_.
    unfold get_openings.
    rewrite (class_getattr_default L name _ Hname), class_getattr_performance_score.
    split; [reflexivity|].
    simpl. eexists. reflexivity.
  - intros db limit_. unfold top_performers_query.
    rewrite (class_getattr_default L name _ Hname), class_getattr_performance_score.
    split; [reflexivity|].
    simpl. eexists. reflexivity.
Qed.

(** A library in which the class inherits nothing the examples name. *)
Definition bare_library : Library :=
  {| inherited := fun _ => false;
     instance_only := fun _ => false;
     order_by_attribute := fun _ _ _ _ => None |}.

Lemma unknown_sort_field_falls_back_witness :
  names_attribute bare_library "popularity" = false
  /\ (forall db rating_range time_control min_games order limit_,
         get_openings bare_library db rating_range time_control min_games
                      "popularity" order limit_
         = get_openings bare_library db rating_range time_control min_games
                        "performance_score" order limit_
         /\ exists rows,
             get_openings bare_library db rating_range time_control min_games
                          "popularity" order limit_
             = Body rows)
  /\ (forall db limit_,
         top_performers_query bare_library db limit_ "popularity"
         = top_performers_query bare_library db limit_ "performance_score"
         /\ exists rows,
             top_performers_query bare_library db limit_ "popularity" = Some rows).
Proof.
  split; [reflexivity|].
  apply (unknown_sort_field_falls_back bare_library "popularity").
  reflexivity.
Defined.

(** The claim as the specification words it, for one library. *)
Definition fallback_as_specified (L : Library) : Prop :=
  forall name,
    numeric_field name = false ->
    (forall db rating_range time_control min_games order limit_,
        get_openings L db rating_range time_control min_games name order limit_
        = get_openings L db rating_range time_control min_games
                       "performance_score" order limit_)
    /\ (forall db limit_,
           get_top_performers L db limit_ name
           = get_top_performers L db limit_ "performance_score").

(** Two openings; the one with the lower score is in the higher range. *)
Definition scored (key opening : Z) (range : string) (score : Q) : OpeningStatistic :=
  {| st_id := Some key; opening_id := Some opening;
     white_wins := 120; black_wins := 60; draws := 20; total_games := 200;
     win_rate_white := 6 # 10; win_rate_black := 3 # 10; draw_rate := 1 # 10;
     performance_score := score;
     rating_range := Some range; time_control := Some "blitz";
     date_range_start := None; date_range_end := None;
     average_rating := None; average_game_length := None;
     frequency_rank := None; collected_at := 10; data_source := "lichess" |}.

Definition two_openings : Db :=
  {| openings := [with_pk 1 (sample_opening "Sicilian Defense");
                  with_pk 2 (sample_opening "French Defense")];
     statistics := [scored 1 1 "2000-2200" 50; scored 2 2 "1800-2000" 60];
     update_logs := [];
     tier_list_entries := [] |}.

(** C8 as stated fails.  "rating_range" names no numeric field, and it is
    a column: [getattr] finds it and the rows come back in the order of the
    ranges, not of the scores, whatever the library.  And a metric that
    names nothing at all makes [get_top_performers] raise AttributeError at
    [getattr(statistic, metric)], which has no default, once a row
    qualifies. *)
Lemma fallback_not_for_every_name :
  numeric_field "rating_range" = false
  /\ (forall L,
         get_openings L two_openings None None 100 "rating_range" "desc" 50
         = Body [with_pk 1 (sample_opening "Sicilian Defense");
                 with_pk 2 (sample_opening "French Defense")]
         /\ get_openings L two_openings None None 100 "performance_score" "desc" 50
            = Body [with_pk 2 (sample_opening "French Defense");
                    with_pk 1 (sample_opening "Sicilian Defense")])
  /\ (forall L, inherited L "popularity" = false ->
                instance_only L "popularity" = false ->
                numeric_field "popularity" = false
                /\ get_top_performers L two_openings 10 "popularity"
                   = Unhandled "AttributeError")
  /\ ~ (exists L, fallback_as_specified L).
Proof.
  assert (Horder : forall L,
             get_openings L two_openings None None 100 "rating_range" "desc" 50
             = Body [with_pk 1 (sample_opening "Sicilian Defense");
                     with_pk 2 (sample_opening "French Defense")]
             /\ get_openings L two_openings None None 100 "performance_score" "desc" 50
                = Body [with_pk 2 (sample_opening "French Defense");
                        with_pk 1 (sample_opening "Sicilian Defense")]).
  { intro L. split; vm_compute; reflexivity. }
  split; [reflexivity|]. split; [exact Horder|]. split.
  - intros L Hinherited Honly. split; [reflexivity|].
    unfold get_top_performers, top_performers_query.
    rewrite class_getattr_default.
    2:{ unfold names_attribute. simpl. exact Hinherited. }
    simpl.
    unfold instance_getattr. simpl. rewrite Hinherited, Honly. reflexivity.
  - intros [L Hspec].
    destruct (Hspec "rating_range" eq_refl) as [Hopenings _].
    specialize (Hopenings two_openings None None 100 "desc" 50).
    destruct (Horder L) as [Hr Hp]. rewrite Hr, Hp in Hopenings.
    discriminate.
Qed.
End SortFields.

(* ===================================================================== *)
(** * Further properties of the discovery engine *)
(* ===================================================================== *)

Section DiscoveryBudget.
Import Collector.
Context {F : Type} `{PyFloat F}.
Variable P : Provider.
Variable max_openings : Z.

Lemma slice_to_short (A : Type) (n : Z) (l : list A) :
  0 <= n -> (List.length (Py.slice_to n l) <= Z.to_nat n)%nat.
Proof.
  intro Hn. unfold Py.slice_to.
  destruct (Z.ltb_spec n 0) as [Hneg|_]; [lia|].
  rewrite length_firstn. lia.
Qed.

(** The inner loop makes one request per continuation it looks at. *)
Lemma explore_continuations_calls (first : string) (conts : list MoveStat) :
  forall (discovered result : list OpeningData) (n n' : nat),
    explore_continuations P max_openings first conts discovered n = (result, n') ->
    (n <= n' <= n + List.length conts)%nat.
Proof.
  induction conts as [|continuation rest IH]; intros discovered result n n' Hrun;
    simpl in Hrun.
  - inversion Hrun. simpl. lia.
  - unfold bind at 1 in Hrun. unfold get_opening_continuations at 1 in Hrun.
    simpl List.length.
    destruct (respond P n _) as [stats|].
    + cbn [c_total_games] in Hrun.
      destruct (stats_white stats + stats_black stats + stats_draws stats <? 100).
      * apply IH in Hrun. lia.
      * unfold bind, clock in Hrun.
        match type of Hrun with
        | context [if ?c then _ else _] => destruct c
        end.
        -- inversion Hrun. lia.
        -- apply IH in Hrun. lia.
    + apply IH in Hrun. lia.
Qed.

(** The outer loop: one request for the first move, then at most five. *)
Lemma explore_first_moves_calls (firsts : list FirstMove) :
  forall (discovered result : list OpeningData) (n n' : nat),
    explore_first_moves P max_openings firsts discovered n = (result, n') ->
    (n <= n' <= n + 6 * List.length firsts)%nat.
Proof.
  induction firsts as [|first_move rest IH]; intros discovered result n n' Hrun;
    simpl in Hrun.
  - inversion Hrun. simpl. lia.
  - unfold bind at 1 in Hrun. unfold get_opening_continuations at 1 in Hrun.
    simpl List.length.
    destruct (respond P n _) as [stats|].
    + unfold bind at 1 in Hrun. cbn [continuations] in Hrun.
      pose proof (@slice_to_short _ 5 (moves stats) ltac:(lia)) as Hfive.
      destruct (explore_continuations P max_openings (move first_move)
                  (Py.slice_to 5 (moves stats)) discovered (S n))
        as [discovered' n1] eqn:Hinner.
      apply explore_continuations_calls in Hinner.
      destruct (Py.len discovered' >=? max_openings).
      * inversion Hrun. lia.
      * apply IH in Hrun. lia.
    + apply IH in Hrun. lia.
Qed.

(** X1.  Whatever the provider answers and whatever count is asked for, one
    run of [discover_openings_tree] makes at least one and at most 49
    requests: one for the first moves, one for each of at most 8 first
    moves, and one for each of at most 5 continuations of each. *)
Theorem discovery_request_budget (n : nat) :
  (n + 1 <= snd (discover_openings_tree P max_openings n) <= n + 49)%nat.
Proof.
  unfold discover_openings_tree, bind.
  destruct (get_popular_openings P 8 n) as [first_moves n1] eqn:Hfirst.
  assert (Hn1 : n1 = S n).
  { unfold get_popular_openings in Hfirst.
    destruct (respond P n _); inversion Hfirst; reflexivity. }
  pose proof (@slice_to_short _ 8 first_moves ltac:(lia)) as Height.
  destruct (explore_first_moves P max_openings (Py.slice_to 8 first_moves) [] n1)
    as [discovered n2] eqn:Hrun.
  apply explore_first_moves_calls in Hrun.
  simpl in *. lia.
Qed.
End DiscoveryBudget.

Section DiscoveryPrefix.
Import Collector.
Context {F : Type} `{PyFloat F}.
Variable P : Provider.

(** The loops only append to the lines discovered so far. *)
Lemma explore_continuations_extends (N : Z) (first : string) (conts : list MoveStat) :
  forall (discovered result : list OpeningData) (n n' : nat),
    explore_continuations P N first conts discovered n = (result, n') ->
    exists more, result = discovered ++ more.
Proof.
  induction conts as [|continuation rest IH]; intros discovered result n n' Hrun;
    simpl in Hrun.
  - inversion Hrun. exists []. rewrite app_nil_r. reflexivity.
  - unfold bind at 1 in Hrun.
    destruct (get_opening_continuations P [first; san continuation] n)
      as [[st|] n1].
    + destruct (c_total_games st <? 100).
      * apply IH in Hrun. exact Hrun.
      * unfold bind, clock in Hrun.
        match type of Hrun with
        | context [if ?c then _ else _] => destruct c
        end.
        -- inversion Hrun. eexists. reflexivity.
        -- apply IH in Hrun. destruct Hrun as (more & ->).
           rewrite <- app_assoc. eexists. reflexivity.
    + apply IH in Hrun. exact Hrun.
Qed.

Lemma explore_first_moves_extends (N : Z) (firsts : list FirstMove) :
  forall (discovered result : list OpeningData) (n n' : nat),
    explore_first_moves P N firsts discovered n = (result, n') ->
    exists more, result = discovered ++ more.
Proof.
  induction firsts as [|first_move rest IH]; intros discovered result n n' Hrun;
    simpl in Hrun.
  - inversion Hrun. exists []. rewrite app_nil_r. reflexivity.
  - unfold bind at 1 in Hrun.
    destruct (get_opening_continuations P [move first_move] n) as [[st|] n1].
    + unfold bind at 1 in Hrun.
      destruct (explore_continuations P N (move first_move)
                  (Py.slice_to 5 (continuations st)) discovered n1)
        as [discovered' n2] eqn:Hinner.
      apply explore_continuations_extends in Hinner. destruct Hinner as (more & ->).
      destruct (Py.len (discovered ++ more) >=? N).
      * inversion Hrun. exists more. reflexivity.
      * apply IH in Hrun. destruct Hrun as (more' & ->).
        rewrite <- app_assoc. eexists. reflexivity.
    + apply IH in Hrun. exact Hrun.
Qed.

Lemma len_app_one (A : Type) (l : list A) (x : A) : Py.len (l ++ [x]) = Py.len l + 1.
Proof. unfold Py.len. rewrite length_app. simpl. lia. Qed.

(** Started below the count, the loops stop at the count. *)
Lemma explore_continuations_stops (N : Z) (first : string) (conts : list MoveStat) :
  forall (discovered result : list OpeningData) (n n' : nat),
    Py.len discovered < N ->
    explore_continuations P N first conts discovered n = (result, n') ->
    Py.len result <= N.
Proof.
  induction conts as [|continuation rest IH]; intros discovered result n n' Hlen Hrun;
    simpl in Hrun.
  - inversion Hrun; subst. lia.
  - unfold bind at 1 in Hrun.
    destruct (get_opening_continuations P [first; san continuation] n)
      as [[st|] n1].
    + destruct (c_total_games st <? 100).
      * eapply IH; eassumption.
      * unfold bind, clock in Hrun.
        match type of Hrun with
        | context [if ?a >=? ?b then _ else _] => destruct (Z.geb_spec a b) as [Hge|Hlt]
        end.
        -- inversion Hrun; subst. rewrite len_app_one. lia.
        -- eapply IH; [|eassumption]. exact Hlt.
    + eapply IH; eassumption.
Qed.

Lemma explore_first_moves_stops (N : Z) (firsts : list FirstMove) :
  forall (discovered result : list OpeningData) (n n' : nat),
    Py.len discovered < N ->
    explore_first_moves P N firsts discovered n = (result, n') ->
    Py.len result <= N.
Proof.
  induction firsts as [|first_move rest IH]; intros discovered result n n' Hlen Hrun;
    simpl in Hrun.
  - inversion Hrun; subst. lia.
  - unfold bind at 1 in Hrun.
    destruct (get_opening_continuations P [move first_move] n) as [[st|] n1].
    + unfold bind at 1 in Hrun.
      destruct (explore_continuations P N (move first_move)
                  (Py.slice_to 5 (continuations st)) discovered n1)
        as [discovered' n2] eqn:Hinner.
      apply explore_continuations_stops in Hinner; [|exact Hlen].
      destruct (Z.geb_spec (Py.len discovered') N) as [Hge|Hlt].
      * inversion Hrun; subst. exact Hinner.
      * eapply IH; eassumption.
    + eapply IH; eassumption.
Qed.

Variables N M : Z.
Hypothesis N_le_M : N <= M.

(** Two runs on the same provider, one asked for [N] lines and one for
    [M >= N]: they go the same way until the first has its [N] lines. *)
Lemma explore_continuations_lockstep (first : string) (conts : list MoveStat) :
  forall (discovered rN rM : list OpeningData) (n nN nM : nat),
    Py.len discovered < N ->
    explore_continuations P N first conts discovered n = (rN, nN) ->
    explore_continuations P M first conts discovered n = (rM, nM) ->
    (rN = rM /\ nN = nM /\ Py.len rN < N)
    \/ (N <= Py.len rN /\ exists more, rM = rN ++ more).
Proof.
  induction conts as [|continuation rest IH];
    intros discovered rN rM n nN nM Hlen HN HM; simpl in HN, HM.
  - inversion HN; inversion HM; subst. left. tauto.
  - unfold bind at 1 in HN. unfold bind at 1 in HM.
    destruct (get_opening_continuations P [first; san continuation] n)
      as [[st|] n1].
    + destruct (c_total_games st <? 100).
      * eapply IH; eassumption.
      * unfold bind, clock in HN, HM.
        set (found := discovered ++ [opening_data_of [first; san continuation] st
                                                     (utcnow P n1)]) in *.
        destruct (Z.geb_spec (Py.len found) N) as [HgeN|HltN].
        -- inversion HN; subst rN nN. right. split; [exact HgeN|].
           destruct (Py.len found >=? M).
           ++ inversion HM. exists []. rewrite app_nil_r. reflexivity.
           ++ apply explore_continuations_extends in HM. exact HM.
        -- destruct (Z.geb_spec (Py.len found) M) as [HgeM|HltM]; [lia|].
           eapply IH; eassumption.
    + eapply IH; eassumption.
Qed.

Lemma explore_first_moves_lockstep (firsts : list FirstMove) :
  forall (discovered rN rM : list OpeningData) (n nN nM : nat),
    Py.len discovered < N ->
    explore_first_moves P N firsts discovered n = (rN, nN) ->
    explore_first_moves P M firsts discovered n = (rM, nM) ->
    exists more, rM = rN ++ more.
Proof.
  induction firsts as [|first_move rest IH];
    intros discovered rN rM n nN nM Hlen HN HM; simpl in HN, HM.
  - inversion HN; inversion HM; subst. exists []. rewrite app_nil_r. reflexivity.
  - unfold bind at 1 in HN. unfold bind at 1 in HM.
    destruct (get_opening_continuations P [move first_move] n) as [[st|] n1].
    + unfold bind at 1 in HN. unfold bind at 1 in HM.
      destruct (explore_continuations P N (move first_move)
                  (Py.slice_to 5 (continuations st)) discovered n1)
        as [dN n2] eqn:HinnerN.
      destruct (explore_continuations P M (move first_move)
                  (Py.slice_to 5 (continuations st)) discovered n1)
        as [dM n3] eqn:HinnerM.
      destruct (explore_continuations_lockstep _ _ _ _ Hlen HinnerN HinnerM)
        as [(Hsame & Hcalls & Hshort)|(Hfull & more & Hmore)].
      * subst dM n3.
        destruct (Z.geb_spec (Py.len dN) N) as [HgeN|HltN]; [lia|].
        destruct (Z.geb_spec (Py.len dN) M) as [HgeM|HltM]; [lia|].
        eapply IH; eassumption.
      * destruct (Z.geb_spec (Py.len dN) N) as [HgeN|HltN]; [|lia].
        inversion HN; subst rN nN.
        destruct (Py.len dM >=? M).
        -- inversion HM; subst. exists more. reflexivity.
        -- apply explore_first_moves_extends in HM. destruct HM as (more' & ->).
           subst dM. rewrite <- app_assoc. eexists. reflexivity.
    + eapply IH; eassumption.
Qed.

(** X2.  Asking for more lines never loses one: on the same provider, every
    line returned for a count [N >= 1] is also returned for any greater
    count [M]. *)
Theorem discovery_monotone (n : nat) :
  1 <= N ->
  incl (fst (discover_openings_tree P N n)) (fst (discover_openings_tree P M n)).
Proof.
  intros Hpositive line Hline.
  unfold discover_openings_tree, bind in *.
  destruct (get_popular_openings P 8 n) as [first_moves n1].
  destruct (explore_first_moves P N (Py.slice_to 8 first_moves) [] n1)
    as [dN nN] eqn:HN.
  destruct (explore_first_moves P M (Py.slice_to 8 first_moves) [] n1)
    as [dM nM] eqn:HM.
  simpl in *.
  assert (Hempty : Py.len (@nil (OpeningData (F := F))) < N) by (unfold Py.len; simpl; lia).
  destruct (explore_first_moves_lockstep _ _ _ Hempty HN HM) as (more & Hmore).
  assert (HinN : In line dN).
  { unfold Py.slice_to in Hline.
    destruct (N <? 0); apply firstn_In in Hline;
      unfold sort_discovered in Hline; apply sort_In in Hline; exact Hline. }
  assert (HemptyM : Py.len (@nil (OpeningData (F := F))) < M) by (unfold Py.len; simpl; lia).
  pose proof (explore_first_moves_stops _ _ _ HemptyM HM) as HstopM.
  unfold Py.slice_to.
  destruct (Z.ltb_spec M 0) as [Hneg|_]; [lia|].
  rewrite firstn_all2.
  - unfold sort_discovered. apply sort_In. subst dM.
    apply in_or_app. left. exact HinN.
  - unfold sort_discovered. rewrite sort_length. unfold Py.len in HstopM. lia.
Qed.
End DiscoveryPrefix.

Lemma discovery_monotone_witness :
  1 <= 2 /\ 1 <= 1
  /\ incl (fst (Collector.discover_openings_tree (F := Q) sample_provider 1 0%nat))
          (fst (Collector.discover_openings_tree (F := Q) sample_provider 2 0%nat)).
Proof.
  split; [lia|]. split; [lia|].
  apply (discovery_monotone (F := Q) sample_provider (N := 1) (M := 2)); lia.
Defined.

Section DiscoveryInvariant.
Import Collector.
Context {F : Type} `{PyFloat F}.
Variable P : Provider.
Variable max_openings : Z.
Variable Good : OpeningData (F := F) -> Prop.

(** What holds of every line made from an answer of the provider that
    passed the floor holds of every line the loops collect. *)
Hypothesis made_good :
  forall (mvs : list string) (st : Continuation) (n n' : nat) (now : Z),
    get_opening_continuations P mvs n = (Some st, n') ->
    100 <= c_total_games st ->
    Good (opening_data_of mvs st now).

Lemma explore_continuations_invariant (first : string) (conts : list MoveStat) :
  forall (discovered result : list OpeningData) (n n' : nat),
    Forall Good discovered ->
    explore_continuations P max_openings first conts discovered n = (result, n') ->
    Forall Good result.
Proof.
  induction conts as [|continuation rest IH]; intros discovered result n n' Hd Hrun;
    simpl in Hrun.
  - inversion Hrun; subst. exact Hd.
  - unfold bind at 1 in Hrun.
    destruct (get_opening_continuations P [first; san continuation] n)
      as [[st|] n1] eqn:Hcall.
    + destruct (Z.ltb_spec (c_total_games st) 100) as [Hlow|Hok].
      * eapply IH; eassumption.
      * unfold bind, clock in Hrun.
        assert (Hd' : Forall Good
                        (discovered ++ [opening_data_of [first; san continuation] st
                                                        (utcnow P n1)])).
        { apply Forall_app. split; [exact Hd|].
          constructor; [|constructor].
          eapply made_good; eassumption. }
        match type of Hrun with
        | context [if ?c then _ else _] => destruct c
        end.
        -- inversion Hrun; subst. exact Hd'.
        -- eapply IH; eassumption.
    + eapply IH; eassumption.
Qed.

Lemma explore_first_moves_invariant (firsts : list FirstMove) :
  forall (discovered result : list OpeningData) (n n' : nat),
    Forall Good discovered ->
    explore_first_moves P max_openings firsts discovered n = (result, n') ->
    Forall Good result.
Proof.
  induction firsts as [|first_move rest IH]; intros discovered result n n' Hd Hrun;
    simpl in Hrun.
  - inversion Hrun; subst. exact Hd.
  - unfold bind at 1 in Hrun.
    destruct (get_opening_continuations P [move first_move] n) as [[st|] n1].
    + unfold bind at 1 in Hrun.
      destruct (explore_continuations P max_openings (move first_move)
                  (Py.slice_to 5 (continuations st)) discovered n1)
        as [discovered' n2] eqn:Hinner.
      apply (explore_continuations_invariant _ _ _ Hd) in Hinner.
      destruct (Py.len discovered' >=? max_openings).
      * inversion Hrun; subst. exact Hinner.
      * eapply IH; eassumption.
    + eapply IH; eassumption.
Qed.

Lemma discovery_invariant (n : nat) :
  Forall Good (fst (discover_openings_tree P max_openings n)).
Proof.
  unfold discover_openings_tree, bind.
  destruct (get_popular_openings P 8 n) as [first_moves n1].
  destruct (explore_first_moves P max_openings (Py.slice_to 8 first_moves) [] n1)
    as [discovered n2] eqn:Hrun.
  apply (explore_first_moves_invariant _ _ (Forall_nil Good)) in Hrun.
  simpl. apply slice_to_Forall. unfold sort_discovered. apply sort_Forall. exact Hrun.
Qed.
End DiscoveryInvariant.

Lemma sorted_weaken (A : Type) (R S : A -> A -> Prop) (l : list A) :
  (forall x y, R x y -> S x y) -> Sorted R l -> Sorted S l.
Proof.
  intros Hweak Hl. induction Hl as [|x r Hr IH Hhd]; constructor.
  - exact IH.
  - destruct Hhd; constructor. apply Hweak. assumption.
Qed.

Section FloatOrder.

(** Comparing two floats the other way round gives the opposite answer. *)
Lemma SFcompare_swap (x y : spec_float) :
  SFcompare y x = option_map CompOpp (SFcompare x y).
Proof.
  destruct x as [sx|sx| |sx mx ex], y as [sy|sy| |sy my ey]; simpl;
    try reflexivity;
    try (destruct sx; reflexivity); try (destruct sy; reflexivity);
    try (destruct sx, sy; reflexivity).
  destruct sx, sy; simpl; try reflexivity.
  - rewrite (Z.compare_antisym ey ex).
    destruct (ey ?= ex) eqn:Hc; simpl; try reflexivity.
    rewrite (Pos.compare_cont_antisym mx my Eq). reflexivity.
  - rewrite (Z.compare_antisym ey ex).
    destruct (ey ?= ex) eqn:Hc; simpl; try reflexivity.
    rewrite (Pos.compare_cont_antisym mx my Eq). reflexivity.
Qed.

Lemma float_eqb_sym (x y : float) : PrimFloat.eqb y x = PrimFloat.eqb x y.
Proof.
  rewrite !FloatAxioms.eqb_spec. unfold SFeqb.
  rewrite (SFcompare_swap (Prim2SF x) (Prim2SF y)).
  destruct (SFcompare (Prim2SF x) (Prim2SF y)) as [[| |]|]; reflexivity.
Qed.

Lemma float_ltb_asym (x y : float) :
  PrimFloat.ltb x y = true -> PrimFloat.ltb y x = false /\ PrimFloat.eqb x y = false.
Proof.
  rewrite !FloatAxioms.ltb_spec, FloatAxioms.eqb_spec. unfold SFltb, SFeqb.
  rewrite (SFcompare_swap (Prim2SF x) (Prim2SF y)).
  destruct (SFcompare (Prim2SF x) (Prim2SF y)) as [[| |]|]; simpl;
    try discriminate. intros _. split; reflexivity.
Qed.

Lemma float_eqb_not_ltb (x y : float) :
  PrimFloat.eqb x y = true -> PrimFloat.ltb x y = false.
Proof.
  rewrite FloatAxioms.ltb_spec, FloatAxioms.eqb_spec. unfold SFltb, SFeqb.
  destruct (SFcompare (Prim2SF x) (Prim2SF y)) as [[| |]|]; simpl;
    try discriminate. reflexivity.
Qed.
End FloatOrder.

Section DiscoveryExact.
Import Collector.

(** The order of the result: a line stands in front of another when its
    score is greater, or the scores are equal and it has at least as many
    games. *)
Definition ranks_before (a b : OpeningData (F := Q)) : Prop :=
  (od_performance_score b < od_performance_score a)%Q
  \/ ((od_performance_score a == od_performance_score b)%Q
      /\ total_games b <= total_games a).

Lemma key_lt_asym (x y : OpeningData (F := Q)) :
  key_lt x y = true -> key_lt y x = false.
Proof.
  unfold key_lt. simpl.
  destruct (Qeq_bool (od_performance_score x) (od_performance_score y)) eqn:Hxy.
  - apply Qeq_bool_iff in Hxy.
    assert (Hyx : Qeq_bool (od_performance_score y) (od_performance_score x) = true).
    { apply Qeq_bool_iff. symmetry. exact Hxy. }
    rewrite Hyx. intro Hlt. apply Z.ltb_lt in Hlt. apply Z.ltb_ge. lia.
  - assert (Hyx : Qeq_bool (od_performance_score y) (od_performance_score x) = false).
    { destruct (Qeq_bool (od_performance_score y) (od_performance_score x)) eqn:Hyx;
        [|reflexivity].
      apply Qeq_bool_iff in Hyx. symmetry in Hyx. apply Qeq_bool_iff in Hyx.
      congruence. }
    rewrite Hyx. intro Hlt.
    apply negb_true_iff in Hlt. apply negb_false_iff. apply Qle_bool_iff.
    destruct (Qlt_le_dec (od_performance_score x) (od_performance_score y))
      as [Hless|Hge].
    + apply Qlt_le_weak, Hless.
    + apply Qle_bool_iff in Hge. congruence.
Qed.

Lemma key_lt_false (a b : OpeningData (F := Q)) :
  key_lt a b = false -> ranks_before a b.
Proof.
  unfold key_lt, ranks_before. simpl.
  destruct (Qeq_bool (od_performance_score a) (od_performance_score b)) eqn:Hab.
  - apply Qeq_bool_iff in Hab. intro Hlt. apply Z.ltb_ge in Hlt. right. tauto.
  - intro Hle. apply negb_false_iff, Qle_bool_iff in Hle.
    left. apply Qle_lt_or_eq in Hle. destruct Hle as [Hlt|Heq]; [exact Hlt|].
    exfalso. symmetry in Heq. apply Qeq_bool_iff in Heq. congruence.
Qed.

(** The order of the result in binary64, as Python compares the keys
    [(performance_score, total_games)]: the score of a line is not below
    the score of the line after it, and when the two scores are equal it
    has at least as many games. *)
Definition ranks_before_binary64 (a b : OpeningData (F := float)) : Prop :=
  PrimFloat.ltb (od_performance_score a) (od_performance_score b) = false
  /\ (PrimFloat.eqb (od_performance_score a) (od_performance_score b) = true ->
      total_games b <= total_games a).

Lemma key_lt_asym_binary64 (x y : OpeningData (F := float)) :
  key_lt x y = true -> key_lt y x = false.
Proof.
  unfold key_lt. cbn [feqb fltb binary64].
  rewrite (float_eqb_sym (od_performance_score x) (od_performance_score y)).
  destruct (PrimFloat.eqb (od_performance_score x) (od_performance_score y)) eqn:Heq.
  - intro Hlt. apply Z.ltb_lt in Hlt. apply Z.ltb_ge. lia.
  - intro Hlt. apply float_ltb_asym in Hlt. tauto.
Qed.

Lemma key_lt_false_binary64 (a b : OpeningData (F := float)) :
  key_lt a b = false -> ranks_before_binary64 a b.
Proof.
  unfold key_lt, ranks_before_binary64. cbn [feqb fltb binary64].
  destruct (PrimFloat.eqb (od_performance_score a) (od_performance_score b)) eqn:Heq.
  - intro Hge. apply Z.ltb_ge in Hge. split; [|intros _; exact Hge].
    apply float_eqb_not_ltb, Heq.
  - intro Hlt. split; [exact Hlt|discriminate].
Qed.

Lemma discovery_sorted_by (F : Type) `{PyFloat F}
      (R : OpeningData (F := F) -> OpeningData (F := F) -> Prop) :
  (forall x y : OpeningData (F := F), key_lt x y = true -> key_lt y x = false) ->
  (forall a b : OpeningData (F := F), key_lt a b = false -> R a b) ->
  forall (P : Provider) (max_openings : Z) (n : nat),
    Sorted R (fst (discover_openings_tree (F := F) P max_openings n)).
Proof.
  intros Hasym Hrel P max_openings n.
  unfold discover_openings_tree, bind.
  destruct (get_popular_openings P 8 n) as [first_moves n1].
  destruct (explore_first_moves P max_openings (Py.slice_to 8 first_moves) [] n1)
    as [discovered n2].
  simpl.
  assert (Hsorted : Sorted R (sort_discovered discovered)).
  { unfold sort_discovered.
    apply sorted_weaken with (R := in_order (fun y x => key_lt x y)).
    - intros x y Hxy. apply Hrel. exact Hxy.
    - apply sort_sorted. intros x y Hxy. apply Hasym. exact Hxy. }
  unfold Py.slice_to. destruct (max_openings <? 0); apply firstn_sorted; exact Hsorted.
Qed.

(** X3.  The lines come back in rank order, in binary64 as Python computes
    and compares the keys, and in exact arithmetic: no line has a smaller
    score than the line after it, and of two neighbours with equal scores
    the first has at least as many games.  (The two orders can differ for
    the same counts: a rounded score can exceed an equal exact one.) *)
Theorem discovery_in_rank_order (P : Provider) (max_openings : Z) (n : nat) :
  Sorted ranks_before_binary64
         (fst (discover_openings_tree (F := float) P max_openings n))
  /\ Sorted ranks_before (fst (discover_openings_tree (F := Q) P max_openings n)).
Proof.
  split.
  - apply discovery_sorted_by; [exact key_lt_asym_binary64|exact key_lt_false_binary64].
  - apply discovery_sorted_by; [exact key_lt_asym|exact key_lt_false].
Qed.
End DiscoveryExact.

Section ScoreRange.
Import Collector.

Lemma exact_rate_nonnegative (count total : Z) :
  0 <= count -> (0 <= rate (F := Q) count total)%Q.
Proof.
  intro Hc. unfold rate.
  destruct (Z.gtb_spec total 0) as [Hpos|Hle]; simpl.
  - unfold Qdiv. apply Qmult_le_0_compat.
    + change 0%Q with (inject_Z 0). rewrite <- Zle_Qle. exact Hc.
    + apply Qinv_le_0_compat.
      change 0%Q with (inject_Z 0). rewrite <- Zle_Qle. lia.
  - apply Qle_refl.
Qed.

(** The primary score is 80 times the white rate plus 60 times the draw
    rate: between 0 and 80 for counts that are not negative. *)
Lemma primary_score_range (white black draws : Z) :
  0 <= white -> 0 <= black -> 0 <= draws -> 0 < white + black + draws ->
  let total := white + black + draws in
  (0 <= performance_score (F := Q) (rate white total) (rate black total)
                          (rate draws total) <= 80)%Q.
Proof.
  intros Hw Hb Hd Ht total.
  pose proof (exact_rates_sum white black draws Ht) as Hsum.
  pose proof (exact_rate_nonnegative (count := white) total Hw) as HW.
  pose proof (exact_rate_nonnegative (count := black) total Hb) as HB.
  pose proof (exact_rate_nonnegative (count := draws) total Hd) as HD.
  fold total in Hsum.
  set (W := rate (F := Q) white total) in *.
  set (B := rate (F := Q) black total) in *.
  set (D := rate (F := Q) draws total) in *.
  unfold performance_score. simpl.
  change (inject_Z 1) with 1%Q. change (inject_Z 100) with 100%Q.
  split; lra.
Qed.

(** Every count the provider reports is a count. *)
Definition counts_nonnegative (P : Provider) : Prop :=
  forall n rq stats,
    respond P n rq = Some stats ->
    0 <= stats_white stats /\ 0 <= stats_black stats /\ 0 <= stats_draws stats.

(** X4.  When the provider reports counts that are not negative, every line
    the engine returns has, in exact arithmetic, a performance score between
    0 and 80: the score is 80 times the white rate plus 60 times the draw
    rate, so 100 is never reached. *)
Theorem discovery_scores_in_range (P : Provider) (max_openings : Z) (n : nat) :
  counts_nonnegative P ->
  Forall (fun line => (0 <= od_performance_score line <= 80)%Q)
         (fst (discover_openings_tree (F := Q) P max_openings n)).
Proof.
  intro Hcounts. apply discovery_invariant.
  intros mvs st k k' now Hcall Hfloor.
  unfold get_opening_continuations in Hcall.
  destruct (respond P k _) as [stats|] eqn:Hanswer; [|discriminate].
  destruct (Hcounts _ _ _ Hanswer) as (Hw & Hb & Hd).
  inversion Hcall; subst st. clear Hcall.
  cbn [c_total_games] in Hfloor.
  unfold opening_data_of. cbn [od_performance_score c_total_games c_white_wins
                                c_black_wins c_draws].
  apply primary_score_range; lia.
Qed.
End ScoreRange.

(* ===================================================================== *)
(** ** Binary64 arithmetic on rates

    What follows reads the operations of binary64 off their specification
    ([SpecFloat], to which [FloatAxioms] ties the primitive floats): a
    result of 53 digits is the exact result cut to 53 digits, or that plus
    one unit in the last place.  Exponents stay far from the ends of the
    range, so no result overflows or is subnormal. *)
(* ===================================================================== *)

Section FloatDigits.

Lemma digits2_size (p : positive) : digits2_pos p = Pos.size p.
Proof. induction p; simpl; congruence. Qed.

Lemma digits2_bounds (p : positive) :
  2 ^ (Zpos (digits2_pos p) - 1) <= Zpos p < 2 ^ Zpos (digits2_pos p).
Proof.
  rewrite digits2_size. split.
  - pose proof (Pos.size_le p) as Hle.
    assert (Hpow : 2 ^ Zpos (Pos.size p) <= 2 * Zpos p).
    { rewrite <- Pos2Z.inj_pow. change (2 * Zpos p) with (Zpos p~0). lia. }
    replace (Zpos (Pos.size p)) with (Z.succ (Zpos (Pos.size p) - 1)) in Hpow by lia.
    rewrite Z.pow_succ_r in Hpow by lia. lia.
  - pose proof (Pos.size_gt p) as Hgt. rewrite <- Pos2Z.inj_pow. lia.
Qed.

Lemma digits2_unique (p : positive) (d : Z) :
  2 ^ (d - 1) <= Zpos p < 2 ^ d -> Zpos (digits2_pos p) = d.
Proof.
  intros [Hlow Hhigh].
  pose proof (digits2_bounds p) as [Hl Hh].
  set (k := Zpos (digits2_pos p)) in *.
  assert (Hk : 0 < k) by (unfold k; lia).
  destruct (Z.lt_trichotomy k d) as [Hlt|[Heq|Hgt]]; [|exact Heq|].
  - assert (2 ^ k <= 2 ^ (d - 1)) by (apply Z.pow_le_mono_r; lia). lia.
  - assert (0 <= d).
    { destruct (Z.le_gt_cases 0 d) as [Hd|Hd]; [exact Hd|].
      rewrite (Z.pow_neg_r 2 d) in Hhigh by lia. lia. }
    assert (2 ^ d <= 2 ^ (k - 1)) by (apply Z.pow_le_mono_r; lia). lia.
Qed.
End FloatDigits.

Section FloatShifts.

Lemma shr_1_m (mrs : shr_record) :
  0 <= shr_m mrs -> shr_m (shr_1 mrs) = shr_m mrs / 2.
Proof.
  destruct mrs as [m r s]. simpl. intro Hm.
  destruct m as [|[p|p|]|p]; try lia; simpl; rewrite <- Z.div2_div; reflexivity.
Qed.

Lemma pow2_xO (p : positive) : 2 ^ Zpos p~0 = 2 ^ Zpos p * 2 ^ Zpos p.
Proof.
  replace (Zpos p~0) with (Zpos p + Zpos p) by lia.
  apply Z.pow_add_r; lia.
Qed.

Lemma pow2_xI (p : positive) : 2 ^ Zpos p~1 = 2 * (2 ^ Zpos p * 2 ^ Zpos p).
Proof.
  replace (Zpos p~1) with (1 + (Zpos p + Zpos p)) by lia.
  rewrite Z.pow_add_r by lia. rewrite Z.pow_add_r by lia. reflexivity.
Qed.

Lemma iter_shr_m (p : positive) :
  forall mrs : shr_record,
    0 <= shr_m mrs ->
    shr_m (iter_pos shr_1 p mrs) = shr_m mrs / 2 ^ Zpos p.
Proof.
  induction p as [p IH|p IH|]; intros mrs Hm; simpl iter_pos.
  - assert (H1 : 0 <= shr_m (shr_1 mrs)).
    { rewrite shr_1_m by exact Hm. apply Z.div_pos; lia. }
    assert (H2 : 0 <= shr_m (iter_pos shr_1 p (shr_1 mrs))).
    { rewrite IH by exact H1. apply Z.div_pos; [exact H1|]. apply Z.pow_pos_nonneg; lia. }
    rewrite IH by exact H2. rewrite IH by exact H1. rewrite shr_1_m by exact Hm.
    assert (Hp : 0 < 2 ^ Zpos p) by (apply Z.pow_pos_nonneg; lia).
    rewrite !Z.div_div by lia.
    rewrite pow2_xI. f_equal; ring.
  - assert (H1 : 0 <= shr_m (iter_pos shr_1 p mrs)).
    { rewrite IH by exact Hm. apply Z.div_pos; [exact Hm|]. apply Z.pow_pos_nonneg; lia. }
    rewrite IH by exact H1. rewrite IH by exact Hm.
    assert (Hp : 0 < 2 ^ Zpos p) by (apply Z.pow_pos_nonneg; lia).
    rewrite !Z.div_div by lia.
    rewrite pow2_xO. reflexivity.
  - rewrite shr_1_m by exact Hm. reflexivity.
Qed.

Lemma loc_of_shr_record_of_loc (m : Z) (l : location) :
  loc_of_shr_record (shr_record_of_loc m l) = l.
Proof. destruct l as [|[| |]]; reflexivity. Qed.

Lemma shr_m_of_loc (m : Z) (l : location) : shr_m (shr_record_of_loc m l) = m.
Proof. destruct l as [|[| |]]; reflexivity. Qed.

Lemma round_nearest_even_bounds (m : Z) (l : location) :
  m <= round_nearest_even m l <= m + 1.
Proof.
  destruct l as [|[| |]]; simpl; try lia.
  destruct (Z.even m); lia.
Qed.

(** Shifting to the canonical exponent divides the mantissa. *)
Lemma shr_fexp_normal (M E : Z) (l : location) :
  0 < M -> 53 <= Zdigits2 M -> -1000 <= E -> Zdigits2 M + E <= 1000 ->
  let n := Zdigits2 M - 53 in
  shr_m (fst (shr_fexp prec emax M E l)) = M / 2 ^ n
  /\ snd (shr_fexp prec emax M E l) = E + n.
Proof.
  intros HM Hd HE Hhigh n.
  unfold shr_fexp.
  assert (Hfexp : fexp prec emax (Zdigits2 M + E) - E = n).
  { unfold fexp, SpecFloat.emin, prec, emax, n. lia. }
  rewrite Hfexp. unfold shr.
  destruct n as [|p|p] eqn:Hn.
  - simpl. rewrite shr_m_of_loc, Z.div_1_r. split; [reflexivity|lia].
  - cbn [fst snd]. split; [|reflexivity].
    rewrite iter_shr_m; rewrite shr_m_of_loc; [reflexivity|lia].
  - lia.
Qed.
End FloatShifts.

Section FloatRounding.

Lemma digits_at_least (M : Z) : 2 ^ 52 <= M -> 53 <= Zdigits2 M.
Proof.
  intro HM. destruct M as [|p|p]; try (simpl in HM; lia).
  simpl Zdigits2. pose proof (digits2_bounds p) as [_ Hhigh].
  destruct (Z.le_gt_cases 53 (Zpos (digits2_pos p))) as [Hd|Hd]; [exact Hd|].
  assert (2 ^ Zpos (digits2_pos p) <= 2 ^ 52) by (apply Z.pow_le_mono_r; lia).
  lia.
Qed.

Lemma quotient_normal (M : Z) :
  2 ^ 52 <= M ->
  2 ^ 52 <= M / 2 ^ (Zdigits2 M - 53) < 2 ^ 53.
Proof.
  intro HM. pose proof (digits_at_least HM) as Hd.
  destruct M as [|p|p]; try (simpl in HM; lia).
  simpl Zdigits2 in *. pose proof (digits2_bounds p) as [Hlow Hhigh].
  set (D := Zpos (digits2_pos p)) in *.
  assert (Hn : 0 < 2 ^ (D - 53)) by (apply Z.pow_pos_nonneg; lia).
  assert (H1 : 2 ^ (D - 1) = 2 ^ 52 * 2 ^ (D - 53)).
  { rewrite <- Z.pow_add_r by lia. f_equal. lia. }
  assert (H2 : 2 ^ D = 2 ^ 53 * 2 ^ (D - 53)).
  { rewrite <- Z.pow_add_r by lia. f_equal. lia. }
  split.
  - apply Z.div_le_lower_bound; [exact Hn|]. lia.
  - apply Z.div_lt_upper_bound; [exact Hn|]. lia.
Qed.

Lemma digits_normal (m : Z) : 2 ^ 52 <= m < 2 ^ 53 -> Zdigits2 m = 53.
Proof.
  intro Hm. destruct m as [|p|p]; try (simpl in Hm; lia).
  simpl. apply digits2_unique. exact Hm.
Qed.

(** Rounding a mantissa of at least 53 digits, away from the ends of the
    exponent range: the result is the mantissa cut to 53 digits, or that
    plus one. *)
Lemma round_aux_normal (M E : Z) (l : location) :
  2 ^ 52 <= M -> -1000 <= E -> Zdigits2 M + E <= 999 ->
  let n := Zdigits2 M - 53 in
  let q := M / 2 ^ n in
  exists (m : positive) (e : Z),
    binary_round_aux prec emax false M E l = S754_finite false m e
    /\ 2 ^ 52 <= Zpos m < 2 ^ 53
    /\ ((e = E + n /\ (Zpos m = q \/ Zpos m = q + 1))
        \/ (e = E + n + 1 /\ Zpos m = 2 ^ 52 /\ q + 1 = 2 ^ 53)).
Proof.
  intros HM HE Hhigh n q.
  pose proof (digits_at_least HM) as Hd.
  pose proof (quotient_normal HM) as Hq. fold n in Hq. fold q in Hq.
  assert (HMpos : 0 < M) by (assert (0 < 2 ^ 52) by (apply Z.pow_pos_nonneg; lia); lia).
  destruct (shr_fexp_normal l HMpos Hd HE) as [Hm1 He1]; [lia|].
  fold n in Hm1, He1. fold q in Hm1.
  unfold binary_round_aux.
  destruct (shr_fexp prec emax M E l) as [mrs1 e1]. cbn [fst snd] in Hm1, He1.
  rewrite Hm1. subst e1.
  set (M' := round_nearest_even q (loc_of_shr_record mrs1)).
  pose proof (round_nearest_even_bounds q (loc_of_shr_record mrs1)) as HM'.
  fold M' in HM'.
  assert (H53 : 2 ^ 53 = 2 * 2 ^ 52) by reflexivity.
  destruct (Z.lt_ge_cases M' (2 ^ 53)) as [Hsmall|Hbig].
  - assert (Hdig : Zdigits2 M' = 53) by (apply digits_normal; lia).
    assert (HM'pos : 0 < M') by lia.
    destruct (@shr_fexp_normal M' (E + n) loc_Exact HM'pos) as [Hm2 He2]; try lia.
    rewrite Hdig in Hm2, He2. change (53 - 53) with 0 in Hm2, He2.
    rewrite Z.pow_0_r, Z.div_1_r in Hm2.
    destruct (shr_fexp prec emax M' (E + n) loc_Exact) as [mrs2 e2].
    cbn [fst snd] in Hm2, He2. rewrite Hm2. subst e2.
    destruct M' as [|m|m] eqn:HeqM'; try lia.
    replace (E + n + 0 <=? emax - prec) with true
      by (symmetry; apply Z.leb_le; unfold emax, prec, n; lia).
    exists m, (E + n + 0). split; [reflexivity|]. split; [lia|].
    left. split; [lia|]. lia.
  - assert (HeqM' : M' = 2 ^ 53) by lia.
    assert (Hdig : Zdigits2 M' = 54) by (rewrite HeqM'; reflexivity).
    assert (HM'pos : 0 < M') by lia.
    destruct (@shr_fexp_normal M' (E + n) loc_Exact HM'pos) as [Hm2 He2]; try lia.
    rewrite Hdig in Hm2, He2. change (54 - 53) with 1 in Hm2, He2.
    destruct (shr_fexp prec emax M' (E + n) loc_Exact) as [mrs2 e2].
    cbn [fst snd] in Hm2, He2. rewrite Hm2, HeqM'. subst e2.
    change (2 ^ 53 / 2 ^ 1) with (Zpos (2 ^ 52)%positive).
    cbv iota.
    replace (E + n + 1 <=? emax - prec) with true
      by (symmetry; apply Z.leb_le; unfold emax, prec, n; lia).
    eexists. exists (E + n + 1). split; [reflexivity|].
    split; [split; [reflexivity|reflexivity]|].
    right. split; [reflexivity|]. split; [reflexivity|]. lia.
Qed.
End FloatRounding.

Section FloatValues.

(** The rational a finite float stands for. *)
Definition pow2 (e : Z) : Q := Qpower 2 e.

Definition SF2Q (f : spec_float) : Q :=
  match f with
  | S754_finite s m e =>
      ((if s then -1 else 1) * (inject_Z (Zpos m) * pow2 e))%Q
  | _ => 0%Q
  end.

(** 2^-52 *)
Definition ulp_1 : Q := (1 # 4503599627370496)%Q.

Lemma pow2_pos (e : Z) : (0 < pow2 e)%Q.
Proof. apply Qpower_0_lt. reflexivity. Qed.

Lemma pow2_add (a b : Z) : (pow2 (a + b) == pow2 a * pow2 b)%Q.
Proof. apply Qpower_plus. discriminate. Qed.

Lemma pow2_Z (n : Z) : 0 <= n -> (pow2 n == inject_Z (2 ^ n))%Q.
Proof. intro Hn. unfold pow2. rewrite Zpower_Qpower by exact Hn. reflexivity. Qed.

Lemma pow2_succ (a : Z) : (pow2 (a + 1) == 2 * pow2 a)%Q.
Proof. rewrite pow2_add. change (pow2 1) with 2%Q. ring. Qed.

(** Rounding keeps the value within one part in 2^52. *)
Lemma round_aux_value (M E : Z) (l : location) (x : Q) :
  2 ^ 52 <= M -> -1000 <= E -> Zdigits2 M + E <= 999 ->
  (inject_Z M * pow2 E <= x)%Q -> (x <= inject_Z (M + 1) * pow2 E)%Q ->
  exists (m : positive) (e : Z),
    binary_round_aux prec emax false M E l = S754_finite false m e
    /\ 2 ^ 52 <= Zpos m < 2 ^ 53
    /\ E <= e <= E + Zdigits2 M - 52
    /\ ((1 - ulp_1) * x <= inject_Z (Zpos m) * pow2 e)%Q
    /\ (inject_Z (Zpos m) * pow2 e <= (1 + ulp_1) * x)%Q.
Proof.
  intros HM HE Hhigh Hlow Hup.
  pose proof (digits_at_least HM) as Hd.
  destruct (round_aux_normal l HM HE Hhigh) as (m & e & Hround & Hm & Hcases).
  set (n := Zdigits2 M - 53) in *.
  set (q := M / 2 ^ n) in *.
  pose proof (quotient_normal HM) as Hq. fold n in Hq. fold q in Hq.
  exists m, e. split; [exact Hround|]. split; [exact Hm|].
  assert (Hn : 0 <= n) by (unfold n; lia).
  assert (Hpn : 0 < 2 ^ n) by (apply Z.pow_pos_nonneg; lia).
  assert (Hdiv : q * 2 ^ n <= M /\ M + 1 <= (q + 1) * 2 ^ n).
  { pose proof (Z.div_mod M (2 ^ n)) as Hdm.
    pose proof (Z.mod_pos_bound M (2 ^ n) Hpn) as Hmod.
    fold q in Hdm. split; nia. }
  destruct Hdiv as [Hdiv1 Hdiv2].
  set (g := pow2 (E + n)).
  assert (Hg : (0 < g)%Q) by apply pow2_pos.
  assert (HgE : (g == pow2 E * inject_Z (2 ^ n))%Q).
  { unfold g. rewrite pow2_add, (pow2_Z Hn). reflexivity. }
  assert (HpE : (0 < pow2 E)%Q) by apply pow2_pos.
  assert (Ha : (inject_Z q * g <= x)%Q).
  { rewrite HgE.
    apply Qle_trans with (inject_Z M * pow2 E)%Q; [|exact Hlow].
    rewrite (Qmult_comm (pow2 E)), Qmult_assoc, <- inject_Z_mult.
    apply Qmult_le_compat_r; [|apply Qlt_le_weak, HpE].
    rewrite <- Zle_Qle. exact Hdiv1. }
  assert (Hb : (x <= inject_Z (q + 1) * g)%Q).
  { rewrite HgE.
    apply Qle_trans with (inject_Z (M + 1) * pow2 E)%Q; [exact Hup|].
    rewrite (Qmult_comm (pow2 E)), Qmult_assoc, <- inject_Z_mult.
    apply Qmult_le_compat_r; [|apply Qlt_le_weak, HpE].
    rewrite <- Zle_Qle. exact Hdiv2. }
  rewrite inject_Z_plus in Hb. change (inject_Z 1) with 1%Q in Hb.
  assert (Hq52 : (4503599627370496 <= inject_Z q)%Q).
  { change 4503599627370496%Q with (inject_Z (2 ^ 52)). rewrite <- Zle_Qle. lia. }
  assert (Hgu : (g <= ulp_1 * (inject_Z q * g))%Q).
  { unfold ulp_1. nra. }
  assert (Hvalue : (inject_Z (Zpos m) * pow2 e == inject_Z q * g)%Q
                   \/ (inject_Z (Zpos m) * pow2 e == inject_Z q * g + g)%Q).
  { destruct Hcases as [[-> [Hmq|Hmq]]|(-> & Hm52 & Hq53)].
    - left. rewrite Hmq. reflexivity.
    - right. rewrite Hmq, inject_Z_plus. fold g. change (inject_Z 1) with 1%Q. ring.
    - right. rewrite Hm52. rewrite pow2_succ. fold g.
      assert (Hqq : (inject_Z q == inject_Z (2 ^ 53) - 1)%Q).
      { rewrite <- Hq53, inject_Z_plus. change (inject_Z 1) with 1%Q. ring. }
      rewrite Hqq.
      change (inject_Z (2 ^ 52)) with 4503599627370496%Q.
      change (inject_Z (2 ^ 53)) with 9007199254740992%Q. ring. }
  split; [|split].
  - destruct Hcases as [[-> _]|(-> & _)]; unfold n; lia.
  - destruct Hvalue as [-> | ->]; unfold ulp_1 in *; nra.
  - destruct Hvalue as [-> | ->]; unfold ulp_1 in *; nra.
Qed.
End FloatValues.

Section ExactRounding.

Lemma round_aux_exact (M E : Z) :
  2 ^ 52 <= M < 2 ^ 53 -> -1000 <= E <= 900 ->
  binary_round_aux prec emax false M E loc_Exact = S754_finite false (Z.to_pos M) E.
Proof.
  intros HM HE. unfold binary_round_aux, shr_fexp.
  rewrite (digits_normal HM).
  replace (fexp prec emax (53 + E) - E) with 0
    by (unfold fexp, SpecFloat.emin, prec, emax; lia).
  cbn [shr shr_record_of_loc loc_of_shr_record shr_m round_nearest_even].
  rewrite (digits_normal HM).
  replace (fexp prec emax (53 + E) - E) with 0
    by (unfold fexp, SpecFloat.emin, prec, emax; lia).
  cbn [shr shr_record_of_loc shr_m].
  destruct M as [|p|p]; try (simpl in HM; lia).
  replace (E <=? emax - prec) with true
    by (symmetry; apply Z.leb_le; unfold emax, prec; lia).
  reflexivity.
Qed.

Lemma iter_xO (k p : positive) : Zpos (Pos.iter xO p k) = Zpos p * 2 ^ Zpos k.
Proof.
  induction k as [|k IH] using Pos.peano_ind.
  - cbn [Pos.iter]. change (2 ^ 1) with 2. lia.
  - rewrite Pos.iter_succ. rewrite Pos2Z.inj_xO, IH.
    rewrite Pos2Z.inj_succ, Z.pow_succ_r by lia. ring.
Qed.

(** Aligning a mantissa to a smaller exponent multiplies it by a power of
    two. *)
Lemma shl_align_value (m : positive) (e e' : Z) :
  e' <= e ->
  Zpos (fst (shl_align m e e')) = Zpos m * 2 ^ (e - e')
  /\ snd (shl_align m e e') = e'.
Proof.
  intro Hle. unfold shl_align.
  destruct (e' - e) as [|d|d] eqn:Hd; cbn [fst snd].
  - assert (e = e') by lia. subst e'. rewrite Z.sub_diag, Z.pow_0_r. lia.
  - lia.
  - rewrite iter_xO. replace (e - e') with (Zpos d) by lia. tauto.
Qed.

Lemma shl_align_none (m : positive) (e e' : Z) :
  e <= e' -> shl_align m e e' = (m, e).
Proof.
  intro Hle. unfold shl_align.
  destruct (e' - e) as [|d|d] eqn:Hd; try reflexivity. lia.
Qed.
End ExactRounding.

Section IntegerConversion.

(** A float of 53 digits, not negative, with its exponent between two
    bounds. *)
Definition normal_in (lo hi : Z) (f : spec_float) : Prop :=
  exists (m : positive) (e : Z),
    f = S754_finite false m e /\ 2 ^ 52 <= Zpos m < 2 ^ 53 /\ lo <= e <= hi.

Definition nonneg_in (lo hi : Z) (f : spec_float) : Prop :=
  f = S754_zero false \/ normal_in lo hi f.

Lemma normal_in_weaken (lo hi lo' hi' : Z) (f : spec_float) :
  lo' <= lo -> hi <= hi' -> normal_in lo hi f -> normal_in lo' hi' f.
Proof.
  intros Hlo Hhi (m & e & Hf & Hm & He). exists m, e. repeat split; try tauto; lia.
Qed.

Lemma nonneg_in_weaken (lo hi lo' hi' : Z) (f : spec_float) :
  lo' <= lo -> hi <= hi' -> nonneg_in lo hi f -> nonneg_in lo' hi' f.
Proof.
  intros Hlo Hhi [Hz|Hn]; [left; exact Hz|right].
  apply normal_in_weaken with (lo := lo) (hi := hi); assumption.
Qed.

Lemma value_nonneg (lo hi : Z) (f : spec_float) : nonneg_in lo hi f -> (0 <= SF2Q f)%Q.
Proof.
  intros [->|(m & e & -> & Hm & He)]; simpl; [apply Qle_refl|].
  pose proof (pow2_pos e) as Hp.
  assert (0 < inject_Z (Zpos m))%Q by reflexivity.
  nra.
Qed.

Lemma value_normal_pos (lo hi : Z) (f : spec_float) : normal_in lo hi f -> (0 < SF2Q f)%Q.
Proof.
  intros (m & e & -> & Hm & He); simpl.
  pose proof (pow2_pos e) as Hp.
  assert (0 < inject_Z (Zpos m))%Q by reflexivity.
  nra.
Qed.

(** A positive integer below 2^53 converts exactly. *)
Lemma normalize_exact (c : Z) :
  0 < c < 2 ^ 53 ->
  normal_in (-52) 0 (binary_normalize prec emax c 0 false)
  /\ (SF2Q (binary_normalize prec emax c 0 false) == inject_Z c)%Q.
Proof.
  intro Hc. destruct c as [|p|p]; try lia.
  unfold binary_normalize, binary_round.
  pose proof (digits2_bounds p) as [Hlow Hhigh].
  set (D := Zpos (digits2_pos p)) in *.
  assert (HD : 1 <= D <= 53).
  { split; [unfold D; lia|].
    destruct (Z.le_gt_cases D 53) as [Hd|Hd]; [exact Hd|].
    assert (2 ^ 53 <= 2 ^ (D - 1)) by (apply Z.pow_le_mono_r; lia). lia. }
  replace (fexp prec emax (D + 0)) with (D - 53)
    by (unfold fexp, SpecFloat.emin, prec, emax; lia).
  assert (Hle : D - 53 <= 0) by lia.
  destruct (shl_align_value p Hle) as [Hmz Hez].
  destruct (shl_align p 0 (D - 53)) as [mz ez]. cbn [fst snd] in Hmz, Hez. subst ez.
  replace (0 - (D - 53)) with (53 - D) in Hmz by lia.
  assert (Hpow : 2 ^ 53 = 2 ^ D * 2 ^ (53 - D)).
  { rewrite <- Z.pow_add_r by lia. f_equal. lia. }
  assert (Hpow' : 2 ^ 52 = 2 ^ (D - 1) * 2 ^ (53 - D)).
  { rewrite <- Z.pow_add_r by lia. f_equal. lia. }
  assert (Hk : 0 < 2 ^ (53 - D)) by (apply Z.pow_pos_nonneg; lia).
  assert (Hnormal : 2 ^ 52 <= Zpos mz < 2 ^ 53).
  { rewrite Hmz, Hpow, Hpow'. split; nia. }
  rewrite round_aux_exact by (try exact Hnormal; lia).
  cbn [Z.to_pos]. split.
  - exists mz, (D - 53). split; [reflexivity|]. split; [exact Hnormal|lia].
  - cbn [SF2Q]. rewrite Hmz, inject_Z_mult.
    rewrite <- (pow2_Z (n := 53 - D)) by lia.
    rewrite Qmult_1_l, <- Qmult_assoc, <- pow2_add.
    replace (53 - D + (D - 53)) with 0 by lia.
    change (pow2 0) with 1%Q. ring.
Qed.
End IntegerConversion.

Section FloatOperations.

Lemma value_finite (m : positive) (e : Z) :
  (SF2Q (S754_finite false m e) == inject_Z (Zpos m) * pow2 e)%Q.
Proof. cbn [SF2Q]. ring. Qed.

Lemma scaled_value (m : positive) (e e' : Z) :
  e' <= e ->
  (inject_Z (Zpos m * 2 ^ (e - e')) * pow2 e' == inject_Z (Zpos m) * pow2 e)%Q.
Proof.
  intro Hle. rewrite inject_Z_mult, <- (pow2_Z (n := e - e')) by lia.
  rewrite <- Qmult_assoc, <- pow2_add.
  replace (e - e' + e') with e by lia. reflexivity.
Qed.

(** The sum of two floats of 53 digits is their exact sum, rounded. *)
Lemma add_normal (lo hi : Z) (X Y : spec_float) :
  normal_in lo hi X -> normal_in lo hi Y -> -900 <= lo -> hi <= 900 ->
  normal_in lo (hi + 2) (SFadd prec emax X Y)
  /\ ((1 - ulp_1) * (SF2Q X + SF2Q Y) <= SF2Q (SFadd prec emax X Y))%Q
  /\ (SF2Q (SFadd prec emax X Y) <= (1 + ulp_1) * (SF2Q X + SF2Q Y))%Q.
Proof.
  intros (mx & ex & -> & Hmx & Hex) (my & ey & -> & Hmy & Hey) Hlo Hhi.
  unfold SFadd. cbv zeta. cbn [cond_Zopp].
  set (ez := Z.min ex ey).
  assert (Hezx : ez <= ex) by (unfold ez; lia).
  assert (Hezy : ez <= ey) by (unfold ez; lia).
  destruct (shl_align_value mx Hezx) as [Hax _].
  destruct (shl_align_value my Hezy) as [Hay _].
  set (ax := fst (shl_align mx ex ez)) in *.
  set (ay := fst (shl_align my ey ez)) in *.
  change (Zpos ax + Zpos ay) with (Zpos (ax + ay)).
  cbn [binary_normalize]. unfold binary_round.
  assert (HM : Zpos (ax + ay) = Zpos mx * 2 ^ (ex - ez) + Zpos my * 2 ^ (ey - ez)).
  { rewrite Pos2Z.inj_add, Hax, Hay. reflexivity. }
  set (M := Zpos (ax + ay)) in *.
  assert (Hpx : 0 < 2 ^ (ex - ez)) by (apply Z.pow_pos_nonneg; lia).
  assert (Hpy : 0 < 2 ^ (ey - ez)) by (apply Z.pow_pos_nonneg; lia).
  assert (HM52 : 2 ^ 52 <= M) by nia.
  pose proof (digits_at_least HM52) as Hd.
  set (h := Z.max ex ey - ez).
  assert (Hh : 0 <= h) by (unfold h, ez; lia).
  assert (Hqx : 2 ^ (ex - ez) <= 2 ^ h) by (apply Z.pow_le_mono_r; unfold h; lia).
  assert (Hqy : 2 ^ (ey - ez) <= 2 ^ h) by (apply Z.pow_le_mono_r; unfold h; lia).
  assert (Hupper : M < 2 ^ (54 + h)).
  { rewrite Z.pow_add_r by lia. change (2 ^ 54) with (2 * 2 ^ 53). nia. }
  assert (HD : Zdigits2 M <= 54 + h).
  { unfold M in *. cbn [Zdigits2] in *.
    pose proof (digits2_bounds (ax + ay)) as [Hlow _].
    destruct (Z.le_gt_cases (Zpos (digits2_pos (ax + ay))) (54 + h)) as [Hle|Hgt];
      [exact Hle|].
    assert (2 ^ (54 + h) <= 2 ^ (Zpos (digits2_pos (ax + ay)) - 1))
      by (apply Z.pow_le_mono_r; lia).
    lia. }
  change (Zpos (digits2_pos (ax + ay))) with (Zdigits2 M).
  rewrite shl_align_none
    by (unfold fexp, SpecFloat.emin, prec, emax; lia).
  fold M.
  assert (Hx : (inject_Z M * pow2 ez
                == SF2Q (S754_finite false mx ex) + SF2Q (S754_finite false my ey))%Q).
  { rewrite HM, inject_Z_plus, Qmult_plus_distr_l.
    rewrite (scaled_value mx Hezx), (scaled_value my Hezy), !value_finite.
    reflexivity. }
  set (x := (SF2Q (S754_finite false mx ex) + SF2Q (S754_finite false my ey))%Q) in *.
  destruct (@round_aux_value M ez loc_Exact x) as (m & e & Hround & Hm & He & Hl & Hu).
  - exact HM52.
  - unfold ez; lia.
  - unfold h, ez in *. lia.
  - rewrite Hx. apply Qle_refl.
  - rewrite <- Hx, inject_Z_plus. change (inject_Z 1) with 1%Q.
    pose proof (pow2_pos ez). nra.
  - rewrite Hround. split; [|split].
    + exists m, e. split; [reflexivity|]. split; [exact Hm|].
      unfold h, ez in *. lia.
    + rewrite value_finite. exact Hl.
    + rewrite value_finite. exact Hu.
Qed.

Lemma div_eucl_div_mod (a b : Z) : Z.div_eucl a b = (a / b, a mod b).
Proof.
  unfold Z.div, Z.modulo. destruct (Z.div_eucl a b). reflexivity.
Qed.

(** The quotient of two floats of 53 digits is their exact quotient,
    rounded. *)
Lemma div_normal (lo hi : Z) (X Y : spec_float) :
  normal_in lo hi X -> normal_in lo hi Y -> -400 <= lo -> hi <= 400 ->
  normal_in (lo - hi - 53) (hi - lo - 51) (SFdiv prec emax X Y)
  /\ ((1 - ulp_1) * (SF2Q X / SF2Q Y) <= SF2Q (SFdiv prec emax X Y))%Q
  /\ (SF2Q (SFdiv prec emax X Y) <= (1 + ulp_1) * (SF2Q X / SF2Q Y))%Q.
Proof.
  intros (mx & ex & -> & Hmx & Hex) (my & ey & -> & Hmy & Hey) Hlo Hhi.
  unfold SFdiv.
  assert (Hcore :
            SFdiv_core_binary prec emax (Zpos mx) ex (Zpos my) ey
            = (Zpos mx * 2 ^ 53 / Zpos my, ex - ey - 53,
               new_location (Zpos my) ((Zpos mx * 2 ^ 53) mod Zpos my))).
  { unfold SFdiv_core_binary. cbv zeta.
    rewrite (digits_normal Hmx), (digits_normal Hmy).
    replace (Z.min (fexp prec emax (53 + ex - (53 + ey))) (ex - ey))
      with (ex - ey - 53)
      by (unfold fexp, SpecFloat.emin, prec, emax; lia).
    replace (ex - ey - (ex - ey - 53)) with 53 by lia.
    cbv iota. rewrite Z.shiftl_mul_pow2 by lia.
    rewrite div_eucl_div_mod. reflexivity. }
  rewrite Hcore. cbn [xorb].
  set (a := Zpos mx * 2 ^ 53).
  set (q := a / Zpos my).
  set (E := ex - ey - 53).
  assert (Hdm : q * Zpos my <= a < (q + 1) * Zpos my).
  { pose proof (Z.div_mod a (Zpos my)) as Hdm.
    pose proof (Z.mod_pos_bound a (Zpos my)) as Hmod.
    fold q in Hdm. split; nia. }
  assert (H53 : 2 ^ 53 = 2 * 2 ^ 52) by reflexivity.
  assert (H52 : 0 < 2 ^ 52) by reflexivity.
  assert (Hq : 2 ^ 52 <= q < 2 ^ 54).
  { unfold q. split.
    - apply Z.div_le_lower_bound; [lia|]. unfold a. nia.
    - apply Z.div_lt_upper_bound; [lia|]. unfold a.
      change (2 ^ 54) with (2 * 2 ^ 53). nia. }
  assert (HD : Zdigits2 q <= 54).
  { destruct q as [|p|p] eqn:Hqp; try lia. cbn [Zdigits2].
    pose proof (digits2_bounds p) as [Hlow _].
    destruct (Z.le_gt_cases (Zpos (digits2_pos p)) 54) as [Hle|Hgt]; [exact Hle|].
    assert (2 ^ 54 <= 2 ^ (Zpos (digits2_pos p) - 1)) by (apply Z.pow_le_mono_r; lia).
    lia. }
  set (x := (SF2Q (S754_finite false mx ex) / SF2Q (S754_finite false my ey))%Q).
  assert (Hpy : (0 < pow2 ey)%Q) by apply pow2_pos.
  assert (HpE : (0 < pow2 E)%Q) by apply pow2_pos.
  assert (Hmy0 : (0 < inject_Z (Zpos my))%Q) by reflexivity.
  assert (Hx : (x * inject_Z (Zpos my) == inject_Z a * pow2 E)%Q).
  { unfold x, a. rewrite !value_finite, inject_Z_mult.
    replace ex with (E + ey + 53) by (unfold E; lia).
    rewrite !pow2_add. change (pow2 53) with (inject_Z (2 ^ 53)).
    field. split; apply Qnot_eq_sym, Qlt_not_eq; assumption. }
  assert (Hqa : (inject_Z q * inject_Z (Zpos my) <= inject_Z a)%Q).
  { rewrite <- inject_Z_mult, <- Zle_Qle. lia. }
  assert (Haq : (inject_Z a <= (inject_Z q + 1) * inject_Z (Zpos my))%Q).
  { change 1%Q with (inject_Z 1).
    rewrite <- inject_Z_plus, <- inject_Z_mult, <- Zle_Qle. lia. }
  destruct (@round_aux_value q E (new_location (Zpos my) (a mod Zpos my)) x)
    as (m & e & Hround & Hm & He & Hl & Hu).
  - lia.
  - unfold E; lia.
  - unfold E; lia.
  - apply Qmult_le_r with (z := inject_Z (Zpos my)); [exact Hmy0|].
    rewrite Hx. nra.
  - apply Qmult_le_r with (z := inject_Z (Zpos my)); [exact Hmy0|].
    rewrite Hx, inject_Z_plus. change (inject_Z 1) with 1%Q. nra.
  - rewrite Hround. split; [|split].
    + exists m, e. split; [reflexivity|]. split; [exact Hm|]. unfold E in *. lia.
    + rewrite value_finite. exact Hl.
    + rewrite value_finite. exact Hu.
Qed.
End FloatOperations.

Section BinaryRates.

Lemma add_nonneg (lo hi : Z) (X Y : spec_float) :
  nonneg_in lo hi X -> nonneg_in lo hi Y -> -900 <= lo -> hi <= 900 ->
  nonneg_in lo (hi + 2) (SFadd prec emax X Y)
  /\ ((1 - ulp_1) * (SF2Q X + SF2Q Y) <= SF2Q (SFadd prec emax X Y))%Q
  /\ (SF2Q (SFadd prec emax X Y) <= (1 + ulp_1) * (SF2Q X + SF2Q Y))%Q.
Proof.
  intros HX HY Hlo Hhi.
  pose proof (value_nonneg HX) as HvX. pose proof (value_nonneg HY) as HvY.
  destruct HX as [->|HX], HY as [->|HY].
  - cbn [SFadd SF2Q]. split; [left; reflexivity|]. unfold ulp_1. split; lra.
  - destruct HY as (m & e & -> & Hm & He). cbn [SFadd].
    split; [right; exists m, e; repeat split; try tauto; lia|].
    cbn [SF2Q] in *. unfold ulp_1. split; lra.
  - destruct HX as (m & e & -> & Hm & He). cbn [SFadd].
    split; [right; exists m, e; repeat split; try tauto; lia|].
    cbn [SF2Q] in *. unfold ulp_1. split; lra.
  - destruct (add_normal HX HY Hlo Hhi) as (Hn & Hl & Hu).
    split; [right; exact Hn|]. split; assumption.
Qed.

Lemma to_Z_of_Z (c : Z) : 0 <= c < 2 ^ 53 -> Uint63.to_Z (Uint63.of_Z c) = c.
Proof.
  intro Hc. rewrite Uint63.of_Z_spec. apply Z.mod_small.
  assert (2 ^ 53 < wB) by reflexivity. lia.
Qed.

Lemma of_Z_exact (c : Z) :
  0 < c < 2 ^ 53 ->
  normal_in (-52) 0 (Prim2SF (Binary64.of_Z c))
  /\ (SF2Q (Prim2SF (Binary64.of_Z c)) == inject_Z c)%Q.
Proof.
  intro Hc. destruct c as [|p|p]; try lia.
  unfold Binary64.of_Z. rewrite FloatAxioms.of_uint63_spec, to_Z_of_Z by lia.
  apply normalize_exact. exact Hc.
Qed.

(** A rate as binary64 computes it: zero for the count 0, and otherwise
    within one part in 2^52 of the exact quotient. *)
Lemma rate_value (count total : Z) :
  0 <= count < 2 ^ 53 -> 0 < total < 2 ^ 53 ->
  let r := Prim2SF (Collector.rate (F := float) count total) in
  nonneg_in (-105) 1 r
  /\ ((1 - ulp_1) * (inject_Z count / inject_Z total) <= SF2Q r)%Q
  /\ (SF2Q r <= (1 + ulp_1) * (inject_Z count / inject_Z total))%Q.
Proof.
  intros Hc Ht r. unfold r, Collector.rate.
  destruct (Z.gtb_spec total 0) as [_|Hle]; [|lia].
  change (fdiv (of_int count) (of_int total))
    with (PrimFloat.div (Binary64.of_Z count) (Binary64.of_Z total)).
  rewrite FloatAxioms.div_spec. unfold SF64div.
  destruct (of_Z_exact Ht) as [HnT HvT].
  destruct (Z.eq_dec count 0) as [->|Hnz].
  - change (Prim2SF (Binary64.of_Z 0)) with (S754_zero false).
    destruct HnT as (m & e & -> & _). cbn [SFdiv xorb SF2Q].
    split; [left; reflexivity|].
    change (inject_Z 0) with 0%Q. unfold Qdiv. rewrite Qmult_0_l, !Qmult_0_r.
    split; apply Qle_refl.
  - assert (Hpos : 0 < count < 2 ^ 53) by lia.
    destruct (of_Z_exact Hpos) as [HnC HvC].
    destruct (@div_normal (-52) 0 _ _ HnC HnT) as (Hn & Hl & Hu); try lia.
    rewrite HvC, HvT in Hl, Hu.
    split; [right; exact Hn|]. split; assumption.
Qed.

Lemma pow2_mono (a b : Z) : a <= b -> (pow2 a <= pow2 b)%Q.
Proof. intro Hab. apply Qpower_le_compat_l; [exact Hab|]. discriminate. Qed.

(** The floats whose value lies between 1 - 3/2^52 and 1 + 4/2^52. *)
Lemma near_one (m : positive) (e : Z) :
  2 ^ 52 <= Zpos m < 2 ^ 53 ->
  (1 - 3 * ulp_1 <= inject_Z (Zpos m) * pow2 e)%Q ->
  (inject_Z (Zpos m) * pow2 e <= 1 + 4 * ulp_1)%Q ->
  (e = -52 /\ 2 ^ 52 <= Zpos m <= 2 ^ 52 + 4)
  \/ (e = -53 /\ 2 ^ 53 - 6 <= Zpos m < 2 ^ 53).
Proof.
  intros Hm Hlow Hhigh.
  assert (Hm1 : (4503599627370496 <= inject_Z (Zpos m))%Q).
  { change 4503599627370496%Q with (inject_Z (2 ^ 52)). rewrite <- Zle_Qle. lia. }
  assert (Hm2 : (inject_Z (Zpos m) <= 9007199254740992)%Q).
  { change 9007199254740992%Q with (inject_Z (2 ^ 53)). rewrite <- Zle_Qle. lia. }
  pose proof (pow2_pos e) as Hpe.
  assert (He : e = -52 \/ e = -53).
  { destruct (Z.le_gt_cases (-51) e) as [Hbig|Hsmall].
    - exfalso. pose proof (pow2_mono Hbig) as Hp.
      assert (Hc : (pow2 (-51) == 1 # 2251799813685248)%Q) by reflexivity.
      rewrite Hc in Hp. unfold ulp_1 in *. nra.
    - destruct (Z.le_gt_cases e (-54)) as [Hlittle|Hmid]; [|lia].
      exfalso. pose proof (pow2_mono Hlittle) as Hp.
      assert (Hc : (pow2 (-54) == 1 # 18014398509481984)%Q) by reflexivity.
      rewrite Hc in Hp. unfold ulp_1 in *. nra. }
  destruct He as [-> | ->].
  - left. split; [reflexivity|]. split; [lia|].
    assert (Hc : (pow2 (-52) == 1 # 4503599627370496)%Q) by reflexivity.
    rewrite Hc in Hhigh. unfold ulp_1 in Hhigh.
    assert (Hq : (inject_Z (Zpos m) <= inject_Z (2 ^ 52 + 4))%Q).
    { change (inject_Z (2 ^ 52 + 4)) with 4503599627370500%Q. lra. }
    rewrite <- Zle_Qle in Hq. exact Hq.
  - right. split; [reflexivity|]. split; [|lia].
    assert (Hc : (pow2 (-53) == 1 # 9007199254740992)%Q) by reflexivity.
    rewrite Hc in Hlow. unfold ulp_1 in Hlow.
    assert (Hq : (inject_Z (2 ^ 53 - 6) <= inject_Z (Zpos m))%Q).
    { change (inject_Z (2 ^ 53 - 6)) with 9007199254740986%Q. lra. }
    rewrite <- Zle_Qle in Hq. exact Hq.
Qed.

(** In binary64 the three rates of a line add up to 1.0 within 2^-50,
    whatever the counts, as long as they convert exactly. *)
Theorem binary64_rates_close (white black draws : Z) :
  0 <= white -> 0 <= black -> 0 <= draws ->
  0 < white + black + draws < 2 ^ 53 ->
  let total := white + black + draws in
  within 0x1p-50%float
         (PrimFloat.add
            (PrimFloat.add (Collector.rate (F := float) white total)
                           (Collector.rate (F := float) black total))
            (Collector.rate (F := float) draws total)) = true.
Proof.
  intros Hw Hb Hd Ht total.
  assert (HW : 0 <= white < 2 ^ 53) by lia.
  assert (HB : 0 <= black < 2 ^ 53) by lia.
  assert (HD : 0 <= draws < 2 ^ 53) by lia.
  destruct (rate_value HW Ht) as (Hnw & Hlw & Huw).
  destruct (rate_value HB Ht) as (Hnb & Hlb & Hub).
  destruct (rate_value HD Ht) as (Hnd & Hld & Hud).
  fold total in Hnw, Hlw, Huw, Hnb, Hlb, Hub, Hnd, Hld, Hud.
  set (rw := Collector.rate (F := float) white total) in *.
  set (rb := Collector.rate (F := float) black total) in *.
  set (rd := Collector.rate (F := float) draws total) in *.
  set (s := PrimFloat.add (PrimFloat.add rw rb) rd).
  assert (Hs : Prim2SF s = SFadd prec emax (SFadd prec emax (Prim2SF rw) (Prim2SF rb))
                                 (Prim2SF rd)).
  { unfold s. rewrite !FloatAxioms.add_spec. reflexivity. }
  destruct (@add_nonneg (-105) 1 _ _ Hnw Hnb) as (Hn1 & Hl1 & Hu1); try lia.
  assert (Hnd' : nonneg_in (-105) (1 + 2) (Prim2SF rd))
    by (apply nonneg_in_weaken with (lo := -105) (hi := 1); [lia|lia|exact Hnd]).
  destruct (@add_nonneg (-105) (1 + 2) _ _ Hn1 Hnd') as (Hn2 & Hl2 & Hu2); try lia.
  rewrite <- Hs in Hn2, Hl2, Hu2.
  pose proof (value_nonneg Hnw) as H0w.
  pose proof (value_nonneg Hnb) as H0b.
  pose proof (value_nonneg Hnd) as H0d.
  assert (Hsum : (inject_Z white / inject_Z total + inject_Z black / inject_Z total
                  + inject_Z draws / inject_Z total == 1)%Q).
  { unfold total. rewrite !inject_Z_plus. field.
    rewrite <- !inject_Z_plus. change 0%Q with (inject_Z 0).
    rewrite inject_Z_injective. lia. }
  assert (Hqw : (0 <= inject_Z white / inject_Z total)%Q).
  { apply Qle_shift_div_l; [change 0%Q with (inject_Z 0); rewrite <- Zlt_Qlt; lia|].
    rewrite Qmult_0_l. change 0%Q with (inject_Z 0). rewrite <- Zle_Qle. lia. }
  assert (Hqb : (0 <= inject_Z black / inject_Z total)%Q).
  { apply Qle_shift_div_l; [change 0%Q with (inject_Z 0); rewrite <- Zlt_Qlt; lia|].
    rewrite Qmult_0_l. change 0%Q with (inject_Z 0). rewrite <- Zle_Qle. lia. }
  assert (Hqd : (0 <= inject_Z draws / inject_Z total)%Q).
  { apply Qle_shift_div_l; [change 0%Q with (inject_Z 0); rewrite <- Zlt_Qlt; lia|].
    rewrite Qmult_0_l. change 0%Q with (inject_Z 0). rewrite <- Zle_Qle. lia. }
  set (W := (inject_Z white / inject_Z total)%Q) in *.
  set (B := (inject_Z black / inject_Z total)%Q) in *.
  set (D := (inject_Z draws / inject_Z total)%Q) in *.
  set (vw := SF2Q (Prim2SF rw)) in *.
  set (vb := SF2Q (Prim2SF rb)) in *.
  set (vd := SF2Q (Prim2SF rd)) in *.
  set (v1 := SF2Q (SFadd prec emax (Prim2SF rw) (Prim2SF rb))) in *.
  set (V := SF2Q (Prim2SF s)) in *.
  assert (Hlow : (1 - 3 * ulp_1 <= V)%Q) by (unfold ulp_1 in *; nra).
  assert (Hhigh : (V <= 1 + 4 * ulp_1)%Q) by (unfold ulp_1 in *; nra).
  destruct Hn2 as [Hzero|(m & e & Hfinite & Hm & He)].
  - exfalso. unfold V in Hlow. rewrite Hzero in Hlow. cbn [SF2Q] in Hlow.
    unfold ulp_1 in Hlow. lra.
  - unfold V in Hlow, Hhigh. rewrite Hfinite in Hlow, Hhigh.
    rewrite value_finite in Hlow, Hhigh.
    assert (Hprim : s = SF2Prim (S754_finite false m e)).
    { rewrite <- Hfinite. symmetry. apply SF2Prim_Prim2SF. }
    rewrite Hprim.
    destruct (near_one e Hm Hlow Hhigh) as [[-> Hrange]|[-> Hrange]].
    + assert (Hcases : (m = 4503599627370496 \/ m = 4503599627370497
                        \/ m = 4503599627370498 \/ m = 4503599627370499
                        \/ m = 4503599627370500)%positive).
      { change (2 ^ 52) with 4503599627370496 in Hrange. lia. }
      destruct Hcases as [->|[->|[->|[->| ->]]]]; vm_compute; reflexivity.
    + assert (Hcases : (m = 9007199254740986 \/ m = 9007199254740987
                        \/ m = 9007199254740988 \/ m = 9007199254740989
                        \/ m = 9007199254740990 \/ m = 9007199254740991)%positive).
      { change (2 ^ 53) with 9007199254740992 in Hrange. lia. }
      destruct Hcases as [->|[->|[->|[->|[->| ->]]]]]; vm_compute; reflexivity.
Qed.
End BinaryRates.

(* ===================================================================== *)
(** ** The rates a line stores *)
(* ===================================================================== *)

Section StoredRates.
Import Collector.

(** [win_rate_white + win_rate_black + draw_rate], added as Python adds
    them, on the rates a line stores. *)
Definition stored_rates_sum {F : Type} `{PyFloat F} (line : OpeningData (F := F)) : F :=
  fadd (fadd (win_rate_white line) (win_rate_black line)) (draw_rate line).

Lemma exact_stored_rates (mvs : list string) (st : Continuation) (now : Z) :
  c_total_games st = c_white_wins st + c_black_wins st + c_draws st ->
  0 < c_total_games st ->
  (stored_rates_sum (opening_data_of (F := Q) mvs st now) == 1)%Q.
Proof.
  intros Hsum Hpos. unfold stored_rates_sum, opening_data_of.
  cbn [win_rate_white win_rate_black draw_rate fadd exact].
  rewrite Hsum in *. apply exact_rates_sum. exact Hpos.
Qed.

Lemma binary64_stored_rates (mvs : list string) (st : Continuation) (now : Z) :
  c_total_games st = c_white_wins st + c_black_wins st + c_draws st ->
  0 <= c_white_wins st -> 0 <= c_black_wins st -> 0 <= c_draws st ->
  0 < c_total_games st < 2 ^ 53 ->
  within 0x1p-50%float (stored_rates_sum (opening_data_of (F := float) mvs st now)) = true.
Proof.
  intros Hsum Hw Hb Hd Ht. unfold stored_rates_sum, opening_data_of.
  cbn [win_rate_white win_rate_black draw_rate fadd binary64].
  rewrite Hsum in *. apply binary64_rates_close; assumption.
Qed.

(** What [get_opening_continuations] answers has a total that is the sum
    of its counts, and counts the provider reported. *)
Lemma answer_counts (P : Provider) (mvs : list string)
      (st : Continuation) (n n' : nat) :
  counts_nonnegative P ->
  get_opening_continuations P mvs n = (Some st, n') ->
  c_total_games st = c_white_wins st + c_black_wins st + c_draws st
  /\ 0 <= c_white_wins st /\ 0 <= c_black_wins st /\ 0 <= c_draws st.
Proof.
  intros Hcounts Hcall. unfold get_opening_continuations in Hcall.
  destruct (respond P n _) as [stats|] eqn:Hanswer; [|discriminate].
  destruct (Hcounts _ _ _ Hanswer) as (Hw & Hb & Hd).
  inversion Hcall; subst st. cbn. repeat split; assumption.
Qed.

(** C9.  (a) With no games the three rates a line stores are 0: the guard
    [if total_games > 0 else 0] returns before any division, in every
    arithmetic, and so do the guards of the model's two properties; in
    binary64 that 0 is 0.0.  (b) With a positive total that is the sum of
    the three counts, the rates a line stores add up to 1 in exact
    arithmetic, and so they do on every line the discovery engine returns.
    (c) In binary64, added as Python adds them, the three rates a line
    stores are within 2^-50 of 1.0, for all counts that are not negative
    and whose total is below 2^53 (up to there Python's [int / int] is the
    quotient of the two conversions); and so they are on every line the
    discovery engine returns when the provider's counts are not
    negative. *)
Theorem derived_rates :
  (forall (F : Type) (I : PyFloat F) (mvs : list string) (st : Continuation) (now : Z),
      c_total_games st = 0 ->
      win_rate_white (opening_data_of mvs st now) = of_int 0
      /\ win_rate_black (opening_data_of mvs st now) = of_int 0
      /\ draw_rate (opening_data_of mvs st now) = of_int 0)
  /\ (forall (F : Type) (I : PyFloat F) (s : Models.OpeningStatistic),
         Models.total_games s = 0 ->
         Models.win_rate_for_white s = of_int 0
         /\ Models.win_rate_for_black s = of_int 0)
  /\ of_int (F := float) 0 = 0%float
  /\ (forall (mvs : list string) (st : Continuation) (now : Z),
         c_total_games st = c_white_wins st + c_black_wins st + c_draws st ->
         0 < c_total_games st ->
         (stored_rates_sum (opening_data_of (F := Q) mvs st now) == 1)%Q)
  /\ (forall (P : Provider) (max_openings : Z) (n : nat),
         Forall (fun line => (stored_rates_sum line == 1)%Q)
                (fst (discover_openings_tree (F := Q) P max_openings n)))
  /\ (forall (mvs : list string) (st : Continuation) (now : Z),
         c_total_games st = c_white_wins st + c_black_wins st + c_draws st ->
         0 <= c_white_wins st -> 0 <= c_black_wins st -> 0 <= c_draws st ->
         0 < c_total_games st < 2 ^ 53 ->
         within 0x1p-50%float
                (stored_rates_sum (opening_data_of (F := float) mvs st now)) = true)
  /\ (forall (P : Provider) (max_openings : Z) (n : nat),
         counts_nonnegative P ->
         Forall (fun line =>
                   total_games line < 2 ^ 53 ->
                   within 0x1p-50%float (stored_rates_sum line) = true)
                (fst (discover_openings_tree (F := float) P max_openings n))).
Proof.
  split; [|split; [|split; [|split; [|split; [|split]]]]].
  - intros F I mvs st now Hzero. unfold opening_data_of, rate.
    cbn [win_rate_white win_rate_black draw_rate]. rewrite Hzero.
    repeat split; reflexivity.
  - intros F I s Hzero.
    unfold Models.win_rate_for_white, Models.win_rate_for_black.
    rewrite Hzero. split; reflexivity.
  - reflexivity.
  - exact exact_stored_rates.
  - intros P max_openings n. apply discovery_invariant.
    intros mvs st k k' now Hcall Hfloor.
    assert (Hsum : c_total_games st = c_white_wins st + c_black_wins st + c_draws st).
    { unfold get_opening_continuations in Hcall.
      destruct (respond P k _) as [stats|]; [|discriminate].
      inversion Hcall; subst st. reflexivity. }
    apply exact_stored_rates; [exact Hsum|lia].
  - exact binary64_stored_rates.
  - intros P max_openings n Hcounts. apply discovery_invariant.
    intros mvs st k k' now Hcall Hfloor Hsmall.
    destruct (@answer_counts P mvs st k k' Hcounts Hcall) as (Hsum & Hw & Hb & Hd).
    rewrite opening_data_total in Hsmall.
    apply binary64_stored_rates; try assumption. lia.
Qed.
End StoredRates.

Lemma derived_rates_witness :
  counts_nonnegative sample_provider
  /\ map Collector.total_games
         (fst (Collector.discover_openings_tree (F := float) sample_provider 5 0%nat))
     = [200]
  /\ Forall (fun line => within 0x1p-50%float (stored_rates_sum line) = true)
            (fst (Collector.discover_openings_tree (F := float) sample_provider 5 0%nat)).
Proof.
  assert (Hcounts : counts_nonnegative sample_provider).
  { intros n rq stats Hanswer. simpl in Hanswer.
    destruct n as [|[|[|[|n]]]]; inversion Hanswer; subst; simpl; lia. }
  assert (Htotals :
            map Collector.total_games
                (fst (Collector.discover_openings_tree (F := float) sample_provider 5 0%nat))
            = [200]) by (vm_compute; reflexivity).
  split; [exact Hcounts|]. split; [exact Htotals|].
  pose proof (proj2 (proj2 (proj2 (proj2 (proj2 (proj2 derived_rates)))))
                sample_provider 5 0%nat Hcounts) as Hclose.
  rewrite Forall_forall in *. intros line Hin.
  apply (Hclose line Hin).
  assert (Hgames : In (Collector.total_games line) [200])
    by (rewrite <- Htotals; apply in_map, Hin).
  destruct Hgames as [<-|[]]. reflexivity.
Defined.


Lemma discovery_scores_in_range_witness :
  counts_nonnegative sample_provider
  /\ Forall (fun line => (0 <= Collector.od_performance_score line <= 80)%Q)
            (fst (Collector.discover_openings_tree (F := Q) sample_provider 5 0%nat)).
Proof.
  assert (Hcounts : counts_nonnegative sample_provider).
  { intros n rq stats Hanswer. simpl in Hanswer.
    destruct n as [|[|[|[|n]]]]; inversion Hanswer; subst; simpl; lia. }
  split; [exact Hcounts|].
  exact (discovery_scores_in_range (P := sample_provider) 5 0%nat Hcounts).
Defined.

(* ===================================================================== *)
(** ** Further properties of the loader and the update run *)
(* ===================================================================== *)

Section FreshKeys.
Import Models Orm.
Context {R : Type} `{Row R}.

Hypothesis pk_with_pk : forall (k : Z) (r : R), pk (with_pk k r) = Some k.
Hypothesis defaults_same : forall (t : Z) (r : R), defaults t r = r.

(** The rows a list of new objects becomes when they are inserted one after
    the other, the first with key [k]. *)
Fixpoint numbered (k : Z) (news : list R) : list R :=
  match news with
  | [] => []
  | o :: rest => with_pk k o :: numbered (k + 1) rest
  end.

Lemma max_pk_nonnegative (t : list R) : 0 <= max_pk t.
Proof.
  induction t as [|x t IH]; simpl; [lia|].
  destruct (pk x); lia.
Qed.

Lemma next_pk_app (t : list R) (o : R) :
  pk o = Some (next_pk t) -> next_pk (t ++ [o]) = next_pk t + 1.
Proof.
  assert (Hfold : forall (l : list R) m, 0 <= m ->
            fold_right (fun r m => match pk r with Some k => Z.max k m | None => m end) m l
            = Z.max (max_pk l) m).
  { intros l m Hm. unfold max_pk.
    induction l as [|x l IH]; [symmetry; apply Z.max_r, Hm|]. simpl.
    rewrite IH. destruct (pk x); [apply Z.max_assoc|reflexivity]. }
  intro Ho. rewrite !next_pk_max in *.
  pose proof (max_pk_nonnegative t) as Hpos.
  unfold max_pk at 1. rewrite fold_right_app. cbn [fold_right]. rewrite Ho.
  rewrite Hfold by lia. 
  generalize dependent (max_pk t). intros. lia.
Qed.

Lemma sql_insert_all_fresh (now : Z) (news t : list R) :
  Forall (fun o => pk o = None) news ->
  sql_insert_all now news t
  = Some (t ++ numbered (next_pk t) news, numbered (next_pk t) news).
Proof.
  intro Hnew. revert t.
  induction Hnew as [|o rest Ho _ IH]; intro t; simpl.
  - rewrite app_nil_r. reflexivity.
  - unfold sql_insert. rewrite Ho, defaults_same.
    rewrite IH, next_pk_app by apply pk_with_pk.
    rewrite <- app_assoc. reflexivity.
Qed.
End FreshKeys.

Section Numbered.
Import Models Orm.
Context {R : Type} `{Row R}.
Hypothesis pk_with_pk : forall (k : Z) (r : R), pk (with_pk k r) = Some k.

Lemma numbered_length (k : Z) (news : list R) :
  List.length (numbered k news) = List.length news.
Proof.
  revert k. induction news as [|o rest IH]; intro k; simpl; [reflexivity|].
  rewrite IH. reflexivity.
Qed.

Lemma nth_error_numbered (news : list R) (k : Z) (i : nat) (o : R) :
  nth_error (numbered k news) i = Some o -> pk o = Some (k + Z.of_nat i).
Proof.
  revert k i. induction news as [|x rest IH]; intros k i Hnth.
  - destruct i; discriminate.
  - destruct i as [|i]; simpl in Hnth.
    + inversion Hnth. rewrite pk_with_pk. f_equal. lia.
    + apply IH in Hnth. rewrite Hnth. f_equal. lia.
Qed.

Lemma numbered_keys_from (news : list R) (k : Z) (o : R) :
  In o (numbered k news) -> exists j, pk o = Some j /\ k <= j.
Proof.
  revert k. induction news as [|x rest IH]; intros k Hin; simpl in Hin.
  - contradiction.
  - destruct Hin as [<-|Hin].
    + exists k. split; [apply pk_with_pk|lia].
    + destruct (IH _ Hin) as (j & Hj & Hle). exists j. split; [exact Hj|lia].
Qed.

Lemma numbered_keys_distinct (news : list R) (k : Z) :
  NoDup (map pk (numbered k news)).
Proof.
  revert k. induction news as [|x rest IH]; intro k; simpl.
  - constructor.
  - constructor; [|apply IH].
    rewrite pk_with_pk. intro Hin.
    apply in_map_iff in Hin. destruct Hin as (o & Ho & Hin).
    destruct (numbered_keys_from _ _ _ Hin) as (j & Hj & Hle).
    rewrite Hj in Ho. inversion Ho. lia.
Qed.

(** Writing back objects that are the rows themselves changes nothing. *)
Lemma sql_update_same (o : R) (t : list R) :
  NoDup (map pk t) -> In o t -> sql_update o t = t.
Proof.
  intros Hnd Hin. unfold sql_update.
  destruct (pk o) as [k|] eqn:Hk; [|reflexivity].
  rewrite <- (map_id t) at 2. apply map_ext_in.
  intros r Hr. destruct (has_pk k r) eqn:Hr'; [|reflexivity].
  apply (same_pk_same_row t); try assumption.
  rewrite (has_pk_true k r Hr'). exact Hk.
Qed.

Lemma flush_unchanged (l t : list R) :
  NoDup (map pk t) -> incl l t ->
  fold_left (fun t o => sql_update o t) l t = t.
Proof.
  intros Hnd. induction l as [|o l IH]; intro Hincl; simpl; [reflexivity|].
  rewrite sql_update_same; [|exact Hnd|apply Hincl; left; reflexivity].
  apply IH. intros x Hx. apply Hincl. right. exact Hx.
Qed.
End Numbered.

Section Reload.
Import Models Orm Processor.

Fixpoint linked_from (k : Z) (statistics : list OpeningStatistic)
  : list OpeningStatistic :=
  match statistics with
  | [] => []
  | s :: rest => set_opening_id (Some k) s :: linked_from (k + 1) rest
  end.

Lemma linked_from_fresh (statistics : list OpeningStatistic) (k : Z) :
  Forall (fun s => st_id s = None) statistics ->
  Forall (fun s => pk s = None) (linked_from k statistics).
Proof.
  intro Hall. revert k.
  induction Hall as [|s rest Hs _ IH]; intro k; simpl; constructor.
  - exact Hs.
  - apply IH.
Qed.

Lemma link_statistics_enough (statistics : list OpeningStatistic)
      (news : list Opening) (k : Z) (i : nat) (session : Session) :
  (i + List.length statistics <= List.length news)%nat ->
  link_statistics i statistics (numbered k news) session
  = Ok (linked_from (k + Z.of_nat i) statistics) session.
Proof.
  revert i. induction statistics as [|s rest IH]; intros i Hlen; simpl.
  - reflexivity.
  - simpl in Hlen.
    destruct (nth_error (numbered k news) i) as [o|] eqn:Hnth.
    + unfold bind. rewrite IH by lia.
      pose proof (nth_error_numbered (H := Row_Opening) (fun _ _ => eq_refl) news k i Hnth) as Hk.
      simpl in Hk. unfold ret. rewrite Hk.
      replace (k + Z.of_nat (S i)) with (k + Z.of_nat i + 1) by lia.
      reflexivity.
    + apply nth_error_None in Hnth. rewrite numbered_length in Hnth. lia.
Qed.

Lemma link_statistics_short (statistics : list OpeningStatistic)
      (stored_openings : list Opening) (i : nat) (session : Session) :
  (i <= List.length stored_openings)%nat ->
  (List.length stored_openings < i + List.length statistics)%nat ->
  link_statistics i statistics stored_openings session
  = Raise index_error session.
Proof.
  revert i. induction statistics as [|s rest IH]; intros i Hi Hlen; simpl in *.
  - lia.
  - destruct (nth_error stored_openings i) as [o|] eqn:Hnth; [|reflexivity].
    assert (i < List.length stored_openings)%nat
      by (apply nth_error_Some; congruence).
    unfold bind. rewrite IH by lia. reflexivity.
Qed.

Definition log_finished (key started finished : Z) (n_openings n_statistics : Z)
  : DataUpdateLog :=
  {| log_id := Some key; operation_type := "initial_load";
     status := "success";
     openings_processed := n_openings; statistics_updated := n_statistics;
     started_at := started; completed_at := Some finished;
     duration_seconds := Some (finished - started); error_message := None |}.

Local Arguments next_pk : simpl never.
Local Arguments sql_update : simpl never.
Local Arguments numbered : simpl never.

(** A load of new objects with at least as many openings as statistics,
    step by step. *)
Lemma save_to_database_fresh
        (utcnow : nat -> Z) (new_openings : list Opening)
        (new_statistics : list OpeningStatistic) (db : Db) :
  Forall (fun o => id o = None) new_openings ->
  Forall (fun s => st_id s = None) new_statistics ->
  (List.length new_statistics <= List.length new_openings)%nat ->
  save_to_database no_failure utcnow new_openings new_statistics db
  = (Returned true,
     {| openings := numbered 1 new_openings;
        statistics := numbered 1 (linked_from 1 new_statistics);
        update_logs :=
          update_logs db
          ++ [log_finished (next_pk (update_logs db)) (utcnow 0%nat) (utcnow 5%nat)
                           (Py.len new_openings) (Py.len new_statistics)];
        tier_list_entries := tier_list_entries db |}).
Proof.
  intros Hopenings Hstatistics Hlen.
  destruct db as [os ss ls es].
  unfold save_to_database, try_except. cbn.
  fold (log_in_progress (next_pk ls) (utcnow 0%nat)).
  rewrite log_written_back.
  unfold bind at 1. unfold flush, flush_tables, no_failure. cbn.
  rewrite log_written_back.
  unfold flush_table at 1. cbn.
  rewrite (sql_insert_all_fresh (H := Row_Opening) (fun _ _ => eq_refl) (fun _ _ => eq_refl) _ _ Hopenings).
  cbn.
  replace (next_pk (@nil Opening)) with 1 by reflexivity.
  unfold bind at 1. rewrite link_statistics_enough by lia.
  cbn.
  unfold bind at 1. unfold commit, bind, flush, flush_tables. cbn.
  unfold flush_table at 1. cbn.
  rewrite (sql_insert_all_fresh (H := Row_OpeningStatistic)
             (fun _ _ => eq_refl) (fun _ _ => eq_refl) _ _
             (linked_from_fresh 1 Hstatistics)).
  rewrite (flush_unchanged (H := Row_Opening)
             (numbered_keys_distinct (H := Row_Opening) (fun _ _ => eq_refl) new_openings 1)
             (incl_refl _)).
  rewrite (sql_update_last (H := Row_DataUpdateLog)) by reflexivity.
  cbn.
  replace (next_pk (@nil OpeningStatistic)) with 1 by reflexivity.
  reflexivity.
Qed.

(** X5.  A load of new objects with at least as many openings as
    statistics, no round trip failing, returns True whatever was stored
    before.  The openings table is then exactly the new openings, keyed
    1, 2, ... in list order; the statistics table is the new statistics,
    keyed 1, 2, ..., the i-th linked to opening i; the log row of the run is
    marked success with both counts and its duration; the tier list entries
    are untouched, so an entry keeps its opening key across the reload. *)
Theorem save_to_database_loads
        (utcnow : nat -> Z) (new_openings : list Opening)
        (new_statistics : list OpeningStatistic) (db : Db) :
  Forall (fun o => id o = None) new_openings ->
  Forall (fun s => st_id s = None) new_statistics ->
  (List.length new_statistics <= List.length new_openings)%nat ->
  save_to_database no_failure utcnow new_openings new_statistics db
  = (Returned true,
     {| openings := numbered 1 new_openings;
        statistics := numbered 1 (linked_from 1 new_statistics);
        update_logs :=
          update_logs db
          ++ [log_finished (next_pk (update_logs db)) (utcnow 0%nat) (utcnow 5%nat)
                           (Py.len new_openings) (Py.len new_statistics)];
        tier_list_entries := tier_list_entries db |}).
Proof. apply save_to_database_fresh. Qed.

Definition log_failed (key started finished : Z) (msg : string) : DataUpdateLog :=
  {| log_id := Some key; operation_type := "initial_load";
     status := "error";
     openings_processed := 0; statistics_updated := 0;
     started_at := started; completed_at := Some finished;
     duration_seconds := None; error_message := Some msg |}.

(** X6.  With more statistics than openings the linking loop runs off
    the end of [openings] for every input: the call returns False, the old
    snapshot is gone, the new openings are committed without a single
    statistic, and the log row is marked error with the IndexError text. *)
Theorem save_to_database_too_many_statistics
        (utcnow : nat -> Z) (new_openings : list Opening)
        (new_statistics : list OpeningStatistic) (db : Db) :
  Forall (fun o => id o = None) new_openings ->
  (List.length new_openings < List.length new_statistics)%nat ->
  save_to_database no_failure utcnow new_openings new_statistics db
  = (Returned false,
     {| openings := numbered 1 new_openings;
        statistics := [];
        update_logs :=
          update_logs db
          ++ [log_failed (next_pk (update_logs db)) (utcnow 0%nat) (utcnow 5%nat)
                         index_error];
        tier_list_entries := tier_list_entries db |}).
Proof.
  intros Hopenings Hlen.
  destruct db as [os ss ls es].
  unfold save_to_database, try_except. cbn.
  fold (log_in_progress (next_pk ls) (utcnow 0%nat)).
  rewrite log_written_back.
  unfold bind at 1. unfold flush, flush_tables, no_failure. cbn.
  rewrite log_written_back.
  unfold flush_table at 1. cbn.
  rewrite (sql_insert_all_fresh (H := Row_Opening) (fun _ _ => eq_refl) (fun _ _ => eq_refl) _ _ Hopenings).
  cbn.
  replace (next_pk (@nil Opening)) with 1 by reflexivity.
  unfold bind at 1. rewrite link_statistics_short
    by (rewrite ?numbered_length; simpl; lia).
  cbn.
  rewrite (flush_unchanged (H := Row_Opening)
             (numbered_keys_distinct (H := Row_Opening) (fun _ _ => eq_refl) new_openings 1)
             (incl_refl _)).
  rewrite (sql_update_last (H := Row_DataUpdateLog)) by reflexivity.
  reflexivity.
Qed.
End Reload.

Section Positions.
Import Models Orm.

(** The keys and ranks of a load of [n] records: 1, 2, ..., n. *)
Definition positions (n : nat) : list Z := map Z.of_nat (seq 1 n).

Lemma numbered_pks (R : Type) `{Row R} (news : list R) :
  (forall (k : Z) (r : R), pk (with_pk k r) = Some k) ->
  forall a : nat,
    map pk (numbered (Z.of_nat a) news)
    = map (fun n => Some (Z.of_nat n)) (seq a (List.length news)).
Proof.
  intro Hpk. induction news as [|o rest IH]; intro a; simpl; [reflexivity|].
  rewrite Hpk. f_equal.
  replace (Z.of_nat a + 1) with (Z.of_nat (S a)) by lia. apply IH.
Qed.

Lemma numbered_map (R B : Type) `{Row R} (f : R -> B) (news : list R) :
  (forall (k : Z) (r : R), f (with_pk k r) = f r) ->
  forall k : Z, map f (numbered k news) = map f news.
Proof.
  intro Hf. induction news as [|o rest IH]; intro k; simpl; [reflexivity|].
  rewrite Hf, IH. reflexivity.
Qed.

Lemma linked_from_ids (statistics : list OpeningStatistic) (a : nat) :
  map opening_id (linked_from (Z.of_nat a) statistics)
  = map (fun n => Some (Z.of_nat n)) (seq a (List.length statistics)).
Proof.
  revert a. induction statistics as [|s rest IH]; intro a; simpl; [reflexivity|].
  f_equal. replace (Z.of_nat a + 1) with (Z.of_nat (S a)) by lia. apply IH.
Qed.

Lemma linked_from_map (B : Type) (f : OpeningStatistic -> B)
      (statistics : list OpeningStatistic) :
  (forall k s, f (set_opening_id k s) = f s) ->
  forall k : Z, map f (linked_from k statistics) = map f statistics.
Proof.
  intro Hf. induction statistics as [|s rest IH]; intro k; simpl; [reflexivity|].
  rewrite Hf, IH. reflexivity.
Qed.

Lemma linked_from_length (statistics : list OpeningStatistic) (k : Z) :
  List.length (linked_from k statistics) = List.length statistics.
Proof.
  revert k. induction statistics as [|s rest IH]; intro k; simpl; [reflexivity|].
  rewrite IH. reflexivity.
Qed.
End Positions.

Section Files.
Import Models Orm Processor Loader.

(** The timestamp of a record can be read: absent, or well-formed. *)
Definition readable (data : RawOpening) : Prop := raw_collected_at data <> Some None.

Lemma process_from_readable (clock : Z -> Z) (raw_data : list RawOpening) :
  Forall readable raw_data ->
  forall a : nat,
  exists openings statistics,
    process_from clock (Z.of_nat a) raw_data = Some (openings, statistics)
    /\ Forall (fun o => id o = None) openings
    /\ Forall (fun s => st_id s = None) statistics
    /\ List.length openings = List.length raw_data
    /\ List.length statistics = List.length raw_data
    /\ map popularity_rank openings = map Z.of_nat (seq a (List.length raw_data))
    /\ map is_active openings = map (fun _ => true) raw_data
    /\ map Models.total_games statistics
       = map (fun data => get (raw_total_games data) 0) raw_data
    /\ map Models.rating_range statistics = map (fun _ => Some "all") raw_data
    /\ map Models.time_control statistics = map (fun _ => Some "all") raw_data.
Proof.
  induction 1 as [|data rest Hdata _ IH]; intro a.
  - exists [], []. simpl. repeat split; constructor.
  - destruct (IH (S a)) as (os & ss & Hrun & Hos & Hss & Hlo & Hls & Hranks & Hact & Hgames & Hrr & Htc).
    simpl. unfold process_record.
    destruct (get (raw_collected_at data) (Some (clock (Z.of_nat a)))) as [collected|] eqn:Hat.
    + replace (Z.of_nat a + 1) with (Z.of_nat (S a)) by lia.
      rewrite Hrun. eexists _, _. split; [reflexivity|].
      simpl. rewrite Hlo, Hls, Hranks, Hact, Hgames, Hrr, Htc.
      repeat split; try reflexivity; constructor; try assumption; reflexivity.
    + exfalso. unfold readable in Hdata. unfold get in Hat.
      destruct (raw_collected_at data) as [[t|]|]; congruence.
Qed.

Lemma process_from_unreadable (clock : Z -> Z) (raw_data : list RawOpening) :
  Exists (fun data => raw_collected_at data = Some None) raw_data ->
  forall i : Z, process_from clock i raw_data = None.
Proof.
  induction 1 as [data rest Hdata|data rest _ IH]; intro i; simpl.
  - unfold process_record. rewrite Hdata. reflexivity.
  - rewrite IH. destruct (process_record (clock i) i data) as [[o s]|]; reflexivity.
Qed.

(** X7.  [process_file] refuses a file it cannot read as JSON, or one with a
    record whose timestamp is malformed, before it touches the database:
    the answer is False, the stored snapshot stays, and no log row is
    written. *)
Theorem process_file_rejects
        (clock : Z -> Z) (plan : nat -> option string) (utcnow : nat -> Z)
        (file : option (list RawOpening)) (db : Db) :
  (file = None
   \/ exists raw_data, file = Some raw_data
        /\ Exists (fun data => raw_collected_at data = Some None) raw_data) ->
  process_file clock plan utcnow file db = (false, db).
Proof.
  intros [->|(raw_data & -> & Hbad)]; [reflexivity|].
  unfold process_file, process_opening_data.
  rewrite process_from_unreadable by exact Hbad. reflexivity.
Qed.

(** A readable file, step by step. *)
Lemma process_file_readable
        (clock : Z -> Z) (utcnow : nat -> Z)
        (raw_data : list RawOpening) (db : Db) :
  Forall readable raw_data ->
  let final := process_file clock no_failure utcnow (Some raw_data) db in
  let n := List.length raw_data in
  fst final = true
  /\ map id (openings (snd final)) = map Some (positions n)
  /\ map popularity_rank (openings (snd final)) = positions n
  /\ map st_id (statistics (snd final)) = map Some (positions n)
  /\ map opening_id (statistics (snd final)) = map Some (positions n)
  /\ map Models.total_games (statistics (snd final))
     = map (fun data => get (raw_total_games data) 0) raw_data
  /\ Forall (fun s => Models.rating_range s = Some "all"
                      /\ Models.time_control s = Some "all")
            (statistics (snd final))
  /\ map status (update_logs (snd final))
     = map status (update_logs db) ++ ["success"]
  /\ tier_list_entries (snd final) = tier_list_entries db.
Proof.
  intros Hread final n.
  destruct (process_from_readable clock Hread 1)
    as (os & ss & Hrun & Hos & Hss & Hlo & Hls & Hranks & Hact & Hgames & Hrr & Htc).
  change (Z.of_nat 1) with 1 in Hrun.
  unfold final, process_file, process_opening_data. rewrite Hrun.
  rewrite save_to_database_fresh by (try assumption; lia).
  cbn [fst snd openings statistics update_logs tier_list_entries].
  unfold positions, n. rewrite !map_map.
  repeat split.
  - pose proof (numbered_pks (H := Row_Opening) os (fun _ _ => eq_refl) 1) as Hk.
    cbn [pk Row_Opening] in Hk. change (Z.of_nat 1) with 1 in Hk.
    rewrite Hk, Hlo. reflexivity.
  - rewrite (numbered_map (H := Row_Opening) popularity_rank os (fun _ _ => eq_refl)).
    exact Hranks.
  - pose proof (numbered_pks (H := Row_OpeningStatistic) (linked_from 1 ss)
                  (fun _ _ => eq_refl) 1) as Hk.
    cbn [pk Row_OpeningStatistic] in Hk. change (Z.of_nat 1) with 1 in Hk.
    rewrite Hk, linked_from_length, Hls. reflexivity.
  - rewrite (numbered_map (H := Row_OpeningStatistic) opening_id _ (fun _ _ => eq_refl)).
    change 1 with (Z.of_nat 1).
    rewrite linked_from_ids, Hls. reflexivity.
  - rewrite (numbered_map (H := Row_OpeningStatistic) Models.total_games _ (fun _ _ => eq_refl)).
    rewrite (linked_from_map Models.total_games ss (fun _ _ => eq_refl)).
    exact Hgames.
  - apply Forall_forall. intros s Hs.
    split.
    + assert (Hin : In (Models.rating_range s)
                       (map Models.rating_range (numbered 1 (linked_from 1 ss))))
        by (apply in_map, Hs).
      rewrite (numbered_map (H := Row_OpeningStatistic) Models.rating_range _ (fun _ _ => eq_refl)) in Hin.
      rewrite (linked_from_map Models.rating_range ss (fun _ _ => eq_refl)), Hrr in Hin.
      apply in_map_iff in Hin. destruct Hin as (d & Hd & _). congruence.
    + assert (Hin : In (Models.time_control s)
                       (map Models.time_control (numbered 1 (linked_from 1 ss))))
        by (apply in_map, Hs).
      rewrite (numbered_map (H := Row_OpeningStatistic) Models.time_control _ (fun _ _ => eq_refl)) in Hin.
      rewrite (linked_from_map Models.time_control ss (fun _ _ => eq_refl)), Htc in Hin.
      apply in_map_iff in Hin. destruct Hin as (d & Hd & _). congruence.
  - rewrite map_app. reflexivity.
Qed.

(** X8.  A readable file is loaded whole.  When no round trip fails the
    answer is True; the stored openings are the records of the file in file
    order, with keys and popularity ranks 1, 2, ..., n; the stored
    statistics are as many, the i-th with key i and linked to opening i, all
    in the context "all"/"all"; the tier list entries are kept as they
    were. *)
Theorem process_file_loads
        (clock : Z -> Z) (utcnow : nat -> Z)
        (raw_data : list RawOpening) (db : Db) :
  Forall readable raw_data ->
  let final := process_file clock no_failure utcnow (Some raw_data) db in
  let n := List.length raw_data in
  fst final = true
  /\ map id (openings (snd final)) = map Some (positions n)
  /\ map popularity_rank (openings (snd final)) = positions n
  /\ map st_id (statistics (snd final)) = map Some (positions n)
  /\ map opening_id (statistics (snd final)) = map Some (positions n)
  /\ map Models.total_games (statistics (snd final))
     = map (fun data => get (raw_total_games data) 0) raw_data
  /\ Forall (fun s => Models.rating_range s = Some "all"
                      /\ Models.time_control s = Some "all")
            (statistics (snd final))
  /\ map status (update_logs (snd final))
     = map status (update_logs db) ++ ["success"]
  /\ tier_list_entries (snd final) = tier_list_entries db.
Proof. apply process_file_readable. Qed.
End Files.


Section FullUpdate.
Import Models Orm Loader Updater.
Context {F : Type} `{PyFloat F}.
Variable denote : F -> Q.

Lemma to_json_readable (lines : list (Collector.OpeningData (F := F))) :
  Forall readable (map (to_json denote) lines).
Proof.
  apply Forall_forall. intros data Hin.
  apply in_map_iff in Hin. destruct Hin as (line & <- & _).
  unfold readable. simpl. discriminate.
Qed.

Lemma discovery_at_most (P : Collector.Provider) (max_openings : Z) (n : nat) :
  0 <= max_openings ->
  (List.length (fst (Collector.discover_openings_tree (F := F) P max_openings n))
   <= Z.to_nat max_openings)%nat.
Proof.
  intro Hmax. unfold Collector.discover_openings_tree, Collector.bind.
  destruct (Collector.get_popular_openings P 8 n) as [first_moves n1].
  destruct (Collector.explore_first_moves P max_openings (Py.slice_to 8 first_moves) [] n1)
    as [discovered n2].
  simpl. apply slice_to_short, Hmax.
Qed.

Lemma discovery_above_floor (P : Collector.Provider) (max_openings : Z) (n : nat) :
  Forall (fun line => 100 <= Collector.total_games line)
         (fst (Collector.discover_openings_tree (F := F) P max_openings n)).
Proof.
  apply discovery_invariant.
  intros mvs st k k' now _ Hfloor. exact Hfloor.
Qed.

(** X10.  A run that starts, finds lines and writes its file replaces the
    snapshot by what it found, when no round trip to the database fails:
    between 1 and 50 openings, keyed and ranked 1, 2, ... in the order the
    engine returned them, each with one statistic of at least 100 games
    linked to it.  The answer is True unless the temporary file cannot be
    removed; the database is replaced either way. *)
Theorem run_full_update_loads
        (host : Host) (P : Collector.Provider) (clock : Z -> Z)
        (utcnow : nat -> Z) (db : Db) :
  components_ok host = true ->
  write_ok host = true ->
  fst (Collector.discover_openings_tree (F := F) P 50 0%nat) <> [] ->
  let lines := fst (Collector.discover_openings_tree (F := F) P 50 0%nat) in
  let final := run_full_update denote host P clock no_failure utcnow db in
  let n := List.length lines in
  fst final = remove_ok host
  /\ (1 <= n <= 50)%nat
  /\ map id (openings (snd final)) = map Some (positions n)
  /\ map popularity_rank (openings (snd final)) = positions n
  /\ map opening_id (statistics (snd final)) = map Some (positions n)
  /\ map Models.total_games (statistics (snd final))
     = map Collector.total_games lines
  /\ Forall (fun s => 100 <= Models.total_games s) (statistics (snd final)).
Proof.
  intros Hc Hw Hfound lines final n.
  pose proof (process_file_readable clock utcnow db
                (to_json_readable lines)) as Hload.
  cbv zeta in Hload. rewrite length_map in Hload. fold n in Hload.
  destruct Hload as (Hok & Hids & Hranks & _ & Hlinks & Hgames & _).
  assert (Hfinal : final
                   = (remove_ok host,
                      snd (process_file clock no_failure utcnow
                             (Some (map (to_json denote) lines)) db))).
  { unfold final, run_full_update. rewrite Hc, Hw. cbn [negb].
    change (fst (Collector.discover_openings_tree P 50 0%nat)) with lines in Hfound |- *.
    clearbody lines. destruct lines as [|line rest]; [congruence|].
    destruct (process_file clock no_failure utcnow
                (Some (map (to_json denote) (line :: rest))) db) as [b db'].
    cbn [fst] in Hok. subst b. reflexivity. }
  rewrite Hfinal. cbn [fst snd].
  rewrite map_map in Hgames. cbn [to_json raw_total_games get] in Hgames.
  repeat split; try assumption.
  - unfold n. change (lines <> []) in Hfound.
    destruct lines; [congruence|simpl; lia].
  - assert (Hmost : (List.length lines <= Z.to_nat 50)%nat)
      by (apply discovery_at_most; lia).
    unfold n. exact Hmost.
  - rewrite Forall_forall. intros s Hs.
    assert (Hin : In (Models.total_games s)
                     (map Collector.total_games lines)).
    { match type of Hgames with ?l = _ =>
        assert (Hl : In (Models.total_games s) l) by (apply in_map, Hs) end.
      rewrite Hgames in Hl. exact Hl. }
    apply in_map_iff in Hin. destruct Hin as (line & <- & Hline).
    assert (Hfloor : Forall (fun line => 100 <= Collector.total_games line) lines)
      by apply discovery_above_floor.
    rewrite Forall_forall in Hfloor. apply Hfloor, Hline.
Qed.
End FullUpdate.

Section LoadWitnesses.
Import Models Orm Processor Loader Updater.

Lemma save_to_database_loads_witness :
  save_to_database no_failure wall_clock
    [sample_opening "Sicilian Defense"; sample_opening "French Defense"]
    [sample_statistic 200] prior_snapshot
  = (Returned true,
     {| openings := numbered 1 [sample_opening "Sicilian Defense";
                                sample_opening "French Defense"];
        statistics := numbered 1 (linked_from 1 [sample_statistic 200]);
        update_logs :=
          [log_finished 1 (wall_clock 0%nat) (wall_clock 5%nat) 2 1];
        tier_list_entries := [] |}).
Proof.
  apply save_to_database_loads.
  - repeat constructor.
  - repeat constructor.
  - simpl. lia.
Defined.

Lemma save_to_database_too_many_statistics_witness :
  save_to_database no_failure wall_clock
    [sample_opening "Sicilian Defense"]
    [sample_statistic 200; sample_statistic 300] prior_snapshot
  = (Returned false,
     {| openings := numbered 1 [sample_opening "Sicilian Defense"];
        statistics := [];
        update_logs :=
          [log_failed 1 (wall_clock 0%nat) (wall_clock 5%nat) index_error];
        tier_list_entries := [] |}).
Proof.
  apply save_to_database_too_many_statistics.
  - repeat constructor.
  - simpl. lia.
Defined.

(** A record as the collector writes it, and one whose timestamp is not
    ISO-8601. *)
Definition sample_record (stamp : option (option Z)) : RawOpening :=
  {| raw_moves_sequence := Some ["e4"; "c5"];
     raw_eco_code := Some "B20";
     raw_opening_name := Some "Sicilian Defense";
     raw_white_wins := Some 90; raw_black_wins := Some 80;
     raw_draws := Some 30; raw_total_games := Some 200;
     raw_win_rate_white := Some (45 # 100);
     raw_win_rate_black := Some (40 # 100);
     raw_draw_rate := Some (15 # 100);
     raw_performance_score := Some (45 # 1);
     raw_collected_at := stamp |}.

Lemma process_file_rejects_witness :
  process_file (fun i => 2000 + i) no_failure wall_clock
    (Some [sample_record (Some (Some 7)); sample_record (Some None)])
    prior_snapshot
  = (false, prior_snapshot).
Proof.
  apply process_file_rejects. right.
  eexists. split; [reflexivity|].
  apply Exists_cons_tl, Exists_cons_hd. reflexivity.
Defined.

Lemma process_file_loads_witness :
  let final := process_file (fun i => 2000 + i) no_failure wall_clock
                 (Some [sample_record (Some (Some 7)); sample_record None])
                 prior_snapshot in
  fst final = true
  /\ map id (openings (snd final)) = [Some 1; Some 2]
  /\ map popularity_rank (openings (snd final)) = [1; 2]
  /\ map opening_id (statistics (snd final)) = [Some 1; Some 2].
Proof.
  assert (Hread : Forall readable
                    [sample_record (Some (Some 7)); sample_record None])
    by (repeat constructor; discriminate).
  destruct (process_file_loads (fun i => 2000 + i) wall_clock prior_snapshot Hread)
    as (Hok & Hids & Hranks & _ & Hlinks & _).
  repeat split; assumption.
Defined.

Definition ready_host : Host :=
  {| components_ok := true; write_ok := true; remove_ok := true |}.

Lemma run_full_update_loads_witness :
  let final := run_full_update (F := Q) (fun q => q) ready_host sample_provider
                 (fun i => 2000 + i) no_failure wall_clock prior_snapshot in
  fst final = true
  /\ Forall (fun s => 100 <= Models.total_games s) (statistics (snd final)).
Proof.
  assert (Hfound : fst (Collector.discover_openings_tree (F := Q)
                          sample_provider 50 0%nat) <> [])
    by (vm_compute; discriminate).
  destruct (run_full_update_loads (F := Q) (fun q => q) ready_host sample_provider
              (fun i => 2000 + i) wall_clock prior_snapshot
              eq_refl eq_refl Hfound)
    as (Hok & _ & _ & _ & _ & _ & Hfloor).
  split; [exact Hok|exact Hfloor].
Defined.
End LoadWitnesses.

(* ===================================================================== *)
(** ** Further properties of the read endpoints *)
(* ===================================================================== *)

Section Comparisons.
Import Api.

Lemma eq_param_Z_spec (col : option Z) (k : Z) :
  eq_param_Z col (Some k) = true <-> col = Some k.
Proof.
  destruct col as [a|]; simpl.
  - rewrite Z.eqb_eq. split; congruence.
  - split; discriminate.
Qed.

Lemma eq_param_str_spec (col param : option string) :
  eq_param_str col param = true <-> col = param.
Proof.
  destruct col as [a|], param as [b|]; simpl;
    try (split; [discriminate|congruence]); try tauto.
  rewrite String.eqb_eq. split; congruence.
Qed.

Lemma filter_filter (A : Type) (p q : A -> bool) (l : list A) :
  filter p (filter q l) = filter (fun x => q x && p x) l.
Proof.
  induction l as [|x r IH]; simpl; [reflexivity|].
  destruct (q x); simpl; [destruct (p x)|]; rewrite IH; reflexivity.
Qed.
End Comparisons.

Section SortedHead.
Variable A : Type.
Variable before : A -> A -> bool.
Hypothesis before_asym : forall x y, before x y = true -> before y x = false.
Hypothesis in_order_trans :
  forall x y z, in_order before x y -> in_order before y z -> in_order before x z.

(** The first element of a sorted list may stand in front of every other. *)
Lemma sort_head (l : list A) :
  match hd_error (Py.sort before l) with
  | None => l = []
  | Some h => In h l /\ forall x, In x l -> in_order before h x
  end.
Proof.
  pose proof (sort_sorted before before_asym l) as Hsorted.
  pose proof (sort_perm before l) as Hperm.
  destruct (Py.sort before l) as [|h rest] eqn:Hsort; simpl.
  - apply Permutation_nil. apply Permutation_sym. exact Hperm.
  - split.
    + apply (Permutation_in h (Permutation_sym Hperm)). left. reflexivity.
    + intros x Hx. apply (Permutation_in x Hperm) in Hx.
      apply Sorted_StronglySorted in Hsorted; [|exact in_order_trans].
      apply StronglySorted_inv in Hsorted. destruct Hsorted as [_ Hall].
      destruct Hx as [<-|Hx].
      * unfold in_order. destruct (before h h) eqn:Hb; [|reflexivity].
        rewrite (before_asym Hb) in Hb. discriminate.
      * rewrite Forall_forall in Hall. apply Hall, Hx.
Qed.
End SortedHead.

Section Lookups.
Import Models Orm Api Queries.

(** The rows GET /openings/{id}/statistics selects. *)
Definition selected (opening_id : Z) (rating_range time_control : option string)
           (s : OpeningStatistic) : bool :=
  eq_param_Z (Models.opening_id s) (Some opening_id)
  && (if Py.truthy rating_range
      then eq_param_str (Models.rating_range s) rating_range else true)
  && (if Py.truthy time_control
      then eq_param_str (Models.time_control s) time_control else true).

Definition newest_first (a b : OpeningStatistic) : Prop :=
  collected_at b <= collected_at a.

(** X12.  GET /openings/{id}/statistics returns the statistics of that
    opening that match the filters given, each as often as it is stored and
    no other row, newest first.  A filter that is absent or empty selects
    nothing away; the text "all" is a filter like any other here. *)
Theorem get_opening_statistics_answers
        (db : Db) (k : Z) (rating_range time_control : option string) :
  Permutation (get_opening_statistics db k rating_range time_control)
              (filter (selected k rating_range time_control) (statistics db))
  /\ Sorted newest_first (get_opening_statistics db k rating_range time_control)
  /\ (forall s, In s (get_opening_statistics db k rating_range time_control) ->
                opening_id s = Some k
                /\ (Py.truthy rating_range = true -> Models.rating_range s = rating_range)
                /\ (Py.truthy time_control = true -> Models.time_control s = time_control)).
Proof.
  assert (Hquery :
    get_opening_statistics db k rating_range time_control
    = order_by_desc (fun s => VInt (collected_at s))
        (filter (selected k rating_range time_control) (statistics db))).
  { unfold get_opening_statistics, selected. f_equal.
    destruct (Py.truthy rating_range), (Py.truthy time_control);
      rewrite ?filter_filter; apply filter_ext; intro s;
      rewrite ?andb_true_r, ?andb_assoc; reflexivity. }
  rewrite Hquery. unfold order_by_desc. split; [|split].
  - apply Permutation_sym, sort_perm.
  - eapply sorted_weaken; [|apply sort_sorted].
    + intros a b Hab. unfold in_order in Hab. simpl in Hab.
      unfold newest_first. apply Z.ltb_ge in Hab. exact Hab.
    + intros x y Hxy. simpl in *. apply Z.ltb_lt in Hxy. apply Z.ltb_ge. lia.
  - intros s Hs. apply sort_In in Hs. apply filter_In in Hs.
    destruct Hs as [_ Hsel]. unfold selected in Hsel.
    apply andb_prop in Hsel. destruct Hsel as [Hsel Htc].
    apply andb_prop in Hsel. destruct Hsel as [Hid Hrr].
    split; [apply eq_param_Z_spec, Hid|]. split; intro Htruthy.
    + rewrite Htruthy in Hrr. apply eq_param_str_spec, Hrr.
    + rewrite Htruthy in Htc. apply eq_param_str_spec, Htc.
Qed.
End Lookups.

Section Summary.
Import Models Orm Api Queries.

Lemma truthy_text (r : string) : Py.truthy (Some r) = true <-> r <> "".
Proof.
  destruct r; simpl; split; intro Hr; try congruence; try discriminate.
Qed.

Lemma distinct_values_In (values : list (option string)) (r : string) :
  In r (distinct_values values) <-> r <> "" /\ In (Some r) values.
Proof.
  unfold distinct_values. rewrite in_flat_map. split.
  - intros (v & Hv & Hr). apply nodup_In in Hv.
    destruct v as [text|]; [|contradiction].
    destruct (Py.truthy (Some text)) eqn:Ht; [|contradiction].
    destruct Hr as [<-|[]]. split; [apply truthy_text, Ht|exact Hv].
  - intros [Hr Hv]. exists (Some r). split; [apply nodup_In, Hv|].
    apply truthy_text in Hr. rewrite Hr. left. reflexivity.
Qed.

Lemma distinct_values_NoDup (values : list (option string)) :
  NoDup (distinct_values values).
Proof.
  unfold distinct_values.
  pose proof (NoDup_nodup option_string_dec values) as Hnd.
  induction Hnd as [|v l Hv Hnd IH]; simpl; [constructor|].
  destruct v as [text|]; [|exact IH].
  destruct (Py.truthy (Some text)); [|exact IH].
  simpl. constructor; [|exact IH].
  intro Hin. apply in_flat_map in Hin. destruct Hin as (w & Hw & Hin).
  destruct w as [text'|]; [|contradiction].
  destruct (Py.truthy (Some text')); [|contradiction].
  destruct Hin as [->|[]]. contradiction.
Qed.

Lemma opt_int_ltb (a b : option Z) :
  sql_ltb (opt_int a) (opt_int b)
  = match a, b with
    | None, Some _ => true
    | Some x, Some y => x <? y
    | _, None => false
    end.
Proof. destruct a, b; reflexivity. Qed.

(** Some successful run was completed at [t]. *)
Definition succeeded_at (db : Db) (t : Z) : Prop :=
  exists l, In l (update_logs db)
            /\ status l = "success" /\ completed_at l = Some t.

(** X13.  The summary names as [last_updated] the latest completion time
    of a successful run, and nothing when no successful run has one; a
    run that failed or is in progress never counts.  The two option lists
    hold each stored value that is neither NULL nor empty exactly once. *)
Theorem get_statistics_summary_answers (db : Db) :
  (forall t, last_updated (get_statistics_summary db) = Some t ->
             succeeded_at db t /\ forall t', succeeded_at db t' -> t' <= t)
  /\ (last_updated (get_statistics_summary db) = None ->
      forall t, ~ succeeded_at db t)
  /\ (forall r, In r (available_rating_ranges (get_statistics_summary db))
                <-> r <> "" /\ exists s, In s (statistics db)
                                         /\ Models.rating_range s = Some r)
  /\ (forall c, In c (available_time_controls (get_statistics_summary db))
                <-> c <> "" /\ exists s, In s (statistics db)
                                         /\ Models.time_control s = Some c)
  /\ NoDup (available_rating_ranges (get_statistics_summary db))
  /\ NoDup (available_time_controls (get_statistics_summary db)).
Proof.
  assert (Hhead :
    match hd_error
            (order_by_desc (fun l => opt_int (completed_at l))
               (filter (fun l => String.eqb (status l) "success") (update_logs db)))
    with
    | None => filter (fun l => String.eqb (status l) "success") (update_logs db) = []
    | Some h =>
        In h (filter (fun l => String.eqb (status l) "success") (update_logs db))
        /\ forall x,
            In x (filter (fun l => String.eqb (status l) "success") (update_logs db)) ->
            sql_ltb (opt_int (completed_at h)) (opt_int (completed_at x)) = false
    end).
  { unfold order_by_desc. apply sort_head.
    - intros x y. rewrite !opt_int_ltb.
      destruct (completed_at x), (completed_at y); try congruence.
      rewrite Z.ltb_lt, Z.ltb_ge. lia.
    - unfold in_order. intros x y z. rewrite !opt_int_ltb.
      destruct (completed_at x), (completed_at y), (completed_at z);
        try congruence.
      rewrite !Z.ltb_ge. lia. }
  unfold get_statistics_summary.
  cbn [last_updated available_rating_ranges available_time_controls].
  destruct (hd_error _) as [h|] eqn:Hh in Hhead |- *.
  - destruct Hhead as [Hin Hmax]. apply filter_In in Hin.
    destruct Hin as [Hin Hstatus]. apply String.eqb_eq in Hstatus.
    split; [|split].
    + intros t Ht. split.
      * exists h. repeat split; assumption.
      * intros t' (l & Hl & Hsuccess & Hdone).
        assert (Hl' : In l (filter (fun l => String.eqb (status l) "success")
                                   (update_logs db))).
        { apply filter_In. split; [exact Hl|]. apply String.eqb_eq, Hsuccess. }
        specialize (Hmax l Hl'). rewrite opt_int_ltb, Ht, Hdone in Hmax.
        apply Z.ltb_ge in Hmax. exact Hmax.
    + intros Hnone t (l & Hl & Hsuccess & Hdone).
      assert (Hl' : In l (filter (fun l => String.eqb (status l) "success")
                                 (update_logs db))).
      { apply filter_In. split; [exact Hl|]. apply String.eqb_eq, Hsuccess. }
      specialize (Hmax l Hl'). rewrite opt_int_ltb, Hnone, Hdone in Hmax.
      discriminate.
    + split; [|split; [|split]]; try apply distinct_values_NoDup.
      all: intro r; rewrite distinct_values_In, in_map_iff.
      all: split; intros [Hr (s & Hs & Hin')]; (split; [exact Hr|]);
        exists s; tauto.
  - split; [|split].
    + intros t Ht. discriminate.
    + intros _ t (l & Hl & Hsuccess & Hdone).
      assert (Hl' : In l (filter (fun l => String.eqb (status l) "success")
                                 (update_logs db))).
      { apply filter_In. split; [exact Hl|]. apply String.eqb_eq, Hsuccess. }
      rewrite Hhead in Hl'. contradiction.
    + split; [|split; [|split]]; try apply distinct_values_NoDup.
      all: intro r; rewrite distinct_values_In, in_map_iff.
      all: split; intros [Hr (s & Hs & Hin')]; (split; [exact Hr|]);
        exists s; tauto.
Qed.
End Summary.

Section ByColumn.
Import Models Orm Api.
Variable L : Library.

Lemma class_getattr_column (name : string) (c : column) (default : attribute) :
  column_of_name name = Some c -> class_getattr L name default = Column c.
Proof. intro Hc. unfold class_getattr. rewrite Hc. reflexivity. Qed.

Lemma limit_length (A : Type) (n : Z) (l : list A) :
  0 <= n -> Py.len (limit n l) <= n.
Proof.
  intro Hn. unfold limit, Py.len.
  destruct (Z.ltb_spec n 0) as [Hneg|_]; [lia|].
  rewrite length_firstn. lia.
Qed.

Lemma limit_In (A : Type) (n : Z) (l : list A) (x : A) :
  In x (limit n l) -> In x l.
Proof.
  unfold limit. destruct (n <? 0); [tauto|apply firstn_In].
Qed.

Lemma limit_sorted (A : Type) (R : A -> A -> Prop) (n : Z) (l : list A) :
  Sorted R l -> Sorted R (limit n l).
Proof.
  intro Hl. unfold limit. destruct (n <? 0); [exact Hl|apply firstn_sorted, Hl].
Qed.

(** The answer of [get_top_performers] for the rows its query returned,
    when the metric is a column. *)
Definition performer_of (c : column) (r : Opening * OpeningStatistic) : TopPerformer :=
  {| tp_opening := fst r; tp_statistics := snd r;
     metric_value := Scalar (column_value c (snd r)) |}.

Lemma top_performers_of_column (name : string) (c : column)
      (results : list (Opening * OpeningStatistic)) :
  column_of_name name = Some c ->
  top_performers_of L name results = Some (map (performer_of c) results).
Proof.
  intro Hc. induction results as [|[o s] rest IH]; simpl; [reflexivity|].
  unfold instance_getattr. rewrite Hc, IH. reflexivity.
Qed.

(** No value of the metric further down the list is larger. *)
Definition not_below (c : column) (a b : TopPerformer) : Prop :=
  sql_ltb (column_value c (tp_statistics a)) (column_value c (tp_statistics b)) = false.

Lemma sql_ltb_asym (a b : sqlval) : sql_ltb a b = true -> sql_ltb b a = false.
Proof.
  destruct a as [|x|x|x], b as [|y|y|y]; simpl; try congruence.
  - rewrite Z.ltb_lt, Z.ltb_ge. lia.
  - apply Qltb_asym.
  - apply Qltb_asym.
  - apply Qltb_asym.
  - intro Hlt. destruct (String.ltb y x) eqn:Hyx; [|reflexivity].
    unfold String.ltb in *.
    destruct (String.compare x y) eqn:Hxy; try discriminate.
    rewrite String.compare_antisym, Hxy in Hyx. discriminate.
Qed.

(** X14.  For a metric that names a column, GET /statistics/top-performers
    answers without an exception: at most [limit] items when [limit] is not
    negative, each an active opening joined with one of its own statistics
    of at least 100 games, in descending order of that column, and
    [metric_value] is the value of the column in the statistic shown. *)
Theorem top_performers_by_column (db : Db) (limit_ : Z) (name : string) (c : column) :
  column_of_name name = Some c ->
  exists answer,
    get_top_performers L db limit_ name = Body answer
    /\ (0 <= limit_ -> Py.len answer <= limit_)
    /\ Forall (fun item =>
                 In (tp_opening item) (openings db)
                 /\ In (tp_statistics item) (statistics db)
                 /\ opening_id (tp_statistics item) = id (tp_opening item)
                 /\ is_active (tp_opening item) = true
                 /\ 100 <= total_games (tp_statistics item)
                 /\ metric_value item = Scalar (column_value c (tp_statistics item)))
              answer
    /\ Sorted (not_below c) answer.
Proof.
  intro Hc. unfold get_top_performers, top_performers_query.
  rewrite class_getattr_column with (c := c) by exact Hc. cbn [ordered].
  rewrite top_performers_of_column with (c := c) by exact Hc.
  eexists. split; [reflexivity|]. split; [|split].
  - intro Hlimit. unfold Py.len. rewrite length_map. apply limit_length, Hlimit.
  - apply Forall_forall. intros item Hitem.
    apply in_map_iff in Hitem. destruct Hitem as ([o s] & <- & Hrow).
    apply limit_In in Hrow. unfold order_by_desc in Hrow.
    apply sort_In in Hrow. apply filter_In in Hrow.
    destruct Hrow as [Hjoin Hkeep]. apply join_In in Hjoin.
    destruct Hjoin as (Ho & Hs & Hlink).
    apply andb_prop in Hkeep. destruct Hkeep as [Hactive Hgames].
    cbn [fst snd] in *. simpl.
    repeat split; try assumption.
    + unfold eq_join in Hlink.
      destruct (id o) as [x|], (opening_id s) as [y|]; try discriminate.
      apply Z.eqb_eq in Hlink. congruence.
    + unfold Z.geb in Hgames.
      destruct (total_games s ?= 100) eqn:Hcmp; try discriminate;
        [apply Z.compare_eq in Hcmp|apply Z.compare_gt_iff in Hcmp]; lia.
  - apply map_sorted with (R := in_order (fun y x : Opening * OpeningStatistic =>
                                  sql_ltb (column_value c (snd x)) (column_value c (snd y)))).
    + intros x y Hxy. exact Hxy.
    + apply limit_sorted. unfold order_by_desc. apply sort_sorted.
      intros x y. apply sql_ltb_asym.
Qed.

Lemma eq_param_Z_eq (a b : option Z) : eq_param_Z a b = true <-> a = b.
Proof.
  destruct a as [x|], b as [y|]; simpl; try (split; [discriminate|congruence]);
    try tauto.
  rewrite Z.eqb_eq. split; congruence.
Qed.

Lemma unique_spec (l : list Opening) :
  forall seen : list (option Z),
    NoDup (map id (unique seen l))
    /\ (forall o, In o (unique seen l) -> In o l /\ ~ In (id o) seen)
    /\ (List.length (unique seen l) <= List.length l)%nat.
Proof.
  induction l as [|o r IH]; intro seen; simpl.
  - split; [constructor|]. split; [intros o []|lia].
  - destruct (existsb (eq_param_Z (id o)) seen) eqn:Hseen.
    + destruct (IH seen) as (Hnd & Hin & Hlen).
      split; [exact Hnd|]. split; [|lia].
      intros x Hx. destruct (Hin x Hx). tauto.
    + destruct (IH (id o :: seen)) as (Hnd & Hin & Hlen).
      split; [|split; [|simpl; lia]].
      * simpl. constructor; [|exact Hnd].
        intro Hdup. apply in_map_iff in Hdup. destruct Hdup as (x & Hid & Hx).
        destruct (Hin x Hx) as [_ Hnot]. apply Hnot. left. congruence.
      * intros x [<-|Hx].
        -- split; [left; reflexivity|].
           intro Hold.
           assert (existsb (eq_param_Z (id o)) seen = true) as Hyes.
           { apply existsb_exists. exists (id o). split; [exact Hold|].
             apply eq_param_Z_eq. reflexivity. }
           congruence.
        -- destruct (Hin x Hx) as [Hr Hnot]. split; [right; exact Hr|].
           intro Hold. apply Hnot. right. exact Hold.
Qed.

(** X15.  For a sort field that names a column, GET /openings answers
    without an exception and lists no opening twice; with a limit that is
    not negative it lists at most that many; and each opening listed is
    stored and has a statistic of its own that passes every filter given. *)
Theorem get_openings_by_column
        (db : Db) (rating_range time_control : option string) (min_games : Z)
        (name order : string) (limit_ : Z) (c : column) :
  column_of_name name = Some c ->
  exists answer,
    get_openings L db rating_range time_control min_games name order limit_
    = Body answer
    /\ NoDup (map id answer)
    /\ (0 <= limit_ -> Py.len answer <= limit_)
    /\ Forall (fun o =>
                 In o (openings db)
                 /\ exists s,
                      In s (statistics db)
                      /\ opening_id s = id o
                      /\ (Py.truthy rating_range = true ->
                          Models.rating_range s = rating_range)
                      /\ (Py.truthy time_control = true ->
                          Models.time_control s = time_control)
                      /\ (min_games <> 0 -> min_games <= total_games s))
              answer.
Proof.
  intro Hc. unfold get_openings.
  rewrite class_getattr_column with (c := c) by exact Hc. cbn [ordered].
  eexists. split; [reflexivity|].
  match goal with
  | |- context [unique [] (map fst (limit limit_ ?rows))] => set (sorted_rows := rows)
  end.
  destruct (unique_spec (map fst (limit limit_ sorted_rows)) []) as (Hnd & Hin & Hlen).
  split; [exact Hnd|]. split.
  - intro Hlimit. pose proof (limit_length sorted_rows Hlimit) as Hmost.
    unfold Py.len in *. rewrite length_map in Hlen. lia.
  - apply Forall_forall. intros o Ho.
    destruct (Hin o Ho) as [Hrow _].
    apply in_map_iff in Hrow. destruct Hrow as ([o' s] & Heq & Hrow).
    simpl in Heq. subst o'.
    apply limit_In in Hrow.
    assert (Hquery : In (o, s) (join db)
                     /\ (Py.truthy rating_range = true ->
                         Models.rating_range s = rating_range)
                     /\ (Py.truthy time_control = true ->
                         Models.time_control s = time_control)
                     /\ (min_games <> 0 -> min_games <= total_games s)).
    { unfold sorted_rows in Hrow.
      assert (Hfiltered :
        In (o, s)
           (if negb (min_games =? 0)
            then filter (fun r => total_games (snd r) >=? min_games)
                   (if Py.truthy time_control
                    then filter (fun r => eq_param_str (Models.time_control (snd r)) time_control)
                           (if Py.truthy rating_range
                            then filter (fun r => eq_param_str (Models.rating_range (snd r)) rating_range)
                                   (join db)
                            else join db)
                    else if Py.truthy rating_range
                         then filter (fun r => eq_param_str (Models.rating_range (snd r)) rating_range)
                                (join db)
                         else join db)
            else if Py.truthy time_control
                 then filter (fun r => eq_param_str (Models.time_control (snd r)) time_control)
                        (if Py.truthy rating_range
                         then filter (fun r => eq_param_str (Models.rating_range (snd r)) rating_range)
                                (join db)
                         else join db)
                 else if Py.truthy rating_range
                      then filter (fun r => eq_param_str (Models.rating_range (snd r)) rating_range)
                             (join db)
                      else join db)).
      { destruct (String.eqb (Py.lower order) "desc");
          unfold order_by_desc, order_by in Hrow; apply sort_In in Hrow; exact Hrow. }
      clear Hrow.
      destruct (Z.eqb_spec min_games 0) as [Hzero|Hpositive];
        destruct (Py.truthy time_control), (Py.truthy rating_range);
        cbn [negb] in Hfiltered;
        repeat match type of Hfiltered with
               | In _ (filter _ _) =>
                   apply filter_In in Hfiltered;
                   let Hkeep := fresh "Hkeep" in
                   destruct Hfiltered as [Hfiltered Hkeep]; cbn [snd] in Hkeep
               end;
        (split; [exact Hfiltered|]);
        repeat split; intro; try congruence;
        try (apply eq_param_str_spec; assumption);
        try (match goal with
             | Hk : (_ >=? _) = true |- _ => apply Z.geb_le in Hk; exact Hk
             end). }
    destruct Hquery as (Hjoin & Hrr & Htc & Hgames).
    apply join_In in Hjoin. destruct Hjoin as (Hstored & Hs & Hlink).
    split; [exact Hstored|]. exists s.
    repeat split; try assumption.
    unfold eq_join in Hlink.
    destruct (id o) as [x|], (opening_id s) as [y|]; try discriminate.
    apply Z.eqb_eq in Hlink. congruence.
Qed.
End ByColumn.

Section TierRoundTrip.
Import Models Orm Api.
Variable utcnow : nat -> Z.
Variables rating_range time_control user : string.

Local Arguments next_pk : simpl never.
Local Arguments sql_update : simpl never.

(** An item of the tier list once the placement [u] is written. *)
Definition placed (u : TierListUpdate) (item : TierListResponse) : TierListResponse :=
  if eq_param_Z (id (tl_opening item)) (Some (u_opening_id u))
  then {| tl_opening := tl_opening item;
          tl_statistics := tl_statistics item;
          tl_tier_rank := Some (u_tier_rank u);
          tl_tier_position := Some (u_tier_position u) |}
  else item.

Lemma find_map_same (A : Type) (p : A -> bool) (f : A -> A) (l : list A) :
  (forall x, In x l -> p (f x) = p x) ->
  find p (map f l) = option_map f (find p l).
Proof.
  induction l as [|x r IH]; intro Hp; simpl; [reflexivity|].
  rewrite (Hp x (or_introl eq_refl)).
  destruct (p x); [reflexivity|].
  apply IH. intros y Hy. apply Hp. right. exact Hy.
Qed.

Lemma find_app_one (A : Type) (p : A -> bool) (l : list A) (x : A) :
  find p (l ++ [x])
  = match find p l with
    | Some y => Some y
    | None => if p x then Some x else None
    end.
Proof.
  induction l as [|y r IH]; simpl; [reflexivity|].
  destruct (p y); [reflexivity|exact IH].
Qed.

Lemma tier_key_opening (kk : option Z) (e : TierListEntry) :
  tier_key kk (Some rating_range) (Some time_control) (Some user) e = true ->
  te_opening_id e = kk.
Proof.
  unfold tier_key. intro Hkey.
  apply andb_prop in Hkey. destruct Hkey as [Hkey _].
  apply andb_prop in Hkey. destruct Hkey as [Hkey _].
  apply andb_prop in Hkey. destruct Hkey as [Hkey _].
  apply eq_param_Z_eq, Hkey.
Qed.

(** The lookup of [get_tier_list] after the UPDATE of the row of a key. *)
Lemma find_after_update (u : TierListUpdate) (t : Z) (es : list TierListEntry)
      (r0 : TierListEntry) (key : Z) (kk : option Z) :
  stored es ->
  find (in_context rating_range time_control user (u_opening_id u)) es = Some r0 ->
  te_id r0 = Some key ->
  find (tier_key kk (Some rating_range) (Some time_control) (Some user))
       (sql_update (retiered u t r0) es)
  = if eq_param_Z kk (Some (u_opening_id u))
    then Some (retiered u t r0)
    else find (tier_key kk (Some rating_range) (Some time_control) (Some user)) es.
Proof.
  intros [Hnd _] Hfind Hkey.
  pose proof (find_some _ _ Hfind) as [Hin0 Hmatch0].
  unfold sql_update. cbn [pk Row_TierListEntry retiered te_id].
  rewrite Hkey.
  rewrite find_map_same.
  2:{ intros e He. destruct (has_pk key e) eqn:Hpk; [|reflexivity].
      assert (e = r0).
      { apply (same_pk_same_row es); try assumption.
        rewrite (has_pk_true key e Hpk). symmetry. exact Hkey. }
      subst e. reflexivity. }
  destruct (eq_param_Z kk (Some (u_opening_id u))) eqn:Hkk.
  - apply eq_param_Z_eq in Hkk. subst kk.
    unfold in_context in Hfind. rewrite Hfind. cbn [option_map].
    rewrite (has_pk_of (H := Row_TierListEntry) r0 Hkey). reflexivity.
  - destruct (find (tier_key kk (Some rating_range) (Some time_control) (Some user)) es)
      as [e|] eqn:Hother; [|reflexivity].
    cbn [option_map]. f_equal.
    destruct (has_pk key e) eqn:Hpk; [|reflexivity].
    exfalso.
    pose proof (find_some _ _ Hother) as [Hin Hmatch].
    assert (e = r0).
    { apply (same_pk_same_row es); try assumption.
      rewrite (has_pk_true key e Hpk). symmetry. exact Hkey. }
    subst e.
    apply tier_key_opening in Hmatch. apply tier_key_opening in Hmatch0.
    rewrite Hmatch0 in Hmatch. subst kk.
    rewrite (proj2 (eq_param_Z_eq _ _) eq_refl) in Hkk. discriminate.
Qed.

(** The lookup of [get_tier_list] after the INSERT of a row for a key that
    had none. *)
Lemma find_after_insert (u : TierListUpdate) (key t : Z) (es : list TierListEntry)
      (kk : option Z) :
  find (in_context rating_range time_control user (u_opening_id u)) es = None ->
  find (tier_key kk (Some rating_range) (Some time_control) (Some user))
       (es ++ [inserted_entry rating_range time_control user u key t])
  = if eq_param_Z kk (Some (u_opening_id u))
    then Some (inserted_entry rating_range time_control user u key t)
    else find (tier_key kk (Some rating_range) (Some time_control) (Some user)) es.
Proof.
  intro Hfind. rewrite find_app_one.
  destruct (eq_param_Z kk (Some (u_opening_id u))) eqn:Hkk.
  - apply eq_param_Z_eq in Hkk. subst kk.
    unfold in_context in Hfind. rewrite Hfind.
    unfold tier_key, inserted_entry. simpl.
    rewrite Z.eqb_refl, !String.eqb_refl. reflexivity.
  - destruct (find (tier_key kk (Some rating_range) (Some time_control) (Some user)) es)
      as [e|]; [reflexivity|].
    destruct (tier_key kk (Some rating_range) (Some time_control) (Some user)
                (inserted_entry rating_range time_control user u key t)) eqn:Hins;
      [|reflexivity].
    apply tier_key_opening in Hins. simpl in Hins. subst kk.
    rewrite (proj2 (eq_param_Z_eq _ _) eq_refl) in Hkk. discriminate.
Qed.

(** X16.  A placement written is the placement read.  After a call of
    POST /tier-list with one update, GET /tier-list in the same context
    shows the same openings with the same statistics in the same order as
    before; the items of the opening that was placed carry the rank and
    position written, and every other item keeps its placement. *)
Theorem tier_write_then_read (u : TierListUpdate) (db : Db) :
  stored (tier_list_entries db) ->
  let final := update_tier_list no_failure utcnow [u]
                 rating_range time_control user db in
  fst final = Body "Tier list updated successfully"
  /\ get_tier_list (snd final) (Some rating_range) (Some time_control) (Some user)
     = map (placed u)
           (get_tier_list db (Some rating_range) (Some time_control) (Some user)).
Proof.
  intros Hstored final. unfold final. clear final.
  destruct (find (in_context rating_range time_control user (u_opening_id u))
                 (tier_list_entries db)) as [r0|] eqn:Hfind.
  - assert (Hkey : exists key, te_id r0 = Some key).
    { destruct Hstored as [_ Hkeys]. rewrite Forall_forall in Hkeys.
      pose proof (find_some _ _ Hfind) as [Hin _].
      specialize (Hkeys r0 Hin). simpl in Hkeys.
      destruct (te_id r0) as [key|]; [exists key; reflexivity|congruence]. }
    destruct Hkey as [key Hkey].
    rewrite (update_tier_list_updates utcnow rating_range time_control user
               u db Hfind Hkey).
    cbn [fst snd]. split; [reflexivity|].
    unfold get_tier_list.
    change (tier_list_rows (with_entries _ db)) with (tier_list_rows db).
    rewrite map_map. apply map_ext. intro r.
    cbn [tier_list_entries with_entries].
    rewrite (find_after_update u _ (id (fst r)) Hstored Hfind Hkey).
    unfold placed. cbn [tl_opening tl_statistics tl_tier_rank tl_tier_position].
    destruct (eq_param_Z (id (fst r)) (Some (u_opening_id u))); reflexivity.
  - rewrite (update_tier_list_inserts utcnow rating_range time_control user
               u db Hfind).
    cbn [fst snd]. split; [reflexivity|].
    unfold get_tier_list.
    change (tier_list_rows (with_entries _ db)) with (tier_list_rows db).
    rewrite map_map. apply map_ext. intro r.
    cbn [tier_list_entries with_entries].
    rewrite (find_after_insert u _ _ _ (id (fst r)) Hfind).
    unfold placed. cbn [tl_opening tl_statistics tl_tier_rank tl_tier_position].
    destruct (eq_param_Z (id (fst r)) (Some (u_opening_id u))); reflexivity.
Qed.
End TierRoundTrip.

(* ===================================================================== *)
(** ** Properties of the simple collector *)
(* ===================================================================== *)

Section SimpleCollection.
Import Collector SimpleCollector.
Context {F : Type} `{PyFloat F}.
Variable E : Explorer.
Variable max_openings : Z.
Variable Good : OpeningData (F := F) -> Prop.

(** What holds of every line [explore_opening_line] returns holds of every
    line the two loops collect. *)
Hypothesis made_good :
  forall (mvs : list string) (n n' : nat) (line : OpeningData),
    explore_opening_line E mvs n = (Some line, n') -> Good line.

Lemma explore_opening_line_call (mvs : list string) (n : nat) :
  snd (explore_opening_line (F := F) E mvs n) = S n.
Proof.
  unfold explore_opening_line.
  destruct (respond E n _) as [stats|]; [|reflexivity].
  destruct (_ <? 100); reflexivity.
Qed.

Lemma simple_first_moves_spec (first_moves : list TopMove) :
  forall (openings result : list OpeningData) (n n' : nat),
    Forall Good openings ->
    explore_first_moves E first_moves openings n = (result, n') ->
    Forall Good result /\ n' = (n + List.length first_moves)%nat.
Proof.
  induction first_moves as [|move_data rest IH];
    intros openings result n n' Hgood Hrun; simpl in Hrun.
  - inversion Hrun; subst. split; [exact Hgood|simpl; lia].
  - unfold bind at 1 in Hrun.
    pose proof (explore_opening_line_call [tm_move move_data] n) as Hcall.
    destruct (explore_opening_line E [tm_move move_data] n) as [[line|] n1] eqn:Hline;
      simpl in Hcall; subst n1.
    + destruct (total_games line >=? 1000).
      * apply IH in Hrun.
        -- destruct Hrun as [Hres ->]. split; [exact Hres|simpl; lia].
        -- apply Forall_app. split; [exact Hgood|].
           constructor; [|constructor]. eapply made_good, Hline.
      * apply IH in Hrun; [|exact Hgood].
        destruct Hrun as [Hres ->]. split; [exact Hres|simpl; lia].
    + apply IH in Hrun; [|exact Hgood].
      destruct Hrun as [Hres ->]. split; [exact Hres|simpl; lia].
Qed.

Lemma simple_sequences_spec (sequences : list (list string)) :
  forall (openings result : list OpeningData) (n n' : nat),
    Forall Good openings ->
    explore_sequences E max_openings sequences openings n = (result, n') ->
    Forall Good result /\ (n <= n' <= n + List.length sequences)%nat.
Proof.
  induction sequences as [|sequence rest IH];
    intros openings result n n' Hgood Hrun; simpl in Hrun.
  - inversion Hrun; subst. split; [exact Hgood|simpl; lia].
  - destruct (Py.len openings >=? max_openings).
    + inversion Hrun; subst. split; [exact Hgood|simpl; lia].
    + unfold bind at 1 in Hrun.
      pose proof (explore_opening_line_call sequence n) as Hcall.
      destruct (explore_opening_line E sequence n) as [[line|] n1] eqn:Hline;
        simpl in Hcall; subst n1.
      * destruct (total_games line >=? 100).
        -- apply IH in Hrun.
           ++ destruct Hrun as [Hres Hn]. split; [exact Hres|simpl; lia].
           ++ apply Forall_app. split; [exact Hgood|].
              constructor; [|constructor]. eapply made_good, Hline.
        -- apply IH in Hrun; [|exact Hgood].
           destruct Hrun as [Hres Hn]. split; [exact Hres|simpl; lia].
      * apply IH in Hrun; [|exact Hgood].
        destruct Hrun as [Hres Hn]. split; [exact Hres|simpl; lia].
Qed.

Lemma simple_collection_invariant (n : nat) :
  match collect_popular_openings E max_openings n with
  | (None, n') =>
      respond E n {| play := []; breadth := 5 |} = None /\ n' = S n
  | (Some lines, n') =>
      Forall Good lines
      /\ (0 <= max_openings -> Py.len lines <= max_openings)
      /\ (n + 1 <= n' <= n + 25)%nat
  end.
Proof.
  unfold collect_popular_openings, bind at 1, get_top_first_moves.
  destruct (respond E n {| play := []; breadth := 5 |}) as [stats|];
    [|split; reflexivity].
  set (first_moves := flat_map _ _).
  unfold bind.
  destruct (explore_first_moves E (Py.slice_to 5 first_moves) [] (S n))
    as [openings n1] eqn:Hfirst.
  eapply simple_first_moves_spec in Hfirst; [|constructor].
  destruct Hfirst as [Hgood1 Hn1].
  destruct (explore_sequences E max_openings popular_sequences openings n1)
    as [result n2] eqn:Hsecond.
  eapply simple_sequences_spec in Hsecond; [|exact Hgood1].
  destruct Hsecond as [Hgood2 Hn2].
  cbn [ret].
  assert (Hfive : (List.length (Py.slice_to 5 first_moves) <= 5)%nat).
  { change 5%nat with (Z.to_nat 5). apply slice_to_short. lia. }
  change (List.length popular_sequences) with 19%nat in Hn2.
  split; [|split].
  - apply slice_to_Forall. unfold sort_discovered. apply sort_Forall. exact Hgood2.
  - intro Hmax. apply slice_to_length, Hmax.
  - lia.
Qed.
End SimpleCollection.

Section SimpleResults.
Import Collector SimpleCollector.

Lemma explore_opening_line_inv (F : Type) `{PyFloat F} (E : Explorer)
      (mvs : list string) (n n' : nat) (line : OpeningData (F := F)) :
  explore_opening_line E mvs n = (Some line, n') ->
  exists stats,
    respond E n {| play := mvs; breadth := 3 |} = Some stats
    /\ 100 <= ls_white stats + ls_black stats + ls_draws stats
    /\ total_games line = ls_white stats + ls_black stats + ls_draws stats
    /\ moves_sequence line = mvs
    /\ od_performance_score line
       = line_score
           (fdiv (of_int (ls_white stats))
                 (of_int (ls_white stats + ls_black stats + ls_draws stats)))
           (fdiv (of_int (ls_draws stats))
                 (of_int (ls_white stats + ls_black stats + ls_draws stats))).
Proof.
  unfold explore_opening_line. intro Hrun.
  destruct (respond E n _) as [stats|]; [|discriminate].
  exists stats.
  destruct (Z.ltb_spec (ls_white stats + ls_black stats + ls_draws stats) 100)
    as [Hlow|Hok]; [discriminate|].
  inversion Hrun; subst. cbn. repeat split; try reflexivity. exact Hok.
Qed.

(** X17.  [collect_popular_openings] either lets the exception of its
    first, unguarded request escape, or returns lines that all have at
    least 100 games, at most [max_openings] of them when that is not
    negative, after at least 1 and at most 25 requests. *)
Theorem simple_collection_bounded
        (F : Type) `{PyFloat F} (E : Explorer) (max_openings : Z) (n : nat) :
  match collect_popular_openings (F := F) E max_openings n with
  | (None, n') =>
      respond E n {| play := []; breadth := 5 |} = None /\ n' = S n
  | (Some lines, n') =>
      Forall (fun line => 100 <= total_games line) lines
      /\ (0 <= max_openings -> Py.len lines <= max_openings)
      /\ (n + 1 <= n' <= n + 25)%nat
  end.
Proof.
  apply simple_collection_invariant.
  intros mvs k k' line Hline.
  destruct (explore_opening_line_inv _ _ _ Hline) as (stats & _ & Hfloor & Htotal & _).
  rewrite Htotal. exact Hfloor.
Qed.

(** Every count the explorer reports is a count. *)
Definition line_counts_nonnegative (E : Explorer) : Prop :=
  forall n rq stats,
    respond E n rq = Some stats ->
    0 <= ls_white stats /\ 0 <= ls_black stats /\ 0 <= ls_draws stats.

Lemma line_score_range (white black draws : Z) :
  0 <= white -> 0 <= black -> 0 <= draws -> 0 < white + black + draws ->
  let total := white + black + draws in
  (0 <= line_score (F := Q) (fdiv (of_int white) (of_int total))
                   (fdiv (of_int draws) (of_int total)) <= 100)%Q.
Proof.
  intros Hw Hb Hd Ht total.
  pose proof (exact_rates_sum white black draws Ht) as Hsum.
  pose proof (exact_rate_nonnegative (count := white) total Hw) as HW.
  pose proof (exact_rate_nonnegative (count := black) total Hb) as HB.
  pose proof (exact_rate_nonnegative (count := draws) total Hd) as HD.
  fold total in Hsum.
  repeat rewrite exact_rate_positive in Hsum by exact Ht.
  rewrite exact_rate_positive in HW, HB, HD by exact Ht.
  unfold line_score. simpl.
  set (W := (inject_Z white / inject_Z total)%Q) in *.
  set (B := (inject_Z black / inject_Z total)%Q) in *.
  set (D := (inject_Z draws / inject_Z total)%Q) in *.
  change (inject_Z 100) with 100%Q.
  split; lra.
Qed.

(** X18.  When the explorer reports counts that are not negative, every
    line the simple collector returns has, in exact arithmetic, a score
    between 0 and 100. *)
Theorem simple_scores_in_range (E : Explorer) (max_openings : Z) (n : nat) :
  line_counts_nonnegative E ->
  match fst (collect_popular_openings (F := Q) E max_openings n) with
  | None => True
  | Some lines =>
      Forall (fun line => (0 <= od_performance_score line <= 100)%Q) lines
  end.
Proof.
  intro Hcounts.
  pose proof (simple_collection_invariant (F := Q) E max_openings
                (fun line => (0 <= od_performance_score line <= 100)%Q)) as Hinv.
  assert (Hmade : forall (mvs : list string) (k k' : nat) (line : OpeningData),
             explore_opening_line E mvs k = (Some line, k') ->
             (0 <= od_performance_score line <= 100)%Q).
  { intros mvs k k' line Hline.
    destruct (explore_opening_line_inv _ _ _ Hline)
      as (stats & Hanswer & Hfloor & _ & _ & Hscore).
    destruct (Hcounts _ _ _ Hanswer) as (Hw & Hb & Hd).
    rewrite Hscore. apply line_score_range; lia. }
  specialize (Hinv Hmade n).
  destruct (collect_popular_openings E max_openings n) as [[lines|] n'];
    [|exact I].
  destruct Hinv as (Hgood & _). exact Hgood.
Qed.
End SimpleResults.

(* ===================================================================== *)
(** ** From a load to the tier list *)
(* ===================================================================== *)

Section Zipping.
Variables A B : Type.

Lemma flat_map_zip (g : A -> list (A * B)) (l : list A) (r : list B) :
  List.length l = List.length r ->
  (forall i x y, nth_error l i = Some x -> nth_error r i = Some y -> g x = [(x, y)]) ->
  flat_map g l = combine l r.
Proof.
  revert r. induction l as [|x l IH]; intros [|y r] Hlen Hg; simpl in *;
    try discriminate; [reflexivity|].
  rewrite (Hg 0%nat x y eq_refl eq_refl). simpl. f_equal.
  apply IH; [lia|].
  intros i x' y' Hx Hy. apply (Hg (S i)); assumption.
Qed.

Lemma filter_all (p : A -> bool) (l : list A) :
  (forall x, In x l -> p x = true) -> filter p l = l.
Proof.
  induction l as [|x l IH]; intro Hp; simpl; [reflexivity|].
  rewrite (Hp x (or_introl eq_refl)). f_equal.
  apply IH. intros y Hy. apply Hp. right. exact Hy.
Qed.

Lemma filter_none (p : A -> bool) (l : list A) :
  (forall x, In x l -> p x = false) -> filter p l = [].
Proof.
  induction l as [|x l IH]; intro Hp; simpl; [reflexivity|].
  rewrite (Hp x (or_introl eq_refl)).
  apply IH. intros y Hy. apply Hp. right. exact Hy.
Qed.

Lemma same_key_same_element (f : A -> option Z) (l : list A) (x y : A) :
  NoDup (map f l) -> In x l -> In y l -> f x = f y -> x = y.
Proof.
  induction l as [|z l IH]; intros Hnd Hx Hy Hf; simpl in *; [contradiction|].
  inversion Hnd as [|? ? Hnotin Hnd']; subst.
  destruct Hx as [->|Hx], Hy as [->|Hy].
  - reflexivity.
  - exfalso. apply Hnotin. rewrite Hf. apply in_map, Hy.
  - exfalso. apply Hnotin. rewrite <- Hf. apply in_map, Hx.
  - apply IH; assumption.
Qed.
End Zipping.

Section LoadedRows.
Import Models Orm Api.

Lemma nth_error_linked (statistics : list OpeningStatistic) :
  forall (k a : Z) (i : nat) (s : OpeningStatistic),
    nth_error (numbered k (linked_from a statistics)) i = Some s ->
    opening_id s = Some (a + Z.of_nat i).
Proof.
  induction statistics as [|x rest IH]; intros k a i s Hnth.
  - destruct i; discriminate.
  - destruct i as [|i]; simpl in Hnth.
    + inversion Hnth. simpl. f_equal. lia.
    + apply IH in Hnth. rewrite Hnth. f_equal. lia.
Qed.

Lemma linked_keys_distinct (statistics : list OpeningStatistic) (k : Z) :
  NoDup (map opening_id (numbered k (linked_from 1 statistics))).
Proof.
  apply NoDup_nth_error. intros i j Hi Hij.
  rewrite length_map in Hi.
  rewrite !nth_error_map in Hij.
  destruct (nth_error (numbered k (linked_from 1 statistics)) i) as [s|] eqn:Hs.
  2:{ apply nth_error_None in Hs. lia. }
  destruct (nth_error (numbered k (linked_from 1 statistics)) j) as [s'|] eqn:Hs';
    [|discriminate].
  apply nth_error_linked in Hs, Hs'. cbn [option_map] in Hij.
  rewrite Hs, Hs' in Hij.
  assert (1 + Z.of_nat i = 1 + Z.of_nat j) by congruence. lia.
Qed.

Lemma join_filter_unique (l : list OpeningStatistic) (s : OpeningStatistic) (k : Z) :
  NoDup (map opening_id l) -> In s l -> opening_id s = Some k ->
  filter (fun s' => eq_join (Some k) (opening_id s')) l = [s].
Proof.
  intros Hnd Hin Hlink.
  induction l as [|y l IH]; cbn [filter map In] in *; [contradiction|].
  inversion Hnd as [|? ? Hnotin Hnd']; subst.
  destruct Hin as [->|Hin].
  - replace (eq_join (Some k) (opening_id s)) with true
      by (symmetry; apply eq_join_true; exists k; tauto).
    f_equal.
    apply filter_none. intros z Hz.
    destruct (eq_join (Some k) (opening_id z)) eqn:Hjoin; [|reflexivity].
    exfalso. apply Hnotin. rewrite Hlink.
    apply eq_join_true in Hjoin. destruct Hjoin as (k' & Hk & Hz').
    inversion Hk; subst k'. rewrite <- Hz'. apply in_map, Hz.
  - destruct (eq_join (Some k) (opening_id y)) eqn:Hjoin.
    + exfalso. apply Hnotin.
      apply eq_join_true in Hjoin. destruct Hjoin as (k' & Hk & Hy).
      inversion Hk; subst k'. rewrite Hy, <- Hlink. apply in_map, Hin.
    + apply IH; assumption.
Qed.

(** After a load the join pairs the i-th opening with the i-th statistic,
    and with no other. *)
Lemma loaded_join (os : list Opening) (ss : list OpeningStatistic)
      (ls : list DataUpdateLog) (es : list TierListEntry) :
  List.length os = List.length ss ->
  join {| openings := numbered 1 os;
          statistics := numbered 1 (linked_from 1 ss);
          update_logs := ls; tier_list_entries := es |}
  = combine (numbered 1 os) (numbered 1 (linked_from 1 ss)).
Proof.
  intro Hlen. unfold join. cbn [openings statistics].
  apply flat_map_zip.
  - rewrite !numbered_length, linked_from_length. exact Hlen.
  - intros i o s Ho Hs.
    pose proof (nth_error_numbered (H := Row_Opening) (fun _ _ => eq_refl) os 1 i Ho) as Hid.
    cbn [pk Row_Opening] in Hid.
    pose proof (nth_error_linked ss 1 1 i Hs) as Hlink.
    rewrite Hid.
    rewrite join_filter_unique with (s := s);
      [reflexivity|apply linked_keys_distinct|exact (nth_error_In _ _ Hs)|exact Hlink].
Qed.

Lemma loaded_rows_latest (os : list Opening) (ss : list OpeningStatistic)
      (ls : list DataUpdateLog) (es : list TierListEntry) (s : OpeningStatistic) :
  In s (numbered 1 (linked_from 1 ss)) ->
  is_latest {| openings := numbered 1 os;
               statistics := numbered 1 (linked_from 1 ss);
               update_logs := ls; tier_list_entries := es |} s = true.
Proof.
  intro Hs. apply is_latest_spec; [exact Hs|]. cbn [statistics]. split.
  - apply In_nth_error in Hs. destruct Hs as [i Hi].
    rewrite (nth_error_linked ss 1 1 i Hi). discriminate.
  - intros s' Hs' Hsame.
    assert (s' = s).
    { apply (same_key_same_element opening_id (numbered 1 (linked_from 1 ss)));
        try assumption. apply linked_keys_distinct. }
    subst s'. lia.
Qed.
End LoadedRows.

Section AfterLoad.
Import Models Orm Api Processor Loader.

Lemma numbered_In_inv (R : Type) `{Row R} (news : list R) :
  forall (k : Z) (r : R),
    In r (numbered k news) -> exists k' r0, In r0 news /\ r = with_pk k' r0.
Proof.
  induction news as [|x rest IH]; intros k r Hin; simpl in Hin; [contradiction|].
  destruct Hin as [<-|Hin].
  - exists k, x. split; [left; reflexivity|reflexivity].
  - destruct (IH _ _ Hin) as (k' & r0 & Hr0 & ->).
    exists k', r0. split; [right; exact Hr0|reflexivity].
Qed.

Lemma linked_from_In_inv (statistics : list OpeningStatistic) :
  forall (k : Z) (s : OpeningStatistic),
    In s (linked_from k statistics) ->
    exists k' s0, In s0 statistics /\ s = set_opening_id (Some k') s0.
Proof.
  induction statistics as [|x rest IH]; intros k s Hin; simpl in Hin; [contradiction|].
  destruct Hin as [<-|Hin].
  - exists k, x. split; [left; reflexivity|reflexivity].
  - destruct (IH _ _ Hin) as (k' & s0 & Hs0 & ->).
    exists k', s0. split; [right; exact Hs0|reflexivity].
Qed.

(** What a readable file leaves in the database. *)
Lemma process_file_result (clock : Z -> Z) (utcnow : nat -> Z)
      (raw_data : list RawOpening) (db : Db) :
  Forall readable raw_data ->
  exists (os : list Opening) (ss : list OpeningStatistic) (finished : DataUpdateLog),
    process_file clock no_failure utcnow (Some raw_data) db
    = (true,
       {| openings := numbered 1 os;
          statistics := numbered 1 (linked_from 1 ss);
          update_logs := update_logs db ++ [finished];
          tier_list_entries := tier_list_entries db |})
    /\ List.length os = List.length raw_data
    /\ List.length ss = List.length raw_data
    /\ Forall (fun o => is_active o = true) os
    /\ Forall (fun s => Models.rating_range s = Some "all"
                        /\ Models.time_control s = Some "all") ss.
Proof.
  intro Hread.
  destruct (process_from_readable clock Hread 1)
    as (os & ss & Hrun & Hos & Hss & Hlo & Hls & _ & Hact & _ & Hrr & Htc).
  change (Z.of_nat 1) with 1 in Hrun.
  exists os, ss. eexists. split; [|split; [exact Hlo|split; [exact Hls|split]]].
  - unfold process_file, process_opening_data. rewrite Hrun.
    rewrite save_to_database_fresh by (try assumption; lia).
    reflexivity.
  - apply Forall_forall. intros o Ho.
    assert (Hin : In (is_active o) (map is_active os)) by (apply in_map, Ho).
    rewrite Hact in Hin. apply in_map_iff in Hin.
    destruct Hin as (d & Hd & _). congruence.
  - apply Forall_forall. intros s Hs. split.
    + assert (Hin : In (Models.rating_range s) (map Models.rating_range ss))
        by (apply in_map, Hs).
      rewrite Hrr in Hin. apply in_map_iff in Hin.
      destruct Hin as (d & Hd & _). congruence.
    + assert (Hin : In (Models.time_control s) (map Models.time_control ss))
        by (apply in_map, Hs).
      rewrite Htc in Hin. apply in_map_iff in Hin.
      destruct Hin as (d & Hd & _). congruence.
Qed.

Lemma context_filter_other (param : string) :
  Py.truthy (Some param) = true -> param <> "all" ->
  context_filter (Some param) (Some "all") = false.
Proof.
  intros Htruthy Hother. unfold context_filter. rewrite Htruthy.
  cbn [eq_param_str andb negb].
  destruct (String.eqb_spec param "all") as [Heq|_]; [contradiction|].
  cbn [negb].
  destruct (String.eqb_spec "all" param) as [Heq|_]; [congruence|reflexivity].
Qed.

(** What GET /tier-list computes after a load, with rows of equal score in
    the order of the join. *)
Lemma tier_list_rows_after_load
        (clock : Z -> Z) (utcnow : nat -> Z)
        (raw_data : list RawOpening) (db : Db) (user : option string) :
  Forall readable raw_data ->
  let loaded_db := snd (process_file clock no_failure utcnow (Some raw_data) db) in
  map (fun item => (tl_opening item, tl_statistics item))
      (get_tier_list loaded_db (Some "all") (Some "all") user)
  = firstn 50
      (order_by_desc (fun r => VReal (performance_score (snd r)))
         (combine (openings loaded_db) (statistics loaded_db)))
  /\ List.length (openings loaded_db) = List.length raw_data
  /\ List.length (statistics loaded_db) = List.length raw_data
  /\ (forall (rating_range : string) (time_control : option string),
         Py.truthy (Some rating_range) = true -> rating_range <> "all" ->
         get_tier_list loaded_db (Some rating_range) time_control user = [])
  /\ (forall (rating_range : option string) (time_control : string),
         Py.truthy (Some time_control) = true -> time_control <> "all" ->
         get_tier_list loaded_db rating_range (Some time_control) user = []).
Proof.
  intros Hread loaded_db.
  destruct (process_file_result clock utcnow db Hread)
    as (os & ss & finished & Hfile & Hlo & Hls & Hactive & Hcontext).
  unfold loaded_db. rewrite Hfile. cbn [snd openings statistics]. clear loaded_db Hfile.
  assert (Hlen : List.length os = List.length ss) by congruence.
  set (loaded := {| openings := numbered 1 os;
                    statistics := numbered 1 (linked_from 1 ss);
                    update_logs := update_logs db ++ [finished];
                    tier_list_entries := tier_list_entries db |}).
  assert (Hjoin : join loaded = combine (numbered 1 os) (numbered 1 (linked_from 1 ss)))
    by (apply loaded_join, Hlen).
  assert (Hrow_active : forall r, In r (join loaded) -> is_active (fst r) = true).
  { intros [o s] Hr. rewrite Hjoin in Hr. apply in_combine_l in Hr.
    destruct (numbered_In_inv _ _ _ Hr) as (k & o0 & Ho0 & ->).
    rewrite Forall_forall in Hactive. exact (Hactive o0 Ho0). }
  assert (Hrow_latest : forall r, In r (join loaded) -> is_latest loaded (snd r) = true).
  { intros [o s] Hr. rewrite Hjoin in Hr. apply in_combine_r in Hr.
    apply loaded_rows_latest, Hr. }
  assert (Hrow_context :
            forall r, In r (join loaded) ->
                      Models.rating_range (snd r) = Some "all"
                      /\ Models.time_control (snd r) = Some "all").
  { intros [o s] Hr. rewrite Hjoin in Hr. apply in_combine_r in Hr.
    destruct (numbered_In_inv _ _ _ Hr) as (k & s1 & Hs1 & ->).
    destruct (linked_from_In_inv _ _ _ Hs1) as (k' & s0 & Hs0 & ->).
    rewrite Forall_forall in Hcontext. exact (Hcontext s0 Hs0). }
  split; [|split; [|split; [|split]]].
  - unfold get_tier_list. rewrite map_map. cbn [tl_opening tl_statistics].
    rewrite (map_ext _ (fun r => r)) by (intros [o s]; reflexivity).
    rewrite map_id. unfold tier_list_rows.
    rewrite (filter_all (fun r => is_active (fst r))) by exact Hrow_active.
    rewrite (filter_all (fun r => context_filter (Some "all") (Models.rating_range (snd r))))
      by (intros; reflexivity).
    rewrite (filter_all (fun r => context_filter (Some "all") (Models.time_control (snd r))))
      by (intros; reflexivity).
    rewrite (filter_all (fun r => is_latest loaded (snd r))) by exact Hrow_latest.
    rewrite Hjoin. reflexivity.
  - rewrite numbered_length. exact Hlo.
  - rewrite numbered_length, linked_from_length. exact Hls.
  - intros rating_range time_control Htruthy Hother.
    unfold get_tier_list, tier_list_rows.
    rewrite (filter_none
               (fun r => context_filter (Some rating_range) (Models.rating_range (snd r)))).
    + reflexivity.
    + intros r Hr. apply filter_In in Hr. destruct Hr as [Hr _].
      destruct (Hrow_context r Hr) as [-> _].
      apply context_filter_other; assumption.
  - intros rating_range time_control Htruthy Hother.
    unfold get_tier_list, tier_list_rows.
    rewrite (filter_none
               (fun r => context_filter (Some time_control) (Models.time_control (snd r)))).
    + reflexivity.
    + intros r Hr. apply filter_In in Hr. destruct Hr as [Hr _].
      apply filter_In in Hr. destruct Hr as [Hr _].
      destruct (Hrow_context r Hr) as [_ ->].
      apply context_filter_other; assumption.
Qed.

Lemma by_score_sorted (rows : list (Opening * OpeningStatistic)) :
  Sorted (fun a b => (performance_score (snd b) <= performance_score (snd a))%Q)
         (order_by_desc (fun r => VReal (performance_score (snd r))) rows).
Proof.
  apply sorted_weaken with
    (R := in_order (fun y x : Opening * OpeningStatistic =>
                      sql_ltb (VReal (performance_score (snd x)))
                              (VReal (performance_score (snd y))))).
  - intros x y Hxy. unfold in_order in Hxy. simpl in *.
    apply Qltb_false, Hxy.
  - unfold order_by_desc.
    apply sort_sorted. intros x y Hxy. simpl in *. apply Qltb_asym, Hxy.
Qed.

(** X19.  What GET /tier-list shows after a load.  The loader stores one
    opening and one statistic for every record of the file, and pairs the
    i-th with the i-th.  In the context "all"/"all" the endpoint shows 50
    of these pairs, or all of them when they are fewer, no pair twice over
    its count, in descending order of performance score; every pair it
    leaves out scores no more than every pair it shows.  Which of several
    pairs of equal score come first, or fall on the kept side of the cut,
    is not said.  In the context of any specific rating range or time
    control it shows nothing, since the loader files every statistic under
    "all". *)
Theorem tier_list_after_load
        (clock : Z -> Z) (utcnow : nat -> Z)
        (raw_data : list RawOpening) (db : Db) (user : option string) :
  Forall readable raw_data ->
  let loaded_db := snd (process_file clock no_failure utcnow (Some raw_data) db) in
  let shown :=
    map shown_pair (get_tier_list loaded_db (Some "all") (Some "all") user) in
  List.length (openings loaded_db) = List.length raw_data
  /\ List.length (statistics loaded_db) = List.length raw_data
  /\ List.length shown = Nat.min 50 (List.length raw_data)
  /\ Sorted (fun a b => (performance_score (snd b) <= performance_score (snd a))%Q)
            shown
  /\ (exists left_out,
         Permutation (shown ++ left_out)
                     (combine (openings loaded_db) (statistics loaded_db))
         /\ forall r a, In r left_out -> In a shown ->
                        (performance_score (snd r) <= performance_score (snd a))%Q)
  /\ (forall (rating_range : string) (time_control : option string),
         Py.truthy (Some rating_range) = true -> rating_range <> "all" ->
         get_tier_list loaded_db (Some rating_range) time_control user = [])
  /\ (forall (rating_range : option string) (time_control : string),
         Py.truthy (Some time_control) = true -> time_control <> "all" ->
         get_tier_list loaded_db rating_range (Some time_control) user = []).
Proof.
  intros Hread loaded_db shown.
  destruct (tier_list_rows_after_load clock utcnow db user Hread)
    as (Hrows & Hopenings & Hstatistics & Hrange & Hcontrol).
  fold loaded_db in Hrows, Hopenings, Hstatistics, Hrange, Hcontrol.
  change (map (fun item => (tl_opening item, tl_statistics item))
              (get_tier_list loaded_db (Some "all") (Some "all") user))
    with shown in Hrows.
  set (pairs := combine (openings loaded_db) (statistics loaded_db)) in *.
  set (rows := order_by_desc (fun r => VReal (performance_score (snd r))) pairs) in *.
  assert (Hsorted : Sorted (fun a b : Opening * OpeningStatistic =>
                              (performance_score (snd b) <= performance_score (snd a))%Q)
                           rows)
    by apply by_score_sorted.
  split; [exact Hopenings|]. split; [exact Hstatistics|].
  split; [|split; [|split; [|split; [exact Hrange|exact Hcontrol]]]].
  - rewrite Hrows, length_firstn. unfold rows, order_by_desc.
    rewrite sort_length. unfold pairs. rewrite length_combine.
    rewrite Hopenings, Hstatistics, Nat.min_id. reflexivity.
  - rewrite Hrows. apply firstn_sorted. exact Hsorted.
  - exists (skipn 50 rows). rewrite Hrows. split.
    + rewrite firstn_skipn. unfold rows, order_by_desc.
      apply Permutation_sym, sort_perm.
    + intros r a Hr Ha.
      refine (@sorted_cut _ (fun x y : Opening * OpeningStatistic =>
                               (performance_score (snd y)
                                <= performance_score (snd x))%Q)
                _ 50 rows a r Hsorted Ha Hr).
      intros x y z Hxy Hyz. exact (Qle_trans _ _ _ Hyz Hxy).
Qed.
End AfterLoad.

(* ===================================================================== *)
(** ** The perspective rates of a statistic *)
(* ===================================================================== *)

Section PerspectiveRates.
Import Models.

(** X20.  For a statistic whose total is the sum of its three counts and
    is not zero, the rate from White's perspective and the rate from
    Black's perspective add up to 1 in exact arithmetic: a draw counts
    half for each side. *)
Theorem perspective_rates_sum (s : OpeningStatistic) :
  total_games s = white_wins s + black_wins s + draws s ->
  total_games s <> 0 ->
  (win_rate_for_white (F := Q) s + win_rate_for_black (F := Q) s == 1)%Q.
Proof.
  intros Htotal Hnonzero. unfold win_rate_for_white, win_rate_for_black.
  destruct (Z.eqb_spec (total_games s) 0) as [Hzero|_]; [contradiction|].
  simpl. rewrite Htotal in *.
  assert (Hnz : ~ inject_Z (white_wins s + black_wins s + draws s) == 0).
  { intro Hz. unfold Qeq in Hz. simpl in Hz. lia. }
  rewrite !inject_Z_plus in *.
  field. exact Hnz.
Qed.

Lemma perspective_rates_sum_witness :
  (win_rate_for_white (F := Q) (sample_statistic 200)
   + win_rate_for_black (F := Q) (sample_statistic 200) == 1)%Q.
Proof.
  apply perspective_rates_sum; [reflexivity|discriminate].
Defined.
End PerspectiveRates.

(* ===================================================================== *)
(** ** The properties at work *)
(* ===================================================================== *)

Section EndpointWitnesses.
Import Models Orm Api Queries Loader.

Lemma top_performers_by_column_witness :
  exists answer,
    get_top_performers bare_library prior_snapshot 10 "total_games" = Body answer
    /\ (0 <= 10 -> Py.len answer <= 10)
    /\ Forall (fun item =>
                 In (tp_opening item) (openings prior_snapshot)
                 /\ In (tp_statistics item) (statistics prior_snapshot)
                 /\ opening_id (tp_statistics item) = id (tp_opening item)
                 /\ is_active (tp_opening item) = true
                 /\ 100 <= total_games (tp_statistics item)
                 /\ metric_value item
                    = Scalar (column_value Ctotal_games (tp_statistics item)))
              answer
    /\ Sorted (not_below Ctotal_games) answer.
Proof.
  apply top_performers_by_column with (c := Ctotal_games).
  reflexivity.
Defined.

Lemma get_openings_by_column_witness :
  exists answer,
    get_openings bare_library prior_snapshot None None 100 "total_games" "desc" 50
    = Body answer
    /\ NoDup (map id answer).
Proof.
  destruct (get_openings_by_column bare_library prior_snapshot None None 100
              "total_games" "desc" 50 (c := Ctotal_games) eq_refl)
    as (answer & Hanswer & Hnodup & _).
  exists answer. split; assumption.
Defined.

Lemma tier_write_then_read_witness :
  let final := update_tier_list no_failure wall_clock [rank_update 1 "S" 1]
                 "all" "all" "default" prior_snapshot in
  fst final = Body "Tier list updated successfully"
  /\ get_tier_list (snd final) (Some "all") (Some "all") (Some "default")
     = map (placed (rank_update 1 "S" 1))
           (get_tier_list prior_snapshot (Some "all") (Some "all") (Some "default")).
Proof.
  apply tier_write_then_read.
  split; constructor.
Defined.

Lemma tier_list_after_load_witness :
  let loaded_db :=
    snd (process_file (fun i => 2000 + i) no_failure wall_clock
           (Some [sample_record (Some (Some 7)); sample_record None])
           prior_snapshot) in
  List.length (openings loaded_db) = 2%nat
  /\ List.length (get_tier_list loaded_db (Some "all") (Some "all") (Some "default"))
     = 2%nat
  /\ get_tier_list loaded_db (Some "1800-2000") (Some "blitz") (Some "default") = [].
Proof.
  assert (Hread : Forall readable
                    [sample_record (Some (Some 7)); sample_record None])
    by (repeat constructor; discriminate).
  destruct (tier_list_after_load (fun i => 2000 + i) wall_clock prior_snapshot
              (Some "default") Hread)
    as (Hlength & _ & Hshown & _ & _ & Hrange & _).
  split; [exact Hlength|]. split.
  - rewrite length_map in Hshown. exact Hshown.
  - apply Hrange; [reflexivity|discriminate].
Defined.
End EndpointWitnesses.

Section SimpleWitness.
Import Collector SimpleCollector.

(** An explorer that knows one first move and reports 200 games for every
    line. *)
Definition sample_explorer : Explorer :=
  {| respond := fun n rq =>
       match n with
       | 0%nat =>
           Some {| ls_moves := [{| san := "e4"; uci := "e2e4"; white := 600;
                                   black := 300; draws := 200;
                                   averageRating := None |}];
                   ls_white := 600; ls_black := 300; ls_draws := 200;
                   ls_opening := None |}
       | _ =>
           Some {| ls_moves := []; ls_white := 90; ls_black := 80;
                   ls_draws := 30; ls_opening := None |}
       end;
     now := fun n => 3000 + Z.of_nat n |}.

Lemma simple_scores_in_range_witness :
  line_counts_nonnegative sample_explorer
  /\ match fst (collect_popular_openings (F := Q) sample_explorer 3 0%nat) with
     | None => True
     | Some lines =>
         Forall (fun line => (0 <= od_performance_score line <= 100)%Q) lines
     end.
Proof.
  assert (Hcounts : line_counts_nonnegative sample_explorer).
  { intros n rq stats Hanswer. simpl in Hanswer.
    destruct n; inversion Hanswer; subst; simpl; lia. }
  split; [exact Hcounts|].
  exact (simple_scores_in_range (E := sample_explorer) 3 0%nat Hcounts).
Defined.
End SimpleWitness.

(* ===================================================================== *)
(** ** An outage of the provider *)
(* ===================================================================== *)

Section Outage.
Import Collector.
Context {F : Type} `{PyFloat F}.

(** X21.  When the request for the first moves fails, the discovery engine
    swallows the exception, makes no further request and returns no line,
    whatever the limit. *)
Theorem discovery_without_first_moves (P : Provider) (max_openings : Z) (n : nat) :
  respond P n {| play := []; breadth := 8 |} = None ->
  discover_openings_tree (F := F) P max_openings n = ([], S n).
Proof.
  intro Hfail. unfold discover_openings_tree, bind, get_popular_openings.
  rewrite Hfail.
  change (Py.slice_to 8 (@nil (FirstMove (F := F)))) with (@nil (FirstMove (F := F))).
  change (explore_first_moves P max_openings [] [] (S n))
    with (@nil (OpeningData (F := F)), S n).
  change (sort_discovered (@nil (OpeningData (F := F)))) with (@nil (OpeningData (F := F))).
  unfold ret, Py.slice_to.
  destruct (max_openings <? 0); rewrite firstn_nil; reflexivity.
Qed.
End Outage.

(** A provider that is down. *)
Definition silent_provider : Collector.Provider :=
  {| Collector.respond := fun _ _ => None;
     Collector.utcnow := fun n => Z.of_nat n |}.

Lemma discovery_without_first_moves_witness :
  Collector.discover_openings_tree (F := Q) silent_provider 50 0%nat = ([], 1%nat).
Proof.
  apply discovery_without_first_moves. reflexivity.
Defined.

(* ===================================================================== *)
(** ** What POST /tier-list leaves alone *)
(* ===================================================================== *)

Section TierFrame.
Import Models Orm Api.
Variable plan : nat -> option string.
Variable utcnow : nat -> Z.
Variables rating_range time_control user : string.

(** The tables of a database other than the tier list entries. *)
Definition other_tables (d : Db) : list Opening * list OpeningStatistic * list DataUpdateLog :=
  (openings d, statistics d, update_logs d).

(** The session holds no object of another table. *)
Definition only_entries (s : Session) : Prop :=
  other_tables (loaded s) = ([], [], []) /\ other_tables (pending s) = ([], [], []).

Lemma apply_update_only_entries (u : TierListUpdate) (s : Session) :
  only_entries s ->
  match apply_update plan utcnow rating_range time_control user u s with
  | Ok _ s' => only_entries s'
  | Raise _ s' => True
  end.
Proof.
  intros [Hloaded Hpending].
  unfold apply_update, bind, query_first, round_trip.
  destruct (inactive s); [exact I|].
  destruct (plan (trips s)); [exact I|].
  destruct (find _ (rows TierListEntries (txn (tick s)))) as [r|].
  - destruct (identity_of _ r) as [o|]; simpl; split; assumption.
  - simpl. split; assumption.
Qed.

Lemma apply_updates_only_entries (updates : list TierListUpdate) :
  forall s : Session,
    only_entries s ->
    match apply_updates plan utcnow rating_range time_control user updates s with
    | Ok _ s' => only_entries s'
    | Raise _ s' => True
    end.
Proof.
  induction updates as [|u rest IH]; intros s Hs; simpl; [exact Hs|].
  unfold bind at 1.
  pose proof (apply_update_only_entries u Hs) as Hone.
  destruct (apply_update plan utcnow rating_range time_control user u s)
    as [[] s1|msg s1]; [|exact I].
  apply IH, Hone.
Qed.

Lemma flush_tables_only_entries (s s' : Session) :
  only_entries s ->
  flush_tables utcnow s = Some s' ->
  other_tables (txn s') = other_tables (txn s).
Proof.
  intros [Hloaded Hpending] Hflush.
  destruct s as [st tx pe lo ina tr].
  destruct lo as [lo_o lo_s lo_l lo_e], pe as [pe_o pe_s pe_l pe_e].
  unfold other_tables in Hloaded, Hpending. simpl in Hloaded, Hpending.
  inversion Hloaded; inversion Hpending; subst.
  unfold flush_tables in Hflush. cbn in Hflush.
  unfold flush_table in Hflush. cbn in Hflush.
  match type of Hflush with
  | match ?m with _ => _ end = _ => destruct m as [[t inserted]|]; [|discriminate]
  end.
  inversion Hflush; subst. reflexivity.
Qed.

(** X22.  POST /tier-list writes to the tier list entries only.  Whatever
    the updates and whichever round trips fail, the call ends with its
    success message or with status 500, never with another exception, and
    the openings, the statistics and the update log are what they were. *)
Theorem tier_updates_touch_entries_only (updates : list TierListUpdate) (db : Db) :
  let final := update_tier_list plan utcnow updates
                 rating_range time_control user db in
  other_tables (snd final) = other_tables db
  /\ (fst final = Body "Tier list updated successfully"
      \/ exists msg,
           fst final = HttpException 500 ("Failed to update tier list: " ++ msg)%string).
Proof.
  intro final. unfold final. clear final.
  unfold update_tier_list, try_except, bind.
  pose proof (apply_updates_spec plan utcnow rating_range time_control user
                updates (open_session db) eq_refl) as Hloop.
  assert (Hopen : only_entries (open_session db)) by (split; reflexivity).
  pose proof (apply_updates_only_entries updates Hopen) as Honly.
  destruct (apply_updates plan utcnow rating_range time_control user updates
              (open_session db)) as [[] s1|msg s1].
  - destruct Hloop as (Hst & Htx & Hact & _).
    unfold commit, bind, flush. rewrite Hact.
    destruct (plan (trips s1)) as [msg|].
    + simpl. rewrite Hst. split; [reflexivity|]. right. exists msg. reflexivity.
    + destruct (flush_tables utcnow (tick s1)) as [s2|] eqn:Hflush.
      * simpl. split; [|left; reflexivity].
        rewrite (flush_tables_only_entries (s := tick s1) Honly Hflush).
        simpl. rewrite Htx. reflexivity.
      * simpl. rewrite Hst. split; [reflexivity|].
        right. exists integrity_error. reflexivity.
  - destruct Hloop as (Hst & _). simpl. rewrite Hst.
    split; [reflexivity|]. right. exists msg. reflexivity.
Qed.
End TierFrame.

(* ===================================================================== *)
(** ** A load interrupted at each of its round trips *)
(* ===================================================================== *)

Section FailureTable.
Import Models Orm Processor.
Variable utcnow : nat -> Z.
Variable new_openings : list Opening.
Variable new_statistics : list OpeningStatistic.
Variable db : Db.
Variable msg : string.

Local Arguments next_pk : simpl never.
Local Arguments sql_update : simpl never.
Local Arguments numbered : simpl never.

(** The database with other openings, statistics and log rows. *)
Definition replaced (os : list Opening) (ss : list OpeningStatistic)
           (ls : list DataUpdateLog) : Db :=
  {| openings := os; statistics := ss; update_logs := ls;
     tier_list_entries := tier_list_entries db |}.

(** The log row of the run as its first commit stores it, and as the
    handler stores it at [t]. *)
Definition started_row : DataUpdateLog :=
  log_in_progress (next_pk (update_logs db)) (utcnow 0%nat).

Definition failed_row (t : Z) : DataUpdateLog :=
  log_failed (next_pk (update_logs db)) (utcnow 0%nat) t msg.

(** X23.  A load interrupted up to the commit of its DELETEs, whatever the
    input.  A failure of the first commit lets an exception escape and
    leaves the database untouched, without a log row.  A failure of the
    DELETE of the statistics returns False with the snapshot intact and
    the log marked error.  A failure of the DELETE of the openings returns
    False too, but the handler's commit makes the DELETE of the statistics
    durable: the openings stay and their statistics are gone.  A failure
    of the commit of the DELETEs lets an exception escape, the snapshot
    intact and the log left in progress. *)
Theorem save_to_database_interrupted_early :
  save_to_database (fail_at 0 msg) utcnow new_openings new_statistics db
  = (Raised pending_rollback, db)
  /\ save_to_database (fail_at 1 msg) utcnow new_openings new_statistics db
     = (Returned false,
        replaced (openings db) (statistics db)
                 (update_logs db ++ [failed_row (utcnow 2%nat)]))
  /\ save_to_database (fail_at 2 msg) utcnow new_openings new_statistics db
     = (Returned false,
        replaced (openings db) []
                 (update_logs db ++ [failed_row (utcnow 3%nat)]))
  /\ save_to_database (fail_at 3 msg) utcnow new_openings new_statistics db
     = (Raised pending_rollback,
        replaced (openings db) (statistics db) (update_logs db ++ [started_row])).
Proof.
  unfold replaced, started_row, failed_row.
  destruct db as [os ss ls es]. cbn [openings statistics update_logs tier_list_entries].
  repeat split; unfold save_to_database, try_except; cbn;
    fold (log_in_progress (next_pk ls) (utcnow 0%nat));
    rewrite ?log_written_back; try reflexivity.
  - rewrite (sql_update_last (H := Row_DataUpdateLog)) by reflexivity. reflexivity.
  - rewrite (sql_update_last (H := Row_DataUpdateLog)) by reflexivity. reflexivity.
Qed.

Hypothesis fresh_openings : Forall (fun o => id o = None) new_openings.
Hypothesis fresh_statistics : Forall (fun s => st_id s = None) new_statistics.
Hypothesis enough_openings :
  (List.length new_statistics <= List.length new_openings)%nat.

(** X24.  A load of new objects interrupted after its INSERT of the
    openings.  When re-reading the log row fails, the call returns False
    although the handler's commit then stores the new snapshot completely,
    openings and linked statistics, with the log marked error.  When the
    last commit fails, an exception escapes, both tables are left empty
    and the log is left in progress. *)
Theorem save_to_database_interrupted_late :
  save_to_database (fail_at 5 msg) utcnow new_openings new_statistics db
  = (Returned false,
     replaced (numbered 1 new_openings)
              (numbered 1 (linked_from 1 new_statistics))
              (update_logs db ++ [failed_row (utcnow 6%nat)]))
  /\ save_to_database (fail_at 6 msg) utcnow new_openings new_statistics db
     = (Raised pending_rollback,
        replaced [] [] (update_logs db ++ [started_row])).
Proof.
  unfold replaced, started_row, failed_row.
  destruct db as [os ss ls es]. cbn [openings statistics update_logs tier_list_entries].
  split.
  - unfold save_to_database, try_except. cbn.
    fold (log_in_progress (next_pk ls) (utcnow 0%nat)).
    rewrite log_written_back.
    unfold bind at 1. unfold flush, flush_tables, fail_at. cbn.
    rewrite log_written_back.
    unfold flush_table at 1. cbn.
    rewrite (sql_insert_all_fresh (H := Row_Opening) (fun _ _ => eq_refl)
               (fun _ _ => eq_refl) _ _ fresh_openings).
    cbn.
    replace (next_pk (@nil Opening)) with 1 by reflexivity.
    unfold bind at 1. rewrite link_statistics_enough by lia.
    cbn.
    unfold commit, bind, flush, flush_tables. cbn.
    unfold flush_table at 1. cbn.
    rewrite (sql_insert_all_fresh (H := Row_OpeningStatistic)
               (fun _ _ => eq_refl) (fun _ _ => eq_refl) _ _
               (linked_from_fresh 1 fresh_statistics)).
    rewrite (flush_unchanged (H := Row_Opening)
               (numbered_keys_distinct (H := Row_Opening) (fun _ _ => eq_refl)
                  new_openings 1)
               (incl_refl _)).
    rewrite (sql_update_last (H := Row_DataUpdateLog)) by reflexivity.
    cbn.
    replace (next_pk (@nil OpeningStatistic)) with 1 by reflexivity.
    reflexivity.
  - unfold save_to_database, try_except. cbn.
    fold (log_in_progress (next_pk ls) (utcnow 0%nat)).
    rewrite log_written_back.
    unfold bind at 1. unfold flush, flush_tables, fail_at. cbn.
    rewrite log_written_back.
    unfold flush_table at 1. cbn.
    rewrite (sql_insert_all_fresh (H := Row_Opening) (fun _ _ => eq_refl)
               (fun _ _ => eq_refl) _ _ fresh_openings).
    cbn.
    replace (next_pk (@nil Opening)) with 1 by reflexivity.
    unfold bind at 1. rewrite link_statistics_enough by lia.
    cbn. reflexivity.
Qed.
End FailureTable.

Section FailureWitness.
Import Models Orm Processor.

Lemma save_to_database_interrupted_late_witness :
  save_to_database (fail_at 5 "database is locked") wall_clock
    [sample_opening "Sicilian Defense"] [sample_statistic 200] prior_snapshot
  = (Returned false,
     replaced prior_snapshot
       (numbered 1 [sample_opening "Sicilian Defense"])
       (numbered 1 (linked_from 1 [sample_statistic 200]))
       (update_logs prior_snapshot
        ++ [failed_row wall_clock prior_snapshot "database is locked"
                       (wall_clock 6%nat)])).
Proof.
  refine (proj1 (@save_to_database_interrupted_late wall_clock
                   [sample_opening "Sicilian Defense"] [sample_statistic 200]
                   prior_snapshot "database is locked" _ _ _)).
  - repeat constructor.
  - repeat constructor.
  - simpl. lia.
Defined.
End FailureWitness.
